(** * RuleEngine admin console: the client-side data-shaping pipeline

    A shallow embedding of the TypeScript sources of the three management
    screens (ColumnManagement, ConditionManagement, RuleApply), of the API
    service module and of the Pagination component, together with the
    fragment of the JavaScript runtime those sources call.

    Conventions.
    - A JavaScript [number] is a binary64 float (Rocq's primitive [float]);
      numeric parsing rounds to nearest-even as the engine does.
    - Numbers that are integers by construction (page numbers, array
      indices, the integer ids and orders of the JSON payload) are carried
      as [Z]; [Z2num] gives such a value as a [number] where the code
      computes with it, and [Z2string] the text [toString] gives for that
      number (the decimal digits below 2^53, the shortest digits of the
      rounded number above). The total count, which may come from the
      service wrapper, is a [number].
    - A JavaScript string is a sequence of code units; the embedding carries
      the code units below 256 (ISO-8859-1), for which lower-casing and the
      white-space class are written out in full.
    - [localeCompare] depends on the host's collation tables, which are no
      part of the repository: it is a parameter ([Collator]) constrained by
      the one law every collation obeys (a string collates equal to itself).
    - A React state setter is a state update; an awaited call either returns
      or throws; effects that leave the component (HTTP requests, toasts,
      console output) are recorded in an event log. *)

From Stdlib Require Import ZArith Bool List String Ascii Floats Lia.
From Stdlib Require Import DecimalString DecimalPos Sorted Permutation.
Import ListNotations.

Local Open Scope string_scope.
Local Open Scope list_scope.
Local Open Scope Z_scope.

(* ===================================================================== *)
(** * The JavaScript runtime fragment                                     *)
(* ===================================================================== *)

Module JS.

(** ** Numbers *)

Definition number : Set := float.

Definition NaN : number := PrimFloat.nan.
Definition Infinity : number := PrimFloat.infinity.

(** Global [isNaN] on a value that is already a number. *)
Definition isNaN (x : number) : bool := PrimFloat.is_nan x.

(** The number nearest to an integer (ties to even; overflow to an
    infinity): what reading a JSON integer literal yields. *)
Definition Z2num (z : Z) : number :=
  SF2Prim (binary_normalize prec emax z 0 false).

(** The number nearest to [(-1)^neg * m * 10^e], for [0 <= m]. *)
Definition dec2num (neg : bool) (m e : Z) : number :=
  match m with
  | Zpos p =>
      if 0 <=? e
      then SF2Prim (binary_normalize prec emax
                      (if neg then - (m * 10 ^ e) else m * 10 ^ e) 0 false)
      else SF2Prim (SFdiv prec emax (S754_finite neg p 0)
                      (S754_finite false (Z.to_pos (10 ^ (- e))) 0))
  | _ => if neg then PrimFloat.neg_zero else PrimFloat.zero
  end.

(** ToBoolean on a number: every number but [+0], [-0] and [NaN]. *)
Definition truthy_num (x : number) : bool :=
  negb (PrimFloat.is_zero x || PrimFloat.is_nan x).

(** [x || y] on numbers. *)
Definition or_num (x y : number) : number := if truthy_num x then x else y.

(** ** Strings *)

Definition code (c : ascii) : Z := Z.of_nat (nat_of_ascii c).

Definition in_range (lo hi n : Z) : bool := (lo <=? n) && (n <=? hi).

(** Upper-case letters among the first 256 code points: A-Z, and
    U+00C0..U+00DE without the multiplication sign U+00D7. *)
Definition is_upper (c : ascii) : bool :=
  let n := code c in
  in_range 65 90 n || (in_range 192 222 n && negb (n =? 215)).

Definition lower_char (c : ascii) : ascii :=
  if is_upper c then ascii_of_nat (nat_of_ascii c + 32) else c.

(** [String.prototype.toLowerCase] *)
Fixpoint toLowerCase (s : string) : string :=
  match s with
  | EmptyString => EmptyString
  | String c r => String (lower_char c) (toLowerCase r)
  end.

(** White space and line terminators among the first 256 code points:
    TAB, LF, VT, FF, CR, SP and NBSP. *)
Definition is_white (c : ascii) : bool :=
  let n := code c in
  in_range 9 13 n || (n =? 32) || (n =? 160).

Fixpoint trimStart (s : string) : string :=
  match s with
  | String c r => if is_white c then trimStart r else s
  | EmptyString => EmptyString
  end.

Fixpoint trimEnd (s : string) : string :=
  match s with
  | EmptyString => EmptyString
  | String c r =>
      match trimEnd r with
      | EmptyString => if is_white c then EmptyString else String c EmptyString
      | r' => String c r'
      end
  end.

(** [String.prototype.trim] *)
Definition trim (s : string) : string := trimEnd (trimStart s).

(** ToBoolean on a string: every string but the empty one. *)
Definition truthy_str (s : string) : bool :=
  match s with EmptyString => false | _ => true end.

(** [x || y] on strings. *)
Definition or_str (x y : string) : string := if truthy_str x then x else y.

(** [x ?? y]: the left operand unless it is [undefined] (or [null]). *)
Definition nullish {A : Type} (x : option A) (y : A) : A :=
  match x with Some v => v | None => y end.

(** A property read: [None] is [undefined], the value of a key the object
    does not have. [String(v)] turns it into the text "undefined". *)
Definition String_ (v : option string) : string :=
  match v with Some s => s | None => "undefined" end.

(** The decimal digits of an integer, with a minus sign for a negative
    one. *)
Definition decimal (z : Z) : string := NilZero.string_of_int (Z.to_int z).

(** The integer a finite number holds, when it holds one. *)
Definition num2Z (x : number) : option Z :=
  match Prim2SF x with
  | S754_zero _ => Some 0
  | S754_finite s m e =>
      let sign := if s then -1 else 1 in
      if 0 <=? e then Some (sign * (Z.pos m * 2 ^ e))
      else if Z.pos m mod 2 ^ (- e) =? 0
           then Some (sign * (Z.pos m / 2 ^ (- e)))
           else None
  | _ => None
  end.

Fixpoint zeros (n : nat) : string :=
  match n with O => "" | S n' => String "0" (zeros n') end.

(** The decimals [s * 10^(n-k)], with [s] of [k] digits, that read back as
    the number [x]: of all multiples of [10^(n-k)] only the two that
    enclose the value [v] of [x] can. *)
Definition candidates (x : number) (v k n : Z) : list (Z * Z) :=
  let d := n - k in
  if d <? 0 then []
  else
    let s0 := v / 10 ^ d in
    List.map (fun s => (s, n))
      (List.filter
         (fun s => (10 ^ (k - 1) <=? s) && (s <? 10 ^ k)
                   && (Z2num (s * 10 ^ d) =? x)%float)
         [s0; s0 + 1]).

(** Of two candidates the one closer to [v], and the even one of two that
    are as close. *)
Definition closer (v k : Z) (c1 c2 : Z * Z) : Z * Z :=
  let dist c := Z.abs (fst c * 10 ^ (snd c - k) - v) in
  if dist c1 <? dist c2 then c1
  else if dist c2 <? dist c1 then c2
  else if Z.even (fst c1) then c1 else c2.

Definition closest (v k : Z) (l : list (Z * Z)) : option (Z * Z) :=
  match l with
  | [] => None
  | c :: l' => Some (fold_left (closer v k) l' c)
  end.

(** The digits [s], their number [k] and the position [n] of the decimal
    point, for the least [k] (from [k] on) that has a candidate. *)
Fixpoint shortest (fuel : nat) (x : number) (v n0 k : Z)
  : option (Z * Z * Z) :=
  match fuel with
  | O => None
  | S fuel' =>
      match closest v k (candidates x v k n0 ++ candidates x v k (n0 + 1)) with
      | Some (s, n) => Some (s, k, n)
      | None => shortest fuel' x v n0 (k + 1)
      end
  end.

(** Exponent notation: one digit, the others after a point, [e+] and the
    exponent. *)
Definition exponential (s n : Z) : string :=
  match decimal s with
  | String c EmptyString => String c ("e+" ++ decimal (n - 1))
  | String c r => String c ("." ++ r ++ "e+" ++ decimal (n - 1))
  | EmptyString => EmptyString
  end.

(** [Number::toString] of the number nearest to a positive integer: the
    shortest digits that read back as that number (17 always do), followed
    by zeros up to the decimal point, or in exponent notation when the
    point is past the 21st digit. *)
Definition positive2string (z : Z) : string :=
  let x := Z2num z in
  match num2Z x with
  | None => "Infinity"
  | Some v =>
      let n0 := Z.of_nat (String.length (decimal v)) in
      match shortest 17 x v n0 1 with
      | Some (s, k, n) =>
          if n <=? 21 then decimal s ++ zeros (Z.to_nat (n - k))
          else exponential s n
      | None => decimal v
      end
  end.

(** [Number.prototype.toString] on the number an integer of the server's
    JSON is read as, and the text a template literal splices in for it. An
    integer of magnitude below 2^53 is that number exactly and prints as its
    decimal digits; a larger one is rounded to the nearest number, which
    prints with its shortest digits ("1152921504606847000" for 2^60) and
    from 10^21 on in exponent notation ("1e+21"). *)
Definition Z2string (z : Z) : string :=
  if Z.abs z <? 2 ^ 53 then decimal z
  else if z <? 0 then String "-" (positive2string (- z))
  else positive2string z.

(** ** Numeric parsing *)

(** The value of a digit or letter as a digit of a radix up to 36. *)
Definition digit_value (c : ascii) : option Z :=
  let n := code c in
  if in_range 48 57 n then Some (n - 48)
  else if in_range 97 122 n then Some (n - 87)
  else if in_range 65 90 n then Some (n - 55)
  else None.

Definition digit_in (radix : Z) (c : ascii) : option Z :=
  match digit_value c with
  | Some d => if d <? radix then Some d else None
  | None => None
  end.

(** Reads the longest prefix of radix-[radix] digits: the number of digits
    read, their value (continuing from [acc]) and the rest. *)
Fixpoint read_digits (radix : Z) (s : string) (n acc : Z) : Z * Z * string :=
  match s with
  | String c r =>
      match digit_in radix c with
      | Some d => read_digits radix r (n + 1) (acc * radix + d)
      | None => (n, acc, s)
      end
  | EmptyString => (n, acc, s)
  end.

Definition read_sign (s : string) : bool * string :=
  match s with
  | String "-" r => (true, r)
  | String "+" r => (false, r)
  | _ => (false, s)
  end.

Definition strip_hex_prefix (s : string) : option string :=
  match s with
  | String "0" (String "x" r) | String "0" (String "X" r) => Some r
  | _ => None
  end.

(** [parseInt(s, radix)]; radix [0] stands for an omitted radix. *)
Definition parseInt (s : string) (radix : Z) : number :=
  let '(neg, s1) := read_sign (trimStart s) in
  if negb (radix =? 0) && negb (in_range 2 36 radix) then NaN
  else
    let '(r, s2) :=
      if (radix =? 0) || (radix =? 16) then
        match strip_hex_prefix s1 with
        | Some rest => (16, rest)
        | None => (if radix =? 0 then 10 else radix, s1)
        end
      else (radix, s1) in
    let '(n, v, _) := read_digits r s2 0 0 in
    if n =? 0 then NaN else dec2num neg v 0.

(** The exponent part of a decimal literal, which must end the string. *)
Definition read_exponent (s : string) : option Z :=
  match s with
  | EmptyString => Some 0
  | String c r =>
      if (code c =? 101) || (code c =? 69) then
        let '(neg, r1) := read_sign r in
        match read_digits 10 r1 0 0 with
        | (n, v, EmptyString) =>
            if n =? 0 then None else Some (if neg then - v else v)
        | _ => None
        end
      else None
  end.

(** An unsigned decimal literal: digits, an optional fraction, an optional
    exponent; at least one digit before or after the point. *)
Definition read_decimal (neg : bool) (s : string) : number :=
  let '(ni, vi, s1) := read_digits 10 s 0 0 in
  let '(nf, v, s2) :=
    match s1 with
    | String "." r => read_digits 10 r 0 vi
    | _ => (0, vi, s1)
    end in
  if ni + nf =? 0 then NaN
  else match read_exponent s2 with
       | Some e => dec2num neg v (e - nf)
       | None => NaN
       end.

Definition read_radix_literal (radix : Z) (s : string) : number :=
  match read_digits radix s 0 0 with
  | (n, v, EmptyString) => if n =? 0 then NaN else dec2num false v 0
  | _ => NaN
  end.

(** [Number(s)] on a string (StringToNumber): white space is trimmed, the
    empty string is [0], then a signed decimal literal or [Infinity], or an
    unsigned binary, octal or hexadecimal literal; anything else is [NaN]. *)
Definition Number_ (s : string) : number :=
  let t := trim s in
  match t with
  | EmptyString => PrimFloat.zero
  | String "0" (String "x" r) | String "0" (String "X" r) =>
      read_radix_literal 16 r
  | String "0" (String "o" r) | String "0" (String "O" r) =>
      read_radix_literal 8 r
  | String "0" (String "b" r) | String "0" (String "B" r) =>
      read_radix_literal 2 r
  | _ =>
      let '(neg, u) := read_sign t in
      if String.eqb u "Infinity"
      then (if neg then PrimFloat.neg_infinity else Infinity)
      else read_decimal neg u
  end.

(** ** Collation *)

(** The host's collation order, as [String.prototype.localeCompare]
    consults it. *)
Class Collator : Type := {
  collate : string -> string -> comparison;
  collate_refl : forall s, collate s s = Eq
}.

(** [a.localeCompare(b)]: negative, zero or positive; engines answer
    [-1], [0] or [1]. *)
Definition localeCompare `{Collator} (a b : string) : number :=
  match collate a b with
  | Lt => (-1)%float
  | Eq => 0%float
  | Gt => 1%float
  end.

(** ** Arrays *)

Section Arrays.
Context {A : Type}.

(** [Array.prototype.sort(cmp)]. The sort is stable and reads only the
    sign of what [cmp] returns, a [NaN] counting as zero; for a
    comparator that is a consistent ordering this fixes the result,
    which a stable insertion sort computes: an element moves behind a
    later one only when [cmp] puts it strictly after it. *)
Fixpoint insert (cmp : A -> A -> number) (x : A) (l : list A) : list A :=
  match l with
  | [] => [x]
  | y :: l' =>
      if (0 <? cmp x y)%float then y :: insert cmp x l' else x :: l
  end.

Definition sort (cmp : A -> A -> number) (l : list A) : list A :=
  fold_right (insert cmp) [] l.

(** The relative-index rule of [slice]: a negative index counts from
    the end, and every index is clamped to the array. *)
Definition relative_index (len i : Z) : Z :=
  if i <? 0 then Z.max (len + i) 0 else Z.min i len.

(** [Array.prototype.slice(start, end)] on integer indices. *)
Definition slice (l : list A) (start end_ : Z) : list A :=
  let len := Z.of_nat (List.length l) in
  let k := relative_index len start in
  let final := relative_index len end_ in
  firstn (Z.to_nat (final - k)) (skipn (Z.to_nat k) l).

(** [Array.prototype.flatMap] *)
Definition flatMap {B : Type} (f : A -> list B) (l : list A) : list B :=
  List.concat (List.map f l).

End Arrays.

(** [Math.ceil(a / b)] on non-negative integers with [0 < b]. *)
Definition ceil_div (a b : Z) : Z := (a + b - 1) / b.

End JS.

(* ===================================================================== *)
(** * Effects: state setters, awaited calls, exceptions, the event log    *)
(* ===================================================================== *)

Module Effects.

(** How a block of statements (or an awaited promise) completes. *)
Inductive result (A : Type) : Type :=
| Returned (a : A)
| Threw.
Arguments Returned {A} a.
Arguments Threw {A}.

Section Act.
Context {E S : Type}.

(** A computation over the component state [S] that appends to a log
    of events [E]. State updates made before a throw are kept. *)
Definition act (A : Type) : Type := S -> list E -> result A * S * list E.

Definition ret {A} (a : A) : act A := fun s l => (Returned a, s, l).

Definition bind {A B} (c : act A) (k : A -> act B) : act B :=
  fun s l =>
    match c s l with
    | (Returned a, s', l') => k a s' l'
    | (Threw, s', l') => (Threw, s', l')
    end.

(** The state of the render the running callback was created in. *)
Definition get : act S := fun s l => (Returned s, s, l).

(** A state setter. *)
Definition modify (f : S -> S) : act unit := fun s l => (Returned tt, f s, l).

Definition emit (e : E) : act unit := fun s l => (Returned tt, s, l ++ [e]).

Definition throw {A} : act A := fun s l => (Threw, s, l).

(** [try { c } catch { h }] *)
Definition try_catch {A} (c h : act A) : act A :=
  fun s l =>
    match c s l with
    | (Returned a, s', l') => (Returned a, s', l')
    | (Threw, s', l') => h s' l'
    end.

(** [try { c } finally { f }] *)
Definition try_finally {A} (c : act A) (f : act unit) : act A :=
  fun s l =>
    match c s l with
    | (r, s', l') =>
        match f s' l' with
        | (Returned _, s'', l'') => (r, s'', l'')
        | (Threw, s'', l'') => (Threw, s'', l'')
        end
    end.

(** Runs a callback from a state, with an empty log. *)
Definition run {A} (c : act A) (s : S) : result A * S * list E := c s [].

Definition state_after {A} (c : act A) (s : S) : S := snd (fst (run c s)).
Definition log_of {A} (c : act A) (s : S) : list E := snd (run c s).

End Act.

Arguments act : clear implicits.

Module Notations.
Notation "x <- c ;; k" := (bind c (fun x => k))
  (at level 61, c at next level, right associativity).
Notation "c ;; k" := (bind c (fun _ => k))
  (at level 61, right associativity).
End Notations.

End Effects.

Import Effects Effects.Notations.

(* ===================================================================== *)
(** * The component [SortableHeader]: the sort types                     *)
(* ===================================================================== *)

Module SortableHeader.

Inductive SortField : Set :=
| F_id | F_name | F_description | F_value | F_operators | F_columnName.

Inductive SortOrder : Set := asc | desc.

Definition SortField_eqb (a b : SortField) : bool :=
  match a, b with
  | F_id, F_id | F_name, F_name | F_description, F_description
  | F_value, F_value | F_operators, F_operators
  | F_columnName, F_columnName => true
  | _, _ => false
  end.

(** The key a field names. *)
Definition key (f : SortField) : string :=
  match f with
  | F_id => "id" | F_name => "name" | F_description => "description"
  | F_value => "value" | F_operators => "operators"
  | F_columnName => "columnName"
  end.

(** [field === sortField], for a [sortField] that may be [null]. *)
Definition same_field (field : SortField) (sortField : option SortField) : bool :=
  match sortField with
  | Some f => SortField_eqb field f
  | None => false
  end.

(** [sortOrder === "asc" ? "desc" : "asc"] *)
Definition flip (o : SortOrder) : SortOrder :=
  match o with asc => desc | desc => asc end.

End SortableHeader.

Import SortableHeader.

(* ===================================================================== *)
(** * The API service module ([services/api])                            *)
(* ===================================================================== *)

Module Api.

(** [value: string | number] *)
Inductive string_or_number : Set :=
| Str (s : string)
| Num (n : Z).

(** [.toString()] on either. *)
Definition toString (v : string_or_number) : string :=
  match v with Str s => s | Num n => JS.Z2string n end.

(** [interface Condition]; an optional member is an [option]. *)
Module Condition.
Record t : Set := {
  id : option Z;
  condition : string;
  description : string;
  operator : string;
  value : string_or_number;
  columnName : option string;
  columnId : option Z;
  operatorId : option Z
}.
End Condition.

(** [interface Column]; the screens read [id] through [?.]. *)
Module Column.
Record t : Set := {
  id : option Z;
  columnName : string
}.
End Column.

(** [interface RuleGroup], the body of a create or update, without [id]. *)
Module RuleGroup.
Record t : Set := {
  ruleName : string;
  description : string;
  columnName : string;
  value : string;
  conditions : list (string * string); (* conditionName, operator *)
  orderNumber : Z
}.
End RuleGroup.

(** The server's nested rule group: [type ApiRuleGroup] of the Rule screen,
    which its comment calls the exact server shape. *)
Module ApiRuleGroup.
Record condition : Set := {
  c_id : Z;
  conditionId : Z;
  subGroupId : Z;
  c_description : string;
  c_condition : string
}.
Record subGroup : Set := {
  sg_id : Z;
  parentGroupId : Z;
  conditions : list condition
}.
Record column : Set := {
  col_id : Z;
  columnName : string
}.
Record t : Set := {
  id : Z;
  column_ : option column;
  description : option string;
  result : string;
  groupOrder : Z;
  subGroups : option (list subGroup)
}.
End ApiRuleGroup.

(** [ConditionQueryParams], [ColumnQueryParams] and the argument of
    [getRuleGroups]. *)
Record Query : Set := {
  page : Z;
  limit : Z;
  sort : option string;
  order : option SortOrder
}.

(** The calls that reach the network. *)
Inductive request : Set :=
| GET_columns (q : Query)
| POST_columns (columnName : string)
| PUT_columns (id : JS.number) (columnName : string)
| DELETE_columns (id : JS.number)
| GET_conditions (q : Query)
| POST_conditions (c : Condition.t)
| PUT_conditions (id : JS.number) (c : Condition.t)
| DELETE_conditions (id : JS.number)
| GET_ruleGroups (q : Query)
| POST_ruleGroups (r : RuleGroup.t)
| PUT_ruleGroups (id : string) (r : RuleGroup.t)
| DELETE_ruleGroups (id : string).

(** What leaves the component. *)
Inductive event : Set :=
| Request (r : request)
| ToastSuccess (msg : string)
| ToastError (msg : string)
| ConsoleError (msg : string).

(** A response body that should be a JSON array: it is one, or it is
    something else. *)
Inductive payload (A : Type) : Type :=
| Items (l : list A)
| NotAnArray.
Arguments Items {A} l.
Arguments NotAnArray {A}.

(** What the network answers: no response at all, or a response with its
    status class ([ok] for 2xx) and its decoded body. *)
Inductive reply (A : Type) : Type :=
| NoResponse
| Response (ok : bool) (data : A).
Arguments NoResponse {A}.
Arguments Response {A} ok data.

(** The server, as far as one callback sees it. The conditions list comes
    with its [x-total-count] header, when the server sends one. *)
Record Backend : Type := {
  columns : Query -> reply (payload Column.t);
  conditions : Query -> reply (payload Condition.t * option string);
  ruleGroups : Query -> reply (payload ApiRuleGroup.t);
  mutation : request -> reply unit
}.

(** [PaginatedResponse<T>]; [data] is whatever body the server sent. *)
Record PaginatedResponse (A : Type) : Type := {
  data : payload A;
  totalCount : JS.number
}.
Arguments data {A} p.
Arguments totalCount {A} p.

(** A computation of a component with state [S]. *)
Definition io (S A : Type) : Type := act event S A.

Section Calls.
Context {S : Type}.

(** A call through the axios client: a missing or non-2xx response
    rejects, after both registered response interceptors logged it. *)
Definition axios {A} (r : request) (rep : reply A) : io S A :=
  emit (Request r) ;;
  match rep with
  | Response true data => ret data
  | _ =>
      emit (ConsoleError "API Error:") ;;
      emit (ConsoleError "API Error:") ;;
      throw
  end.

(** A call through [fetch] followed by the caller's
    [if (!response.ok) throw ...; return response.json()]: it throws when
    the fetch rejects and when the status is outside the 2xx class. (A 2xx
    body that is no JSON makes [json()] throw at the same place, after the
    same single request; it is read as [NoResponse].) *)
Definition fetch_json {A} (r : request) (rep : reply A) : io S A :=
  emit (Request r) ;;
  match rep with
  | Response true data => ret data
  | _ => throw
  end.

(** [conditionsApi.getConditions] *)
Definition getConditions (srv : Backend) (q : Query)
  : io S (PaginatedResponse Condition.t) :=
  response <- axios (GET_conditions q) (conditions srv q) ;;
  ret {| data := fst response;
         totalCount :=
           JS.parseInt (JS.or_str (JS.nullish (snd response) "") "0") 10 |}.

(** [conditionsApi.getColumns]: the total count is the literal [10]. *)
Definition getColumns (srv : Backend) (q : Query)
  : io S (PaginatedResponse Column.t) :=
  response <- axios (GET_columns q) (columns srv q) ;;
  ret {| data := response; totalCount := 10%float |}.

Definition createColumn (srv : Backend) (columnName : string) : io S unit :=
  axios (POST_columns columnName) (mutation srv (POST_columns columnName)).

Definition updateColumn (srv : Backend) (id : JS.number) (columnName : string)
  : io S unit :=
  axios (PUT_columns id columnName) (mutation srv (PUT_columns id columnName)).

Definition deleteColumn (srv : Backend) (id : JS.number) : io S unit :=
  axios (DELETE_columns id) (mutation srv (DELETE_columns id)).

Definition createCondition (srv : Backend) (c : Condition.t) : io S unit :=
  axios (POST_conditions c) (mutation srv (POST_conditions c)).

Definition updateCondition (srv : Backend) (id : JS.number) (c : Condition.t)
  : io S unit :=
  axios (PUT_conditions id c) (mutation srv (PUT_conditions id c)).

Definition deleteCondition (srv : Backend) (id : JS.number) : io S unit :=
  axios (DELETE_conditions id) (mutation srv (DELETE_conditions id)).

(** [ruleGroupsApi] *)
Definition getRuleGroups (srv : Backend) (q : Query)
  : io S (payload ApiRuleGroup.t) :=
  fetch_json (GET_ruleGroups q) (ruleGroups srv q).

Definition createRuleGroup (srv : Backend) (r : RuleGroup.t) : io S unit :=
  fetch_json (POST_ruleGroups r) (mutation srv (POST_ruleGroups r)).

Definition updateRuleGroup (srv : Backend) (id : string) (r : RuleGroup.t)
  : io S unit :=
  fetch_json (PUT_ruleGroups id r) (mutation srv (PUT_ruleGroups id r)).

Definition deleteRuleGroup (srv : Backend) (id : string) : io S unit :=
  fetch_json (DELETE_ruleGroups id) (mutation srv (DELETE_ruleGroups id)).

End Calls.

End Api.

Import Api.

(** [response.data.map(f)]: a body that is no array has no [map], and the
    call throws a [TypeError]. *)
Definition map_data {S A B : Type} (f : A -> B) (d : payload A) : io S (list B) :=
  match d with
  | Items l => ret (List.map f l)
  | NotAnArray => throw
  end.

(** The same for every screen: [const itemsPerPage = 10]. *)
Definition itemsPerPage : Z := 10.

(** [sortOrder === 'asc' ? x : y] *)
Definition by_order {A : Type} (o : SortOrder) (x y : A) : A :=
  match o with asc => x | desc => y end.

(** [array.length] as a number. *)
Definition length_num {A : Type} (l : list A) : JS.number :=
  JS.Z2num (Z.of_nat (List.length l)).

(** The [action] of a screen's modal: ["add"], ["edit"] or ["delete"]. *)
Inductive Action : Set := add | edit | delete.

(* ===================================================================== *)
(** * The component [ColumnManagement] (the Column screen)                *)
(* ===================================================================== *)

Module ColumnManagement.

(** [interface ColumnData] *)
Record ColumnData : Set := {
  id : string;
  columnName : string
}.

Module ModalState.
Record t : Set := {
  isOpen : bool;
  action : Action;
  selectedColumnId : option string
}.
Definition with_isOpen (v : bool) (m : t) : t :=
  {| isOpen := v; action := action m; selectedColumnId := selectedColumnId m |}.
End ModalState.

Module FormState.
Record t : Set := {
  columnName : string;
  nameError : string;
  loading : bool
}.
Definition with_nameError (v : string) (f : t) : t :=
  {| columnName := columnName f; nameError := v; loading := loading f |}.
Definition with_loading (v : bool) (f : t) : t :=
  {| columnName := columnName f; nameError := nameError f; loading := v |}.
End FormState.

Module EditState.
Record t : Set := {
  editMode : option string;
  editColumnName : string;
  nameError : string;
  loading : bool
}.
Definition with_nameError (v : string) (e : t) : t :=
  {| editMode := editMode e; editColumnName := editColumnName e;
     nameError := v; loading := loading e |}.
Definition with_loading (v : bool) (e : t) : t :=
  {| editMode := editMode e; editColumnName := editColumnName e;
     nameError := nameError e; loading := v |}.
End EditState.

(** The component's state variables. *)
Record State : Set := {
  columns : list ColumnData;
  loading : bool;
  error : option string;
  totalCount : JS.number;
  modalState : ModalState.t;
  formState : FormState.t;
  editState : EditState.t;
  sortField : option SortField;
  sortOrder : SortOrder;
  currentPage : Z
}.

Definition setColumns (v : list ColumnData) (s : State) : State :=
  {| columns := v; loading := loading s; error := error s;
     totalCount := totalCount s; modalState := modalState s;
     formState := formState s; editState := editState s;
     sortField := sortField s; sortOrder := sortOrder s;
     currentPage := currentPage s |}.

Definition setLoading (v : bool) (s : State) : State :=
  {| columns := columns s; loading := v; error := error s;
     totalCount := totalCount s; modalState := modalState s;
     formState := formState s; editState := editState s;
     sortField := sortField s; sortOrder := sortOrder s;
     currentPage := currentPage s |}.

Definition setError (v : option string) (s : State) : State :=
  {| columns := columns s; loading := loading s; error := v;
     totalCount := totalCount s; modalState := modalState s;
     formState := formState s; editState := editState s;
     sortField := sortField s; sortOrder := sortOrder s;
     currentPage := currentPage s |}.

Definition setTotalCount (v : JS.number) (s : State) : State :=
  {| columns := columns s; loading := loading s; error := error s;
     totalCount := v; modalState := modalState s;
     formState := formState s; editState := editState s;
     sortField := sortField s; sortOrder := sortOrder s;
     currentPage := currentPage s |}.

Definition setModalState (v : ModalState.t) (s : State) : State :=
  {| columns := columns s; loading := loading s; error := error s;
     totalCount := totalCount s; modalState := v;
     formState := formState s; editState := editState s;
     sortField := sortField s; sortOrder := sortOrder s;
     currentPage := currentPage s |}.

(** [setFormState(prev => f(prev))]; [setFormState(v)] is [fun _ => v]. *)
Definition setFormState (f : FormState.t -> FormState.t) (s : State) : State :=
  {| columns := columns s; loading := loading s; error := error s;
     totalCount := totalCount s; modalState := modalState s;
     formState := f (formState s); editState := editState s;
     sortField := sortField s; sortOrder := sortOrder s;
     currentPage := currentPage s |}.

Definition setEditState (f : EditState.t -> EditState.t) (s : State) : State :=
  {| columns := columns s; loading := loading s; error := error s;
     totalCount := totalCount s; modalState := modalState s;
     formState := formState s; editState := f (editState s);
     sortField := sortField s; sortOrder := sortOrder s;
     currentPage := currentPage s |}.

Definition setSortField (v : option SortField) (s : State) : State :=
  {| columns := columns s; loading := loading s; error := error s;
     totalCount := totalCount s; modalState := modalState s;
     formState := formState s; editState := editState s;
     sortField := v; sortOrder := sortOrder s;
     currentPage := currentPage s |}.

Definition setSortOrder (v : SortOrder) (s : State) : State :=
  {| columns := columns s; loading := loading s; error := error s;
     totalCount := totalCount s; modalState := modalState s;
     formState := formState s; editState := editState s;
     sortField := sortField s; sortOrder := v;
     currentPage := currentPage s |}.

(** The state of the first render: the [useState] initial values. *)
Definition initialState : State :=
  {| columns := []; loading := false; error := None; totalCount := 0%float;
     modalState := {| ModalState.isOpen := false; ModalState.action := add;
                      ModalState.selectedColumnId := None |};
     formState := {| FormState.columnName := ""; FormState.nameError := "";
                     FormState.loading := false |};
     editState := {| EditState.editMode := None;
                     EditState.editColumnName := "";
                     EditState.nameError := ""; EditState.loading := false |};
     sortField := Some F_columnName; sortOrder := asc; currentPage := 1 |}.

(** The rows' mapping: [id: apiColumn.id?.toString() || ""]. *)
Definition toColumnData (apiColumn : Column.t) : ColumnData :=
  {| id := JS.or_str
             (match Column.id apiColumn with
              | Some n => JS.Z2string n
              | None => ""  (* undefined, which [||] replaces *)
              end) "";
     columnName := Column.columnName apiColumn |}.

(** [a[sortField as keyof ColumnData]]: a row has the keys [id] and
    [columnName] only. *)
Definition prop (a : ColumnData) (k : SortField) : option string :=
  match k with
  | F_id => Some (id a)
  | F_columnName => Some (columnName a)
  | _ => None
  end.

(** The comparator [fetchColumns] passes to [sort]. *)
Definition compareColumns `{JS.Collator} (sortField : SortField)
  (sortOrder : SortOrder) (a b : ColumnData) : JS.number :=
  if SortField_eqb sortField F_id then
    let aValue := JS.parseInt (id a) 10 in
    let bValue := JS.parseInt (id b) 10 in
    by_order sortOrder (aValue - bValue)%float (bValue - aValue)%float
  else
    let aValue := JS.trim (JS.toLowerCase (JS.String_ (prop a sortField))) in
    let bValue := JS.trim (JS.toLowerCase (JS.String_ (prop b sortField))) in
    let aValue := if negb (JS.truthy_str aValue) then "" else aValue in
    let bValue := if negb (JS.truthy_str bValue) then "" else bValue in
    let comparison := JS.localeCompare aValue bValue in
    by_order sortOrder comparison (- comparison)%float.

(** The sort pass of [fetchColumns]: [if (sortField) rows.sort(...)]. *)
Definition sortColumns `{JS.Collator} (sortField : option SortField)
  (sortOrder : SortOrder) (rows : list ColumnData) : list ColumnData :=
  match sortField with
  | Some f => JS.sort (compareColumns f sortOrder) rows
  | None => rows
  end.

Definition fetchColumns `{JS.Collator} (srv : Backend) : io State unit :=
  cl <- get ;;
  try_finally
    (try_catch
       (modify (setLoading true) ;;
        modify (setError None) ;;
        response <- getColumns srv
                      {| page := 1; limit := 1000;
                         sort := Some "columnName";
                         order := Some (sortOrder cl) |} ;;
        transformedColumns <- map_data toColumnData (data response) ;;
        let transformedColumns :=
          sortColumns (sortField cl) (sortOrder cl) transformedColumns in
        let startIndex := (currentPage cl - 1) * itemsPerPage in
        let endIndex := startIndex + itemsPerPage in
        let paginatedColumns :=
          JS.slice transformedColumns startIndex endIndex in
        modify (setColumns paginatedColumns) ;;
        modify (setTotalCount
                  (JS.or_num (Api.totalCount response)
                             (length_num transformedColumns))))
       (emit (ConsoleError "Error fetching columns:") ;;
        modify (setError (Some "Failed to fetch columns")) ;;
        emit (ToastError "Failed to fetch columns. Please try again.")))
    (modify (setLoading false)).

Definition handleAddColumn `{JS.Collator} (srv : Backend) : io State unit :=
  cl <- get ;;
  hasError <-
    (if negb (JS.truthy_str (JS.trim (FormState.columnName (formState cl))))
     then
       modify (setFormState
                 (FormState.with_nameError "Column name cannot be empty.")) ;;
       ret true
     else ret false) ;;
  if hasError : bool then ret tt
  else
    try_finally
      (try_catch
         (modify (setFormState (FormState.with_loading true)) ;;
          createColumn srv (FormState.columnName (formState cl)) ;;
          fetchColumns srv ;;
          modify (setFormState
                    (fun _ => {| FormState.columnName := "";
                                 FormState.nameError := "";
                                 FormState.loading := false |})) ;;
          modify (setModalState
                    (ModalState.with_isOpen false (modalState cl))) ;;
          emit (ToastSuccess "Column added successfully!"))
         (emit (ConsoleError "Error creating column:") ;;
          modify (setError (Some "Failed to create column")) ;;
          emit (ToastError "Failed to add column. Please try again.")))
      (modify (setFormState (FormState.with_loading false))).

Definition handleEditColumn `{JS.Collator} (srv : Backend) : io State unit :=
  cl <- get ;;
  hasError <-
    (if negb (JS.truthy_str
                (JS.trim (EditState.editColumnName (editState cl))))
     then
       modify (setEditState
                 (EditState.with_nameError "Column name cannot be empty.")) ;;
       ret true
     else ret false) ;;
  if hasError : bool then ret tt
  else
    try_finally
      (try_catch
         (modify (setEditState (EditState.with_loading true)) ;;
          match EditState.editMode (editState cl) with
          | Some editMode =>
              if JS.truthy_str editMode then
                updateColumn srv (JS.parseInt editMode 0)
                  (EditState.editColumnName (editState cl)) ;;
                fetchColumns srv
              else ret tt
          | None => ret tt
          end ;;
          modify (setEditState
                    (fun _ => {| EditState.editMode := None;
                                 EditState.editColumnName := "";
                                 EditState.nameError := "";
                                 EditState.loading := false |})) ;;
          modify (setModalState
                    (ModalState.with_isOpen false (modalState cl))) ;;
          emit (ToastSuccess "Column updated successfully!"))
         (emit (ConsoleError "Error updating column:") ;;
          modify (setError (Some "Failed to update column")) ;;
          emit (ToastError "Failed to update column. Please try again.")))
      (modify (setEditState (EditState.with_loading false))).

Definition handleDeleteColumn `{JS.Collator} (srv : Backend) (id : string)
  : io State unit :=
  cl <- get ;;
  try_catch
    (deleteColumn srv (JS.parseInt id 0) ;;
     fetchColumns srv ;;
     modify (setModalState (ModalState.with_isOpen false (modalState cl))) ;;
     emit (ToastSuccess "Column deleted successfully!"))
    (emit (ConsoleError "Error deleting column:") ;;
     modify (setError (Some "Failed to delete column")) ;;
     emit (ToastError "Failed to delete column. Please try again.")).

(** The sort toggle of the table headers. *)
Definition handleSort (field : SortField) : io State unit :=
  cl <- get ;;
  if same_field field (sortField cl)
  then modify (setSortOrder (flip (sortOrder cl)))
  else modify (setSortField (Some field)) ;; modify (setSortOrder asc).

End ColumnManagement.

(* ===================================================================== *)
(** * The component [ConditionManagement] (the Condition screen)          *)
(* ===================================================================== *)

Module ConditionManagement.

(** The screen's own [interface Condition]: a table row. *)
Record Condition : Set := {
  id : string;
  name : string;
  description : string;
  operators : string;
  columnName : string;
  value : string
}.

(** An option of a select box. *)
Record SelectOption : Set := {
  opt_value : string;
  opt_label : string
}.

Module ModalState.
Record t : Set := {
  isOpen : bool;
  action : Action;
  selectedConditionId : option string
}.
Definition with_isOpen (v : bool) (m : t) : t :=
  {| isOpen := v; action := action m;
     selectedConditionId := selectedConditionId m |}.
End ModalState.

Module FormState.
Record t : Set := {
  conditionName : string;
  conditionDescription : string;
  operators : string;
  columnName : option SelectOption;
  value : string;
  nameError : string;
  operatorsError : string;
  columnError : string;
  valueError : string;
  loading : bool
}.
Definition with_nameError (v : string) (f : t) : t :=
  {| conditionName := conditionName f;
     conditionDescription := conditionDescription f;
     operators := operators f; columnName := columnName f; value := value f;
     nameError := v; operatorsError := operatorsError f;
     columnError := columnError f; valueError := valueError f;
     loading := loading f |}.
Definition with_operatorsError (v : string) (f : t) : t :=
  {| conditionName := conditionName f;
     conditionDescription := conditionDescription f;
     operators := operators f; columnName := columnName f; value := value f;
     nameError := nameError f; operatorsError := v;
     columnError := columnError f; valueError := valueError f;
     loading := loading f |}.
Definition with_columnError (v : string) (f : t) : t :=
  {| conditionName := conditionName f;
     conditionDescription := conditionDescription f;
     operators := operators f; columnName := columnName f; value := value f;
     nameError := nameError f; operatorsError := operatorsError f;
     columnError := v; valueError := valueError f;
     loading := loading f |}.
Definition with_loading (v : bool) (f : t) : t :=
  {| conditionName := conditionName f;
     conditionDescription := conditionDescription f;
     operators := operators f; columnName := columnName f; value := value f;
     nameError := nameError f; operatorsError := operatorsError f;
     columnError := columnError f; valueError := valueError f;
     loading := v |}.
(** The form as the component first shows it. *)
Definition initial : t :=
  {| conditionName := ""; conditionDescription := "";
     operators := "Select Operators"; columnName := None; value := "";
     nameError := ""; operatorsError := ""; columnError := "";
     valueError := ""; loading := false |}.
End FormState.

Module EditState.
Record t : Set := {
  editMode : option string;
  editConditionName : string;
  editConditionDescription : string;
  editOperators : string;
  editColumnName : option SelectOption;
  editValue : string;
  nameError : string;
  operatorsError : string;
  columnError : string;
  valueError : string;
  loading : bool
}.
Definition with_nameError (v : string) (e : t) : t :=
  {| editMode := editMode e; editConditionName := editConditionName e;
     editConditionDescription := editConditionDescription e;
     editOperators := editOperators e; editColumnName := editColumnName e;
     editValue := editValue e;
     nameError := v; operatorsError := operatorsError e;
     columnError := columnError e; valueError := valueError e;
     loading := loading e |}.
Definition with_operatorsError (v : string) (e : t) : t :=
  {| editMode := editMode e; editConditionName := editConditionName e;
     editConditionDescription := editConditionDescription e;
     editOperators := editOperators e; editColumnName := editColumnName e;
     editValue := editValue e;
     nameError := nameError e; operatorsError := v;
     columnError := columnError e; valueError := valueError e;
     loading := loading e |}.
Definition with_columnError (v : string) (e : t) : t :=
  {| editMode := editMode e; editConditionName := editConditionName e;
     editConditionDescription := editConditionDescription e;
     editOperators := editOperators e; editColumnName := editColumnName e;
     editValue := editValue e;
     nameError := nameError e; operatorsError := operatorsError e;
     columnError := v; valueError := valueError e;
     loading := loading e |}.
Definition with_loading (v : bool) (e : t) : t :=
  {| editMode := editMode e; editConditionName := editConditionName e;
     editConditionDescription := editConditionDescription e;
     editOperators := editOperators e; editColumnName := editColumnName e;
     editValue := editValue e;
     nameError := nameError e; operatorsError := operatorsError e;
     columnError := columnError e; valueError := valueError e;
     loading := v |}.
Definition initial : t :=
  {| editMode := None; editConditionName := "";
     editConditionDescription := ""; editOperators := "Select operators";
     editColumnName := None; editValue := "";
     nameError := ""; operatorsError := ""; columnError := "";
     valueError := ""; loading := false |}.
End EditState.

(** The state variables the list and its mutations use (the options of the
    two select boxes are loaded by a callback of their own). *)
Record State : Set := {
  conditions : list Condition;
  loading : bool;
  error : option string;
  totalCount : JS.number;
  modalState : ModalState.t;
  formState : FormState.t;
  editState : EditState.t;
  sortField : option SortField;
  sortOrder : SortOrder;
  currentPage : Z
}.

Definition setConditions (v : list Condition) (s : State) : State :=
  {| conditions := v; loading := loading s; error := error s;
     totalCount := totalCount s; modalState := modalState s;
     formState := formState s; editState := editState s;
     sortField := sortField s; sortOrder := sortOrder s;
     currentPage := currentPage s |}.

Definition setLoading (v : bool) (s : State) : State :=
  {| conditions := conditions s; loading := v; error := error s;
     totalCount := totalCount s; modalState := modalState s;
     formState := formState s; editState := editState s;
     sortField := sortField s; sortOrder := sortOrder s;
     currentPage := currentPage s |}.

Definition setError (v : option string) (s : State) : State :=
  {| conditions := conditions s; loading := loading s; error := v;
     totalCount := totalCount s; modalState := modalState s;
     formState := formState s; editState := editState s;
     sortField := sortField s; sortOrder := sortOrder s;
     currentPage := currentPage s |}.

Definition setTotalCount (v : JS.number) (s : State) : State :=
  {| conditions := conditions s; loading := loading s; error := error s;
     totalCount := v; modalState := modalState s;
     formState := formState s; editState := editState s;
     sortField := sortField s; sortOrder := sortOrder s;
     currentPage := currentPage s |}.

Definition setModalState (v : ModalState.t) (s : State) : State :=
  {| conditions := conditions s; loading := loading s; error := error s;
     totalCount := totalCount s; modalState := v;
     formState := formState s; editState := editState s;
     sortField := sortField s; sortOrder := sortOrder s;
     currentPage := currentPage s |}.

Definition setFormState (f : FormState.t -> FormState.t) (s : State) : State :=
  {| conditions := conditions s; loading := loading s; error := error s;
     totalCount := totalCount s; modalState := modalState s;
     formState := f (formState s); editState := editState s;
     sortField := sortField s; sortOrder := sortOrder s;
     currentPage := currentPage s |}.

Definition setEditState (f : EditState.t -> EditState.t) (s : State) : State :=
  {| conditions := conditions s; loading := loading s; error := error s;
     totalCount := totalCount s; modalState := modalState s;
     formState := formState s; editState := f (editState s);
     sortField := sortField s; sortOrder := sortOrder s;
     currentPage := currentPage s |}.

Definition setSortField (v : option SortField) (s : State) : State :=
  {| conditions := conditions s; loading := loading s; error := error s;
     totalCount := totalCount s; modalState := modalState s;
     formState := formState s; editState := editState s;
     sortField := v; sortOrder := sortOrder s;
     currentPage := currentPage s |}.

Definition setSortOrder (v : SortOrder) (s : State) : State :=
  {| conditions := conditions s; loading := loading s; error := error s;
     totalCount := totalCount s; modalState := modalState s;
     formState := formState s; editState := editState s;
     sortField := sortField s; sortOrder := v;
     currentPage := currentPage s |}.

(** The state of the first render: the [useState] initial values. *)
Definition initialState : State :=
  {| conditions := []; loading := false; error := None;
     totalCount := 0%float;
     modalState := {| ModalState.isOpen := false; ModalState.action := add;
                      ModalState.selectedConditionId := None |};
     formState := FormState.initial; editState := EditState.initial;
     sortField := Some F_name; sortOrder := asc; currentPage := 1 |}.

(** The rows' mapping of [fetchConditions]. *)
Definition toCondition (apiCondition : Api.Condition.t) : Condition :=
  {| id := JS.or_str
             (match Api.Condition.id apiCondition with
              | Some n => JS.Z2string n
              | None => ""
              end) "";
     name := Api.Condition.condition apiCondition;
     description := Api.Condition.description apiCondition;
     operators := Api.Condition.operator apiCondition;
     columnName :=
       JS.or_str (JS.nullish (Api.Condition.columnName apiCondition) "") "";
     value := Api.toString (Api.Condition.value apiCondition) |}.

(** [a[k]] for a key [k] of a row. *)
Definition prop (a : Condition) (k : SortField) : option string :=
  match k with
  | F_id => Some (id a)
  | F_name => Some (name a)
  | F_description => Some (description a)
  | F_value => Some (value a)
  | F_operators => Some (operators a)
  | F_columnName => Some (columnName a)
  end.

(** The string comparison that ends the comparator. *)
Definition compareText `{JS.Collator} (sortField : SortField)
  (sortOrder : SortOrder) (a b : Condition) : JS.number :=
  let k := if SortField_eqb sortField F_name then F_name else sortField in
  let aValue := JS.trim (JS.toLowerCase (JS.String_ (prop a k))) in
  let bValue := JS.trim (JS.toLowerCase (JS.String_ (prop b k))) in
  let aValue := if negb (JS.truthy_str aValue) then "" else aValue in
  let bValue := if negb (JS.truthy_str bValue) then "" else bValue in
  let comparison := JS.localeCompare aValue bValue in
  by_order sortOrder comparison (- comparison)%float.

(** The comparator [fetchConditions] passes to [sort]: the [id] branch
    returns; the [value] branch returns when both sides are numbers and
    falls through otherwise. *)
Definition compareConditions `{JS.Collator} (sortField : SortField)
  (sortOrder : SortOrder) (a b : Condition) : JS.number :=
  if SortField_eqb sortField F_id then
    let aValue := JS.parseInt (id a) 10 in
    let bValue := JS.parseInt (id b) 10 in
    by_order sortOrder (aValue - bValue)%float (bValue - aValue)%float
  else
    let aNum := JS.Number_ (value a) in
    let bNum := JS.Number_ (value b) in
    if SortField_eqb sortField F_value
       && (negb (JS.isNaN aNum) && negb (JS.isNaN bNum))
    then by_order sortOrder (aNum - bNum)%float (bNum - aNum)%float
    else compareText sortField sortOrder a b.

Definition sortConditions `{JS.Collator} (sortField : option SortField)
  (sortOrder : SortOrder) (rows : list Condition) : list Condition :=
  match sortField with
  | Some f => JS.sort (compareConditions f sortOrder) rows
  | None => rows
  end.

Definition fetchConditions `{JS.Collator} (srv : Backend) : io State unit :=
  cl <- get ;;
  try_finally
    (try_catch
       (modify (setLoading true) ;;
        modify (setError None) ;;
        response <- getConditions srv
                      {| page := 1; limit := 1000;
                         sort := option_map key (sortField cl);
                         order := Some (sortOrder cl) |} ;;
        transformedConditions <- map_data toCondition (data response) ;;
        let transformedConditions :=
          sortConditions (sortField cl) (sortOrder cl) transformedConditions in
        let startIndex := (currentPage cl - 1) * itemsPerPage in
        let endIndex := startIndex + itemsPerPage in
        let paginatedConditions :=
          JS.slice transformedConditions startIndex endIndex in
        modify (setConditions paginatedConditions) ;;
        modify (setTotalCount (length_num transformedConditions)))
       (emit (ConsoleError "Error fetching conditions:") ;;
        modify (setError (Some "Failed to fetch conditions")) ;;
        emit (ToastError "Failed to fetch conditions. Please try again.") ;;
        modify (setConditions []) ;;
        modify (setTotalCount 0%float)))
    (modify (setLoading false)).

(** [const newCondition: Omit<APICondition, 'id'>] of [handleAddCondition];
    the column is selected when the checks have passed. *)
Definition newCondition (formState : FormState.t) : Api.Condition.t :=
  {| Api.Condition.id := None;
     Api.Condition.condition := FormState.conditionName formState;
     Api.Condition.description := FormState.conditionDescription formState;
     Api.Condition.operator := FormState.operators formState;
     Api.Condition.value := Str (FormState.value formState);
     Api.Condition.columnName :=
       option_map opt_value (FormState.columnName formState);
     Api.Condition.columnId := None;
     Api.Condition.operatorId := None |}.

(** [const updatedCondition: Partial<APICondition>] of
    [handleEditCondition]. *)
Definition updatedCondition (editState : EditState.t) : Api.Condition.t :=
  {| Api.Condition.id := None;
     Api.Condition.condition := EditState.editConditionName editState;
     Api.Condition.description := EditState.editConditionDescription editState;
     Api.Condition.operator := EditState.editOperators editState;
     Api.Condition.value := Str (EditState.editValue editState);
     Api.Condition.columnName :=
       option_map opt_value (EditState.editColumnName editState);
     Api.Condition.columnId := None;
     Api.Condition.operatorId := None |}.

(** [handleAddCondition]: every check also clears its message when it
    passes. *)
Definition handleAddCondition `{JS.Collator} (srv : Backend) : io State unit :=
  cl <- get ;;
  let formState := formState cl in
  e1 <-
    (if negb (JS.truthy_str (JS.trim (FormState.conditionName formState)))
     then
       modify (setFormState
                 (FormState.with_nameError "Condition name cannot be empty.")) ;;
       ret true
     else modify (setFormState (FormState.with_nameError "")) ;; ret false) ;;
  e2 <-
    (if String.eqb (FormState.operators formState) "Select Operators"
     then
       modify (setFormState
                 (FormState.with_operatorsError "Operators must be selected.")) ;;
       ret true
     else modify (setFormState (FormState.with_operatorsError "")) ;; ret false) ;;
  e3 <-
    (match FormState.columnName formState with
     | None =>
         modify (setFormState
                   (FormState.with_columnError "Column name cannot be empty.")) ;;
         ret true
     | Some _ =>
         modify (setFormState (FormState.with_columnError "")) ;; ret false
     end) ;;
  let hasError : bool := e1 || e2 || e3 in
  if hasError then ret tt
  else
    try_finally
      (try_catch
         (modify (setFormState (FormState.with_loading true)) ;;
          createCondition srv (newCondition formState) ;;
          fetchConditions srv ;;
          modify (setFormState (fun _ => FormState.initial)) ;;
          modify (setModalState
                    (ModalState.with_isOpen false (modalState cl))) ;;
          emit (ToastSuccess "Condition added successfully!"))
         (emit (ConsoleError "Error creating condition:") ;;
          modify (setError (Some "Failed to create condition")) ;;
          emit (ToastError "Failed to add condition. Please try again.")))
      (modify (setFormState (FormState.with_loading false))).

Definition handleEditCondition `{JS.Collator} (srv : Backend) : io State unit :=
  cl <- get ;;
  let editState := editState cl in
  e1 <-
    (if negb (JS.truthy_str (JS.trim (EditState.editConditionName editState)))
     then
       modify (setEditState
                 (EditState.with_nameError "Condition name cannot be empty.")) ;;
       ret true
     else ret false) ;;
  e2 <-
    (if String.eqb (EditState.editOperators editState) "Select operators"
     then
       modify (setEditState
                 (EditState.with_operatorsError "Operators must be selected.")) ;;
       ret true
     else ret false) ;;
  e3 <-
    (match EditState.editColumnName editState with
     | None =>
         modify (setEditState
                   (EditState.with_columnError "Column name cannot be empty.")) ;;
         ret true
     | Some _ => ret false
     end) ;;
  let hasError : bool := e1 || e2 || e3 in
  if hasError then ret tt
  else
    try_finally
      (try_catch
         (modify (setEditState (EditState.with_loading true)) ;;
          match EditState.editMode editState with
          | Some editMode =>
              if JS.truthy_str editMode then
                updateCondition srv (JS.parseInt editMode 0)
                  (updatedCondition editState) ;;
                fetchConditions srv
              else ret tt
          | None => ret tt
          end ;;
          modify (setEditState (fun _ => EditState.initial)) ;;
          modify (setModalState
                    (ModalState.with_isOpen false (modalState cl))) ;;
          emit (ToastSuccess "Condition updated successfully!"))
         (emit (ConsoleError "Error updating condition:") ;;
          modify (setError (Some "Failed to update condition")) ;;
          emit (ToastError "Failed to update condition. Please try again.")))
      (modify (setEditState (EditState.with_loading false))).

Definition handleDeleteCondition `{JS.Collator} (srv : Backend) (id : string)
  : io State unit :=
  cl <- get ;;
  try_catch
    (deleteCondition srv (JS.parseInt id 0) ;;
     fetchConditions srv ;;
     modify (setModalState (ModalState.with_isOpen false (modalState cl))) ;;
     emit (ToastSuccess "Condition deleted successfully!"))
    (emit (ConsoleError "Error deleting condition:") ;;
     modify (setError (Some "Failed to delete condition")) ;;
     emit (ToastError "Failed to delete condition. Please try again.")).

(** The sort toggle of the table headers. *)
Definition handleSort (field : SortField) : io State unit :=
  cl <- get ;;
  if same_field field (sortField cl)
  then modify (setSortOrder (flip (sortOrder cl)))
  else modify (setSortField (Some field)) ;; modify (setSortOrder asc).

End ConditionManagement.

(* ===================================================================== *)
(** * The component [RuleApply] (the Rule screen)                         *)
(* ===================================================================== *)

Module RuleApply.

(** [interface RuleCondition]; [operator] is ["AND"], ["OR"] or [""]. *)
Record RuleCondition : Set := {
  conditionName : string;
  operator : string
}.

(** [interface Rule]: the flat shape the screen shows. *)
Record Rule : Set := {
  id : Z;
  ruleName : string;
  description : option string;
  conditions : list RuleCondition;
  orderNumber : Z;
  value : string;
  columnName : string
}.

(** [type RuleSortField] *)
Inductive RuleSortField : Set :=
| R_id | R_ruleName | R_description | R_columnName | R_value | R_orderNumber.

Definition RuleSortField_eqb (a b : RuleSortField) : bool :=
  match a, b with
  | R_id, R_id | R_ruleName, R_ruleName | R_description, R_description
  | R_columnName, R_columnName | R_value, R_value
  | R_orderNumber, R_orderNumber => true
  | _, _ => false
  end.

(** [type ConditionError] and [type FormErrors]; an unset member is [None]. *)
Record ConditionError : Set := {
  ce_conditionName : option string;
  ce_operator : option string
}.

Record FormErrors : Set := {
  e_ruleName : option string;
  e_description : option string;
  e_value : option string;
  e_columnName : option string;
  e_conditions : list ConditionError
}.

Module ModalState.
Record t : Set := {
  isOpen : bool;
  action : Action;
  selectedRuleId : option string
}.
Definition with_isOpen (v : bool) (m : t) : t :=
  {| isOpen := v; action := action m; selectedRuleId := selectedRuleId m |}.
End ModalState.

Module FormState.
Record t : Set := {
  ruleName : string;
  description : option string;
  orderNumber : option Z;
  loading : bool;
  value : string;
  columnName : string;
  conditions : list RuleCondition;
  errors : FormErrors
}.
Definition with_loading (v : bool) (f : t) : t :=
  {| ruleName := ruleName f; description := description f;
     orderNumber := orderNumber f; loading := v; value := value f;
     columnName := columnName f; conditions := conditions f;
     errors := errors f |}.
Definition with_errors (v : FormErrors) (f : t) : t :=
  {| ruleName := ruleName f; description := description f;
     orderNumber := orderNumber f; loading := loading f; value := value f;
     columnName := columnName f; conditions := conditions f;
     errors := v |}.
(** The empty form, with [orderNumber] as the caller resets it. *)
Definition blank (orderNumber : option Z) : t :=
  {| ruleName := ""; description := Some ""; orderNumber := orderNumber;
     loading := false; value := ""; columnName := "";
     conditions := [{| conditionName := ""; operator := "" |}];
     errors := {| e_ruleName := None; e_description := None;
                  e_value := None; e_columnName := None;
                  e_conditions := [] |} |}.
End FormState.

(** The state variables the list and its mutations use. *)
Record State : Set := {
  rules : list Rule;
  loading : bool;
  error : option string;
  totalCount : JS.number;
  modalState : ModalState.t;
  formState : FormState.t;
  sortField : RuleSortField;
  sortOrder : SortOrder;
  currentPage : Z
}.

Definition setRules (v : list Rule) (s : State) : State :=
  {| rules := v; loading := loading s; error := error s;
     totalCount := totalCount s; modalState := modalState s;
     formState := formState s; sortField := sortField s;
     sortOrder := sortOrder s; currentPage := currentPage s |}.

Definition setLoading (v : bool) (s : State) : State :=
  {| rules := rules s; loading := v; error := error s;
     totalCount := totalCount s; modalState := modalState s;
     formState := formState s; sortField := sortField s;
     sortOrder := sortOrder s; currentPage := currentPage s |}.

Definition setError (v : option string) (s : State) : State :=
  {| rules := rules s; loading := loading s; error := v;
     totalCount := totalCount s; modalState := modalState s;
     formState := formState s; sortField := sortField s;
     sortOrder := sortOrder s; currentPage := currentPage s |}.

Definition setTotalCount (v : JS.number) (s : State) : State :=
  {| rules := rules s; loading := loading s; error := error s;
     totalCount := v; modalState := modalState s;
     formState := formState s; sortField := sortField s;
     sortOrder := sortOrder s; currentPage := currentPage s |}.

Definition setModalState (v : ModalState.t) (s : State) : State :=
  {| rules := rules s; loading := loading s; error := error s;
     totalCount := totalCount s; modalState := v;
     formState := formState s; sortField := sortField s;
     sortOrder := sortOrder s; currentPage := currentPage s |}.

Definition setFormState (f : FormState.t -> FormState.t) (s : State) : State :=
  {| rules := rules s; loading := loading s; error := error s;
     totalCount := totalCount s; modalState := modalState s;
     formState := f (formState s); sortField := sortField s;
     sortOrder := sortOrder s; currentPage := currentPage s |}.

Definition setSortField (v : RuleSortField) (s : State) : State :=
  {| rules := rules s; loading := loading s; error := error s;
     totalCount := totalCount s; modalState := modalState s;
     formState := formState s; sortField := v;
     sortOrder := sortOrder s; currentPage := currentPage s |}.

Definition setSortOrder (v : SortOrder) (s : State) : State :=
  {| rules := rules s; loading := loading s; error := error s;
     totalCount := totalCount s; modalState := modalState s;
     formState := formState s; sortField := sortField s;
     sortOrder := v; currentPage := currentPage s |}.

(** The state of the first render: the [useState] initial values. *)
Definition initialState : State :=
  {| rules := []; loading := false; error := None; totalCount := 0%float;
     modalState := {| ModalState.isOpen := false; ModalState.action := add;
                      ModalState.selectedRuleId := None |};
     formState := FormState.blank None;
     sortField := R_ruleName; sortOrder := asc; currentPage := 1 |}.

(** ** The server-to-UI adapter *)

(** One server condition as the UI's entry:
    [conditionName: c.description || c.condition], [operator: ""]. *)
Definition toRuleCondition (c : ApiRuleGroup.condition) : RuleCondition :=
  {| conditionName :=
       JS.or_str (ApiRuleGroup.c_description c) (ApiRuleGroup.c_condition c);
     operator := "" |}.

Definition toUiRule (g : ApiRuleGroup.t) : Rule :=
  let flatConditions : list RuleCondition :=
    JS.nullish
      (option_map
         (JS.flatMap
            (fun sg => List.map toRuleCondition (ApiRuleGroup.conditions sg)))
         (ApiRuleGroup.subGroups g))
      [] in
  {| id := ApiRuleGroup.id g;
     ruleName :=
       JS.nullish (ApiRuleGroup.description g)
         ("Rule " ++ JS.Z2string (ApiRuleGroup.id g))%string;
     description := ApiRuleGroup.description g;
     columnName :=
       JS.nullish
         (option_map ApiRuleGroup.columnName (ApiRuleGroup.column_ g)) "";
     value := ApiRuleGroup.result g;
     orderNumber := ApiRuleGroup.groupOrder g;
     conditions := flatConditions |}.

(** ** Sorting *)

(** [const sortFieldMap: Record<RuleSortField, string>] *)
Definition sortFieldMap (f : RuleSortField) : string :=
  match f with
  | R_id => "id"
  | R_ruleName => "ruleName"
  | R_description => "description"
  | R_columnName => "columnName"
  | R_value => "value"
  | R_orderNumber => "orderNumber"
  end.

(** [a[sortField]] in the numeric branch, where the key is [id] or
    [orderNumber]. *)
Definition prop_num (a : Rule) (k : RuleSortField) : Z :=
  match k with
  | R_orderNumber => orderNumber a
  | _ => id a
  end.

(** The string comparison that ends the comparator. It stringifies
    [field], the entry of [sortFieldMap]; the rows [a] and [b] are not
    read. *)
Definition compareText `{JS.Collator} (sortField : RuleSortField)
  (sortOrder : SortOrder) (a b : Rule) : JS.number :=
  let field := sortFieldMap sortField in
  let aValue := JS.trim (JS.toLowerCase (JS.String_ (Some field))) in
  let bValue := JS.trim (JS.toLowerCase (JS.String_ (Some field))) in
  let aValue := if negb (JS.truthy_str aValue) then "" else aValue in
  let bValue := if negb (JS.truthy_str bValue) then "" else bValue in
  let comparison := JS.localeCompare aValue bValue in
  by_order sortOrder comparison (- comparison)%float.

(** The comparator [fetchRules] passes to [sort]: the branch of [id] and
    [orderNumber] returns; the [value] branch returns when both sides are
    numbers and falls through otherwise. *)
Definition compareRules `{JS.Collator} (sortField : RuleSortField)
  (sortOrder : SortOrder) (a b : Rule) : JS.number :=
  if RuleSortField_eqb sortField R_id
     || RuleSortField_eqb sortField R_orderNumber
  then
    let aValue := JS.or_num (JS.Z2num (prop_num a sortField)) 0%float in
    let bValue := JS.or_num (JS.Z2num (prop_num b sortField)) 0%float in
    by_order sortOrder (aValue - bValue)%float (bValue - aValue)%float
  else
    let aNum := JS.Number_ (value a) in
    let bNum := JS.Number_ (value b) in
    if RuleSortField_eqb sortField R_value
       && (negb (JS.isNaN aNum) && negb (JS.isNaN bNum))
    then by_order sortOrder (aNum - bNum)%float (bNum - aNum)%float
    else compareText sortField sortOrder a b.

(** The sort pass of [fetchRules]: a copy of the adapted rows, sorted when
    [sortField] is truthy, which every field name is. *)
Definition sortRules `{JS.Collator} (sortField : RuleSortField)
  (sortOrder : SortOrder) (adapted : list Rule) : list Rule :=
  if JS.truthy_str (sortFieldMap sortField)
  then JS.sort (compareRules sortField sortOrder) adapted
  else adapted.

Definition fetchRules `{JS.Collator} (srv : Backend) : io State unit :=
  cl <- get ;;
  try_finally
    (try_catch
       (modify (setLoading true) ;;
        modify (setError None) ;;
        response <- getRuleGroups srv
                      {| page := 1; limit := 1000;
                         sort := Some (sortFieldMap (sortField cl));
                         order := Some (sortOrder cl) |} ;;
        match response with
        | Items groups =>
            let adapted := List.map toUiRule groups in
            let sortedRules := sortRules (sortField cl) (sortOrder cl) adapted in
            let startIndex := (currentPage cl - 1) * itemsPerPage in
            let endIndex := startIndex + itemsPerPage in
            let paginatedRules := JS.slice sortedRules startIndex endIndex in
            modify (setRules paginatedRules) ;;
            modify (setTotalCount (length_num sortedRules))
        | NotAnArray =>
            emit (ConsoleError "Invalid response format:") ;;
            modify (setRules []) ;;
            modify (setError (Some "Failed to fetch rules")) ;;
            emit (ToastError "Failed to fetch rules. Please try again.")
        end)
       (emit (ConsoleError "Error fetching rules:") ;;
        modify (setError (Some "Failed to fetch rules")) ;;
        emit (ToastError "Failed to fetch rules. Please try again.") ;;
        modify (setRules []) ;;
        modify (setTotalCount 0%float)))
    (modify (setLoading false)).

(** ** The form and the mutations *)

(** The checks both [handleAddRule] and [handleEditRule] run: the errors
    they collect, and whether there is any. *)
Definition check (msg : string) (missing : bool) : option string :=
  if missing then Some msg else None.

Definition conditionErrors (condition : RuleCondition) : ConditionError :=
  {| ce_conditionName :=
       check "Condition name cannot be empty."
         (negb (JS.truthy_str (conditionName condition)));
     ce_operator :=
       check "Operator cannot be empty."
         (negb (JS.truthy_str (operator condition))) |}.

Definition validate (formState : FormState.t) : FormErrors :=
  {| e_ruleName :=
       check "Rule name cannot be empty."
         (negb (JS.truthy_str (JS.trim (FormState.ruleName formState))));
     e_description := None;
     e_value :=
       check "Value cannot be empty."
         (negb (JS.truthy_str (FormState.value formState)));
     e_columnName :=
       check "Column name cannot be empty."
         (negb (JS.truthy_str (FormState.columnName formState)));
     e_conditions := List.map conditionErrors (FormState.conditions formState) |}.

Definition is_set (e : option string) : bool :=
  match e with Some _ => true | None => false end.

Definition hasError (errors : FormErrors) : bool :=
  is_set (e_ruleName errors) || is_set (e_columnName errors)
  || is_set (e_value errors)
  || existsb (fun c => is_set (ce_conditionName c) || is_set (ce_operator c))
       (e_conditions errors).

(** The request body both mutations build from the form. *)
Definition toRuleGroup (formState : FormState.t) : RuleGroup.t :=
  {| RuleGroup.ruleName := FormState.ruleName formState;
     RuleGroup.description :=
       JS.or_str (JS.nullish (FormState.description formState) "") "";
     RuleGroup.columnName := FormState.columnName formState;
     RuleGroup.value := FormState.value formState;
     RuleGroup.conditions :=
       List.map (fun c => (conditionName c, operator c))
         (FormState.conditions formState);
     RuleGroup.orderNumber := JS.nullish (FormState.orderNumber formState) 0 |}.

Definition handleAddRule `{JS.Collator} (srv : Backend) : io State unit :=
  cl <- get ;;
  let errors := validate (formState cl) in
  if hasError errors then modify (setFormState (FormState.with_errors errors))
  else
    try_finally
      (try_catch
         (modify (setFormState (FormState.with_loading true)) ;;
          createRuleGroup srv (toRuleGroup (formState cl)) ;;
          fetchRules srv ;;
          modify (setFormState (fun _ => FormState.blank None)) ;;
          modify (setModalState
                    (ModalState.with_isOpen false (modalState cl))) ;;
          emit (ToastSuccess "Rule added successfully!"))
         (emit (ConsoleError "Error creating rule:") ;;
          modify (setError (Some "Failed to create rule")) ;;
          emit (ToastError "Failed to add rule. Please try again.")))
      (modify (setFormState (FormState.with_loading false))).

(** [!modalState.selectedRuleId] *)
Definition selected (m : ModalState.t) : option string :=
  match ModalState.selectedRuleId m with
  | Some i => if JS.truthy_str i then Some i else None
  | None => None
  end.

Definition handleEditRule `{JS.Collator} (srv : Backend) : io State unit :=
  cl <- get ;;
  match selected (modalState cl) with
  | None => ret tt
  | Some selectedRuleId =>
      let errors := validate (formState cl) in
      if hasError errors
      then modify (setFormState (FormState.with_errors errors))
      else
        try_finally
          (try_catch
             (modify (setFormState (FormState.with_loading true)) ;;
              updateRuleGroup srv selectedRuleId (toRuleGroup (formState cl)) ;;
              fetchRules srv ;;
              modify (setFormState (fun _ => FormState.blank (Some 0))) ;;
              modify (setModalState
                        (ModalState.with_isOpen false (modalState cl))) ;;
              emit (ToastSuccess "Rule updated successfully!"))
             (emit (ConsoleError "Error updating rule:") ;;
              modify (setError (Some "Failed to update rule")) ;;
              emit (ToastError "Failed to update rule. Please try again.")))
          (modify (setFormState (FormState.with_loading false)))
  end.

Definition handleDeleteRule `{JS.Collator} (srv : Backend) : io State unit :=
  cl <- get ;;
  match selected (modalState cl) with
  | None => ret tt
  | Some selectedRuleId =>
      try_catch
        (deleteRuleGroup srv selectedRuleId ;;
         fetchRules srv ;;
         modify (setModalState
                   (ModalState.with_isOpen false (modalState cl))) ;;
         emit (ToastSuccess "Rule deleted successfully!"))
        (emit (ConsoleError "Error deleting rule:") ;;
         modify (setError (Some "Failed to delete rule")) ;;
         emit (ToastError "Failed to delete rule. Please try again."))
  end.

(** The sort toggle of the table headers. *)
Definition toggleSort (field : RuleSortField) : io State unit :=
  cl <- get ;;
  if RuleSortField_eqb (sortField cl) field
  then modify (setSortOrder (flip (sortOrder cl)))
  else modify (setSortField field) ;; modify (setSortOrder asc).

End RuleApply.

(* ===================================================================== *)
(** * The component [Pagination]                                         *)
(* ===================================================================== *)

Module Pagination.

(** [interface PaginationProps], without the setter. *)
Record Props : Set := {
  currentPage : Z;
  totalPages : Z;
  totalItems : Z;
  itemsPerPage : Z
}.

(** The buttons of the navigation bar, in the order they are rendered. *)
Inductive Button : Set :=
| First
| Previous
| Page (page : Z)
| Next
| Last.

(** [Array.from({ length: totalPages }, (_, i) => i + 1)] *)
Definition pageNumbers (totalPages : Z) : list Z :=
  List.map (fun i => Z.of_nat i + 1) (seq 0 (Z.to_nat totalPages)).

(** A button the component renders: a page button exists for the listed
    page numbers only. *)
Definition rendered (p : Props) (b : Button) : Prop :=
  match b with
  | Page page => In page (pageNumbers (totalPages p))
  | _ => True
  end.

(** What a button's [onClick] passes to [setCurrentPage], as a function of
    the page [prev] the setter holds. *)
Definition onClick (p : Props) (b : Button) (prev : Z) : Z :=
  match b with
  | First => 1
  | Previous => Z.max (prev - 1) 1
  | Page page => page
  | Next => Z.min (prev + 1) (totalPages p)
  | Last => totalPages p
  end.

Definition disabled (p : Props) (b : Button) : bool :=
  match b with
  | First | Previous => currentPage p =? 1
  | Next | Last => currentPage p =? totalPages p
  | Page _ => false
  end.

Definition startItem (p : Props) : Z :=
  (currentPage p - 1) * itemsPerPage p + 1.

Definition endItem (p : Props) : Z :=
  Z.min (currentPage p * itemsPerPage p) (totalItems p).

End Pagination.

(* ===================================================================== *)
(** * The hooks [useColumns] and [useRules]                               *)
(* ===================================================================== *)

(** [hooks/useColumns]: a list of columns kept in component state. [now]
    is what [Date.now()] returns when [addColumn] runs (an integer number
    of milliseconds). *)
Module UseColumns.

Record Column : Set := {
  id : Z;
  name : string
}.

Definition addColumn (now : Z) (name : string) (columns : list Column)
  : list Column :=
  columns ++ [{| id := now; name := name |}].

Definition editColumn (id : Z) (name : string) (columns : list Column)
  : list Column :=
  List.map
    (fun col => if UseColumns.id col =? id
                then {| id := UseColumns.id col; name := name |}
                else col)
    columns.

Definition deleteColumn (id : Z) (columns : list Column) : list Column :=
  List.filter (fun col => negb (UseColumns.id col =? id)) columns.

End UseColumns.

(** [hooks/useRules] *)
Module UseRules.

Record Rule : Set := {
  id : Z;
  columnNames : list string;
  ruleName : string
}.

Definition addRule (now : Z) (columnNames : list string) (ruleName : string)
  (rules : list Rule) : list Rule :=
  rules ++ [{| id := now; columnNames := columnNames; ruleName := ruleName |}].

Definition deleteRule (id : Z) (rules : list Rule) : list Rule :=
  List.filter (fun rule => negb (UseRules.id rule =? id)) rules.

End UseRules.

(* ===================================================================== *)
(** * The other callbacks of the three screens                            *)
(* ===================================================================== *)

(** [array.filter((_, i) => i !== index)] *)
Fixpoint remove_at {A : Type} (index : nat) (l : list A) : list A :=
  match l, index with
  | [], _ => []
  | _ :: l', O => l'
  | x :: l', S i => x :: remove_at i l'
  end.

(** The callbacks of [ColumnManagement] besides the fetch, the three
    mutations and the sort toggle. *)
Module ColumnCallbacks.

Import ColumnManagement.

Definition setCurrentPage (v : Z) (s : State) : State :=
  {| columns := columns s; loading := loading s; error := error s;
     totalCount := totalCount s; modalState := modalState s;
     formState := formState s; editState := editState s;
     sortField := sortField s; sortOrder := sortOrder s;
     currentPage := v |}.

Definition resetForm : io State unit :=
  modify (setFormState
            (fun _ => {| FormState.columnName := ""; FormState.nameError := "";
                         FormState.loading := false |})).

(** The pencil button of a row. *)
Definition startEdit (column : ColumnData) : io State unit :=
  cl <- get ;;
  modify (setEditState
            (fun _ => {| EditState.editMode := Some (id column);
                         EditState.editColumnName := columnName column;
                         EditState.nameError := "";
                         EditState.loading := false |})) ;;
  modify (setModalState
            {| ModalState.isOpen := true; ModalState.action := edit;
               ModalState.selectedColumnId :=
                 ModalState.selectedColumnId (modalState cl) |}).

Definition handlePageChange (newPage : Z) : io State unit :=
  modify (setCurrentPage newPage).

(** The Add button: [resetForm(); setModalState({...modalState, isOpen:
    true, action: "add"})]. *)
Definition openAdd : io State unit :=
  cl <- get ;;
  resetForm ;;
  modify (setModalState
            {| ModalState.isOpen := true; ModalState.action := add;
               ModalState.selectedColumnId :=
                 ModalState.selectedColumnId (modalState cl) |}).

(** The trash button of a row. *)
Definition askDelete (column : ColumnData) : io State unit :=
  modify (setModalState
            {| ModalState.isOpen := true; ModalState.action := delete;
               ModalState.selectedColumnId := Some (id column) |}).

(** The [onDelete] the screen hands to the delete dialog: the dialog's own
    argument is ignored, the selected id is used when it is truthy. *)
Definition onDelete `{JS.Collator} (srv : Backend) (_ : string)
  : io State unit :=
  cl <- get ;;
  match ModalState.selectedColumnId (modalState cl) with
  | Some selected =>
      if JS.truthy_str selected then handleDeleteColumn srv selected
      else ret tt
  | None => ret tt
  end.

(** The text field of the dialog: it writes the edit form in edit mode and
    the add form otherwise. *)
Definition onChangeName (value : string) : io State unit :=
  cl <- get ;;
  match ModalState.action (modalState cl) with
  | edit =>
      modify (setEditState
                (fun _ => {| EditState.editMode :=
                               EditState.editMode (editState cl);
                             EditState.editColumnName := value;
                             EditState.nameError :=
                               EditState.nameError (editState cl);
                             EditState.loading :=
                               EditState.loading (editState cl) |}))
  | _ =>
      modify (setFormState
                (fun _ => {| FormState.columnName := value;
                             FormState.nameError :=
                               FormState.nameError (formState cl);
                             FormState.loading :=
                               FormState.loading (formState cl) |}))
  end.

(** The submit button: [handleEditColumn] in edit mode, [handleAddColumn]
    otherwise. *)
Definition submit `{JS.Collator} (srv : Backend) : io State unit :=
  cl <- get ;;
  match ModalState.action (modalState cl) with
  | edit => handleEditColumn srv
  | _ => handleAddColumn srv
  end.

End ColumnCallbacks.

(** The callbacks of [ConditionManagement] besides the fetch, the three
    mutations and the sort toggle. *)
Module ConditionCallbacks.

Import ConditionManagement.

(** The pencil button of a row: the column becomes an option object,
    whatever the row's column name is. *)
Definition startEdit (condition : Condition) : io State unit :=
  cl <- get ;;
  modify (setEditState
            (fun _ =>
               {| EditState.editMode := Some (id condition);
                  EditState.editConditionName := name condition;
                  EditState.editConditionDescription := description condition;
                  EditState.editOperators := operators condition;
                  EditState.editColumnName :=
                    Some {| opt_value := columnName condition;
                            opt_label := columnName condition |};
                  EditState.editValue := value condition;
                  EditState.nameError := ""; EditState.operatorsError := "";
                  EditState.columnError := ""; EditState.valueError := "";
                  EditState.loading := false |})) ;;
  modify (setModalState
            {| ModalState.isOpen := true; ModalState.action := edit;
               ModalState.selectedConditionId :=
                 ModalState.selectedConditionId (modalState cl) |}).

(** The trash button of a row. *)
Definition askDelete (condition : Condition) : io State unit :=
  modify (setModalState
            {| ModalState.isOpen := true; ModalState.action := delete;
               ModalState.selectedConditionId := Some (id condition) |}).

Definition onDelete `{JS.Collator} (srv : Backend) (_ : string)
  : io State unit :=
  cl <- get ;;
  match ModalState.selectedConditionId (modalState cl) with
  | Some selected =>
      if JS.truthy_str selected then handleDeleteCondition srv selected
      else ret tt
  | None => ret tt
  end.

(** The values of the operator select box: the placeholder option, then
    one option per operator the server listed. *)
Definition operatorOptions (operators : list string) : list string :=
  "Select operators" :: operators.

(** The operator select box of the add form. *)
Definition onChangeOperators (value : string) : io State unit :=
  cl <- get ;;
  let f := formState cl in
  modify (setFormState
            (fun _ =>
               {| FormState.conditionName := FormState.conditionName f;
                  FormState.conditionDescription :=
                    FormState.conditionDescription f;
                  FormState.operators := value;
                  FormState.columnName := FormState.columnName f;
                  FormState.value := FormState.value f;
                  FormState.nameError := FormState.nameError f;
                  FormState.operatorsError := FormState.operatorsError f;
                  FormState.columnError := FormState.columnError f;
                  FormState.valueError := FormState.valueError f;
                  FormState.loading := FormState.loading f |})).

End ConditionCallbacks.

(** The callbacks of [RuleApply] besides the fetch, the three mutations and
    the sort toggle. *)
Module RuleCallbacks.

Import RuleApply.

(** The pencil button of a row. *)
Definition startEdit (rule : Rule) : io State unit :=
  modify (setFormState
            (fun _ =>
               {| FormState.ruleName := ruleName rule;
                  FormState.description :=
                    Some (JS.or_str (JS.nullish (description rule) "") "");
                  FormState.orderNumber := Some (orderNumber rule);
                  FormState.loading := false;
                  FormState.value := value rule;
                  FormState.columnName := columnName rule;
                  FormState.conditions := conditions rule;
                  FormState.errors :=
                    {| e_ruleName := None; e_description := None;
                       e_value := None; e_columnName := None;
                       e_conditions := [] |} |})) ;;
  modify (setModalState
            {| ModalState.isOpen := true; ModalState.action := edit;
               ModalState.selectedRuleId := Some (JS.Z2string (id rule)) |}).

(** The trash button of a row calls it with [rule.id.toString()]. *)
Definition confirmDeleteRule (id : string) : io State unit :=
  modify (setModalState
            {| ModalState.isOpen := true; ModalState.action := delete;
               ModalState.selectedRuleId := Some id |}).

Definition with_conditions (conditions : list RuleCondition)
  (errors : list ConditionError) (f : FormState.t) : FormState.t :=
  {| FormState.ruleName := FormState.ruleName f;
     FormState.description := FormState.description f;
     FormState.orderNumber := FormState.orderNumber f;
     FormState.loading := FormState.loading f;
     FormState.value := FormState.value f;
     FormState.columnName := FormState.columnName f;
     FormState.conditions := conditions;
     FormState.errors :=
       {| e_ruleName := e_ruleName (FormState.errors f);
          e_description := e_description (FormState.errors f);
          e_value := e_value (FormState.errors f);
          e_columnName := e_columnName (FormState.errors f);
          e_conditions := errors |} |}.

(** The plus button of the form: one more blank condition row, and one
    more empty error entry. *)
Definition handleAddCondition : io State unit :=
  modify (setFormState
            (fun prev =>
               with_conditions
                 (FormState.conditions prev
                  ++ [{| conditionName := ""; operator := "" |}])
                 (e_conditions (FormState.errors prev)
                  ++ [{| ce_conditionName := None; ce_operator := None |}])
                 prev)).

(** The cross button of a condition row. *)
Definition handleRemoveCondition (index : nat) : io State unit :=
  modify (setFormState
            (fun prev =>
               with_conditions
                 (remove_at index (FormState.conditions prev))
                 (remove_at index (e_conditions (FormState.errors prev)))
                 prev)).

End RuleCallbacks.

(** The sort icon of a table header: [getSortIcon] of [SortableHeader]
    and of the screens. *)
Module SortIcon.

Inductive Icon : Set := ArrowsUpDownIcon | ArrowUpIcon | ArrowDownIcon.

(** [sortOrder === "asc" ? <ArrowUpIcon/> : <ArrowDownIcon/>] *)
Definition arrow (o : SortOrder) : Icon :=
  match o with asc => ArrowUpIcon | desc => ArrowDownIcon end.

(** [getSortIcon] of [SortableHeader], for the header of [field]. *)
Definition getSortIcon (currentSortField : option SortField)
  (currentSortOrder : SortOrder) (field : SortField) : Icon :=
  if negb (same_field field currentSortField) then ArrowsUpDownIcon
  else arrow currentSortOrder.

(** [getSortIcon] of the Rule screen. *)
Definition getRuleSortIcon (sortField : RuleApply.RuleSortField)
  (sortOrder : SortOrder) (field : RuleApply.RuleSortField) : Icon :=
  if negb (RuleApply.RuleSortField_eqb sortField field) then ArrowsUpDownIcon
  else arrow sortOrder.

End SortIcon.

(* ===================================================================== *)
(** * Vocabulary of the statements                                      *)
(* ===================================================================== *)

(** The body of a usable answer: a response of the 2xx class. *)
Definition answered {A : Type} (rep : reply A) : option A :=
  match rep with
  | Response true d => Some d
  | _ => None
  end.

(** A list body that cannot be used: no 2xx response, or a body that is
    not an array. *)
Definition unusable {A : Type} (body : option (payload A)) : Prop :=
  match body with
  | Some (Items _) => False
  | _ => True
  end.

(** The requests a log records, in the order they were sent. *)
Definition requests (log : list event) : list request :=
  flat_map (fun e => match e with Request r => [r] | _ => [] end) log.

(** What a failed mutation leaves behind: the callback returns; the rows
    and the count are the ones shown before; the error banner and an error
    toast are set and no success toast; and the one request sent is the
    mutation itself, neither repeated nor followed by a refetch. *)
Record Kept {S Row : Type} (rows : S -> list Row) (total : S -> JS.number)
  (error : S -> option string) (st : S) (out : result unit * S * list event)
  (sent : request) (banner toast : string) : Prop := {
  returned : fst (fst out) = Returned tt;
  rows_kept : rows (snd (fst out)) = rows st;
  total_kept : total (snd (fst out)) = total st;
  banner_set : error (snd (fst out)) = Some banner;
  toast_shown : In (ToastError toast) (snd out);
  no_success : forall m, ~ In (ToastSuccess m) (snd out);
  sent_once : requests (snd out) = [sent]
}.

(** A string that is empty or holds white space only. *)
Definition blank (s : string) : Prop :=
  Forall (fun c => JS.is_white c = true) (list_ascii_of_string s).

(** The sort key in the spec's words: the value in lower case and trimmed,
    an absent value counting as the empty string. *)
Definition sortKey (v : option string) : string :=
  match v with
  | Some s => JS.trim (JS.toLowerCase s)
  | None => ""
  end.

(** The ordering in the spec's words: locale-aware comparison of the two
    keys, negated for descending order. *)
Definition textOrder `{JS.Collator} (o : SortOrder) (x y : option string)
  : JS.number :=
  match o with
  | asc => JS.localeCompare (sortKey x) (sortKey y)
  | desc => (- JS.localeCompare (sortKey x) (sortKey y))%float
  end.

(** The name the UI shows for a server condition, in the spec's words: its
    description if that is non-empty, else its [condition] field. *)
Definition shownName (c : ApiRuleGroup.condition) : string :=
  if String.eqb (ApiRuleGroup.c_description c) ""
  then ApiRuleGroup.c_condition c
  else ApiRuleGroup.c_description c.

(** The server's sub-groups, a missing member read as no sub-group. *)
Definition subGroupsOf (g : ApiRuleGroup.t) : list ApiRuleGroup.subGroup :=
  match ApiRuleGroup.subGroups g with Some l => l | None => [] end.

(** The paginate pass as each fetch computes it from [currentPage]. *)
Definition pageOf {A : Type} (sorted : list A) (currentPage : Z) : list A :=
  let startIndex := (currentPage - 1) * itemsPerPage in
  let endIndex := startIndex + itemsPerPage in
  JS.slice sorted startIndex endIndex.

(** The condition rows of the form after a callback ran. *)
Definition rowsAfter (c : io RuleApply.State unit) (st : RuleApply.State)
  : list RuleApply.RuleCondition :=
  RuleApply.FormState.conditions (RuleApply.formState (state_after c st)).

(** The per-row errors of the form after a callback ran. *)
Definition rowErrorsAfter (c : io RuleApply.State unit) (st : RuleApply.State)
  : list RuleApply.ConditionError :=
  RuleApply.e_conditions
    (RuleApply.FormState.errors (RuleApply.formState (state_after c st))).

(** What a save without a row id leaves on the Column screen: the edit
    form blank and the dialog closed. *)
Definition columnEditDone (st : ColumnManagement.State) : ColumnManagement.State :=
  ColumnManagement.setEditState
    (ColumnManagement.EditState.with_loading false)
    (ColumnManagement.setModalState
       (ColumnManagement.ModalState.with_isOpen false
          (ColumnManagement.modalState st))
       (ColumnManagement.setEditState
          (fun _ =>
             {| ColumnManagement.EditState.editMode := None;
                ColumnManagement.EditState.editColumnName := "";
                ColumnManagement.EditState.nameError := "";
                ColumnManagement.EditState.loading := false |})
          st)).

(** The Rule screen after the pencil button of the row adapted from the
    server's rule group [g]. *)
Definition editing (g : ApiRuleGroup.t) (st : RuleApply.State) : RuleApply.State :=
  state_after (RuleCallbacks.startEdit (RuleApply.toUiRule g)) st.

(** The number of digits of a decimal numeral. *)
Fixpoint digits (d : Decimal.uint) : Z :=
  match d with
  | Decimal.Nil => 0
  | Decimal.D0 d' | Decimal.D1 d' | Decimal.D2 d' | Decimal.D3 d'
  | Decimal.D4 d' | Decimal.D5 d' | Decimal.D6 d' | Decimal.D7 d'
  | Decimal.D8 d' | Decimal.D9 d' => 1 + digits d'
  end.

(** The one query each screen's fetch sends. *)
Definition columnsQuery (st : ColumnManagement.State) : Query :=
  {| page := 1; limit := 1000; sort := Some "columnName";
     order := Some (ColumnManagement.sortOrder st) |}.

Definition conditionsQuery (st : ConditionManagement.State) : Query :=
  {| page := 1; limit := 1000;
     sort := option_map key (ConditionManagement.sortField st);
     order := Some (ConditionManagement.sortOrder st) |}.

Definition rulesQuery (st : RuleApply.State) : Query :=
  {| page := 1; limit := 1000;
     sort := Some (RuleApply.sortFieldMap (RuleApply.sortField st));
     order := Some (RuleApply.sortOrder st) |}.

(** The events of a log that are no request and no success toast. *)
Definition quiet (log : list event) : Prop :=
  requests log = [] /\ forall m, ~ In (ToastSuccess m) log.

(** The last event of a log, if any. *)
Definition lastEvent (log : list event) : option event :=
  last (List.map Some log) None.

(** What an accepted mutation of a list screen does: the callback returns,
    the requests are the mutation and then the list query, the last event
    is the success toast, and the dialog is closed. *)
Record Accepted {S : Type} (isOpen : S -> bool)
  (out : result unit * S * list event) (sent refetch : request)
  (toast : string) : Prop := {
  acc_returned : fst (fst out) = Returned tt;
  acc_requests : requests (snd out) = [sent; refetch];
  acc_toast : lastEvent (snd out) = Some (ToastSuccess toast);
  acc_closed : isOpen (snd (fst out)) = false
}.

(** [cmp a b] is above zero, the one answer on which [sort] moves [a]
    behind [b]. *)
Definition after {A : Type} (cmp : A -> A -> JS.number) (a b : A) : bool :=
  (0 <? cmp a b)%float.

(** A comparator that never puts each of two rows after the other. *)
Definition asymmetric {A : Type} (cmp : A -> A -> JS.number) : Prop :=
  forall a b, after cmp a b = true -> after cmp b a = false.

(** A value with the sign [sx], or no number at all. *)
Definition signed (sx : bool) (f : spec_float) : Prop :=
  match f with
  | S754_zero s | S754_infinity s | S754_finite s _ _ => s = sx
  | S754_nan => True
  end.

Definition above_zero (f : spec_float) : bool := SFltb (S754_zero false) f.

(** A collation that answers the opposite when its arguments are
    swapped. *)
Definition antisymmetric (C : JS.Collator) : Prop :=
  forall s t, @JS.collate C s t = CompOpp (@JS.collate C t s).

(** A callback that settles: it returns, after at most two requests. *)
Definition settles {S : Type} (out : result unit * S * list event) : Prop :=
  fst (fst out) = Returned tt /\ (List.length (requests (snd out)) <= 2)%nat.

(* ===================================================================== *)
(** * Servers, rows and states to evaluate the screens on               *)
(* ===================================================================== *)

(** Code-unit order: a collation that satisfies the law. *)
#[local] Instance codeunit_order : JS.Collator :=
  {| JS.collate := String.compare;
     JS.collate_refl :=
       fun s =>
         match String.compare s s as c
               return c = CompOpp c -> c = Eq with
         | Eq => fun _ => eq_refl
         | Lt => fun E => ltac:(discriminate E)
         | Gt => fun E => ltac:(discriminate E)
         end (String.compare_antisym s s) |}.

(** A server condition of which only the id and the value matter. *)
Definition api_condition (id : Z) (value : string) : Api.Condition.t :=
  {| Api.Condition.id := Some id; Api.Condition.condition := "";
     Api.Condition.description := ""; Api.Condition.operator := "";
     Api.Condition.value := Str value; Api.Condition.columnName := None;
     Api.Condition.columnId := None; Api.Condition.operatorId := None |}.

Definition api_column (id : Z) (columnName : string) : Column.t :=
  {| Column.id := Some id; Column.columnName := columnName |}.

(** Three columns, as the server lists them. *)
Definition three_columns : list Column.t :=
  [api_column 1 "b"; api_column 2 "a"; api_column 3 "c"].

(** A server with twelve conditions, of values 12 down to 1. *)
Definition twelve_conditions : list Api.Condition.t :=
  List.map (fun i => api_condition i (JS.Z2string (13 - i)))
    [1; 2; 3; 4; 5; 6; 7; 8; 9; 10; 11; 12].

(** A server that answers no call. *)
Definition offline : Backend :=
  {| columns := fun _ => NoResponse;
     conditions := fun _ => NoResponse;
     ruleGroups := fun _ => NoResponse;
     mutation := fun _ => NoResponse |}.

(** A server that answers the three list endpoints with the given bodies
    and accepts every mutation. *)
Definition serving (cols : payload Column.t) (conds : payload Api.Condition.t)
  (groups : payload ApiRuleGroup.t) : Backend :=
  {| columns := fun _ => Response true cols;
     conditions := fun _ => Response true (conds, None);
     ruleGroups := fun _ => Response true groups;
     mutation := fun _ => Response true tt |}.

(** A server that answers every list endpoint with a body that is no
    array. *)
Definition misshapen : Backend := serving NotAnArray NotAnArray NotAnArray.

(** A server that lists the three columns and answers every mutation with
    a status outside the 2xx class. *)
Definition read_only : Backend :=
  {| columns := fun _ => Response true (Items three_columns);
     conditions := fun _ => Response true (NotAnArray, None);
     ruleGroups := fun _ => Response true NotAnArray;
     mutation := fun _ => Response false tt |}.

(** Two rules that differ in every text field. *)
Definition rule_zeta : RuleApply.Rule :=
  {| RuleApply.id := 1; RuleApply.ruleName := "zeta";
     RuleApply.description := Some "last"; RuleApply.conditions := [];
     RuleApply.orderNumber := 1; RuleApply.value := "x";
     RuleApply.columnName := "zip" |}.

Definition rule_alpha : RuleApply.Rule :=
  {| RuleApply.id := 2; RuleApply.ruleName := "alpha";
     RuleApply.description := Some "first"; RuleApply.conditions := [];
     RuleApply.orderNumber := 2; RuleApply.value := "y";
     RuleApply.columnName := "age" |}.

(** The Rule screen as it shows two rules. *)
Definition showing_two_rules : RuleApply.State :=
  RuleApply.setTotalCount 2%float
    (RuleApply.setRules [rule_zeta; rule_alpha] RuleApply.initialState).

(** The Column screen after its first fetch from that server. *)
Definition showing_three_columns : ColumnManagement.State :=
  state_after (ColumnManagement.fetchColumns read_only)
    ColumnManagement.initialState.

(** The form with three spaces typed as the name. *)
Definition spaces_typed : ColumnManagement.State :=
  ColumnManagement.setFormState
    (fun _ => {| ColumnManagement.FormState.columnName := "   ";
                 ColumnManagement.FormState.nameError := "";
                 ColumnManagement.FormState.loading := false |})
    ColumnManagement.initialState.

(** The Condition screen on page 2, sorting by value. *)
Definition by_value_page_two : ConditionManagement.State :=
  {| ConditionManagement.conditions := [];
     ConditionManagement.loading := false;
     ConditionManagement.error := None;
     ConditionManagement.totalCount := 0%float;
     ConditionManagement.modalState :=
       ConditionManagement.modalState ConditionManagement.initialState;
     ConditionManagement.formState := ConditionManagement.FormState.initial;
     ConditionManagement.editState := ConditionManagement.EditState.initial;
     ConditionManagement.sortField := Some F_value;
     ConditionManagement.sortOrder := asc;
     ConditionManagement.currentPage := 2 |}.

(** A form whose only row has no operator. *)
Definition operator_missing : RuleApply.State :=
  RuleApply.setFormState
    (fun _ =>
       {| RuleApply.FormState.ruleName := "adults";
          RuleApply.FormState.description := Some "";
          RuleApply.FormState.orderNumber := Some 1;
          RuleApply.FormState.loading := false;
          RuleApply.FormState.value := "ok";
          RuleApply.FormState.columnName := "age";
          RuleApply.FormState.conditions :=
            [{| RuleApply.conditionName := "is adult";
                RuleApply.operator := "" |}];
          RuleApply.FormState.errors :=
            RuleApply.FormState.errors (RuleApply.FormState.blank None) |})
    RuleApply.initialState.

(** The Column screen with a name typed into the edit form and no row
    being edited. *)
Definition name_typed_no_row : ColumnManagement.State :=
  ColumnManagement.setEditState
    (fun _ =>
       {| ColumnManagement.EditState.editMode := None;
          ColumnManagement.EditState.editColumnName := "age";
          ColumnManagement.EditState.nameError := "";
          ColumnManagement.EditState.loading := false |})
    showing_three_columns.

(** The Column screen with the name "age" typed into the add form. *)
Definition age_typed : ColumnManagement.State :=
  ColumnManagement.setFormState
    (fun _ => {| ColumnManagement.FormState.columnName := "age";
                 ColumnManagement.FormState.nameError := "";
                 ColumnManagement.FormState.loading := false |})
    showing_three_columns.

(** The add form of the Condition screen, filled in, with the placeholder
    option of the operator select box chosen. *)
Definition placeholder_chosen : ConditionManagement.State :=
  ConditionManagement.setFormState
    (fun _ =>
       {| ConditionManagement.FormState.conditionName := "is adult";
          ConditionManagement.FormState.conditionDescription := "";
          ConditionManagement.FormState.operators := "Select operators";
          ConditionManagement.FormState.columnName :=
            Some {| ConditionManagement.opt_value := "age";
                    ConditionManagement.opt_label := "age" |};
          ConditionManagement.FormState.value := "18";
          ConditionManagement.FormState.nameError := "";
          ConditionManagement.FormState.operatorsError := "";
          ConditionManagement.FormState.columnError := "";
          ConditionManagement.FormState.valueError := "";
          ConditionManagement.FormState.loading := false |})
    ConditionManagement.initialState.

(** The Rule screen with the trash button of rule 1 pressed. *)
Definition deleting_rule_one : RuleApply.State :=
  state_after (RuleCallbacks.confirmDeleteRule "1") showing_two_rules.

(** A rule group of the server with one condition. *)
Definition group_adults : ApiRuleGroup.t :=
  {| ApiRuleGroup.id := 42; ApiRuleGroup.column_ := None;
     ApiRuleGroup.description := Some "adults";
     ApiRuleGroup.result := "ok"; ApiRuleGroup.groupOrder := 3;
     ApiRuleGroup.subGroups :=
       Some [ {| ApiRuleGroup.sg_id := 1; ApiRuleGroup.parentGroupId := 42;
                 ApiRuleGroup.conditions :=
                   [ {| ApiRuleGroup.c_id := 1; ApiRuleGroup.conditionId := 7;
                        ApiRuleGroup.subGroupId := 1;
                        ApiRuleGroup.c_description := "";
                        ApiRuleGroup.c_condition := "age > 18" |} ] |} ] |}.

(** A server that lists the three columns and accepts every mutation. *)
Definition read_write : Backend :=
  serving (Items three_columns) NotAnArray NotAnArray.

(* ===================================================================== *)
(** * Proof automation                                                  *)
(* ===================================================================== *)

(** Splits a toggle's postcondition and closes what is immediate. *)
Ltac toggle_goals :=
  repeat split; intros; try reflexivity; try assumption; try congruence.

(** Closes a goal whose hypothesis contradicts the failed field test. *)
Ltac toggle_absurd lem :=
  exfalso;
  match goal with
  | H : _ = _ |- _ => apply (proj2 (lem _ _)) in H; congruence
  end.

(** Unfolds a callback down to the server's answer. *)
Ltac unfold_callback :=
  unfold run, createColumn, updateColumn, deleteColumn, createCondition,
    updateCondition, deleteCondition, createRuleGroup, updateRuleGroup,
    deleteRuleGroup, axios, fetch_json;
  unfold try_finally, try_catch, bind, get, modify, emit, ret, throw.

(** Closes [Kept] once the log and the state are evaluated. *)
Ltac close_kept :=
  constructor; cbn;
  [ reflexivity | reflexivity | reflexivity | reflexivity
  | auto 10
  | intros m Hin;
    repeat (destruct Hin as [Hin | Hin]; [discriminate Hin|]); exact Hin
  | reflexivity ].

(** Case analysis on the answer to the request [r], which the hypothesis
    [Hfail] says was not of the 2xx class. *)
Ltac failed_answer srv r Hfail :=
  destruct (mutation srv r) as [|[] []]; cbn in Hfail; try discriminate Hfail.

(* ===================================================================== *)
(** * Facts about the runtime fragment                                    *)
(* ===================================================================== *)

Section RuntimeFacts.

Context {A : Type}.

(** A comparator that never answers a positive number leaves the array as
    it is. *)
Lemma sort_fixed (cmp : A -> A -> JS.number) (l : list A) :
  (forall x y, (0 <? cmp x y)%float = false) -> JS.sort cmp l = l.
Proof.
  intros Hcmp. induction l as [|x l IH]; [reflexivity|].
  unfold JS.sort in *. simpl. rewrite IH.
  destruct l as [|y l']; [reflexivity|].
  simpl. now rewrite Hcmp.
Qed.

Lemma relative_index_inside (len i : Z) :
  0 <= i -> JS.relative_index len i = Z.min i len.
Proof.
  intros Hi. unfold JS.relative_index.
  destruct (i <? 0) eqn:E; [apply Z.ltb_lt in E; lia | reflexivity].
Qed.

(** [slice] between two non-negative indices takes the elements at the
    positions [start <= i < end_] that exist. *)
Lemma slice_window (l : list A) (start end_ : Z) :
  0 <= start -> 0 <= end_ ->
  JS.slice l start end_
  = firstn (Z.to_nat (end_ - start)) (skipn (Z.to_nat start) l).
Proof.
  intros Hs He. unfold JS.slice.
  rewrite !relative_index_inside by assumption.
  set (len := Z.of_nat (List.length l)).
  destruct (Z.le_gt_cases len start) as [Hout|Hin].
  - rewrite !skipn_all2 by (subst len; lia).
    now rewrite !firstn_nil.
  - rewrite (Z.min_l start len) by lia.
    destruct (Z.le_gt_cases end_ len) as [He'|He'].
    + now rewrite (Z.min_l end_ len) by lia.
    + rewrite (Z.min_r end_ len) by lia.
      rewrite !firstn_all2; [reflexivity | |];
        rewrite length_skipn; subst len; lia.
Qed.

End RuntimeFacts.

(** An integer that a number holds exactly: of magnitude below 2^53. Its
    text is its decimal digits. *)
Lemma Z2string_safe (z : Z) :
  Z.abs z < 2 ^ 53 -> JS.Z2string z = JS.decimal z.
Proof.
  intros Hz. unfold JS.Z2string.
  now replace (Z.abs z <? 2 ^ 53) with true by (symmetry; now apply Z.ltb_lt).
Qed.

(** The decimal digits of an integer are never the empty string. *)
Lemma decimal_truthy (z : Z) : JS.truthy_str (JS.decimal z) = true.
Proof.
  unfold JS.decimal. destruct z as [|p|p]; simpl; try reflexivity.
  destruct (Pos.to_uint p); reflexivity.
Qed.

Lemma truthy_app (a b : string) :
  JS.truthy_str a = true -> JS.truthy_str (a ++ b) = true.
Proof. destruct a; [discriminate | reflexivity]. Qed.

(** The text of a number is never the empty string. *)
Lemma Z2string_truthy (z : Z) : JS.truthy_str (JS.Z2string z) = true.
Proof.
  assert (Hpos : forall p, JS.truthy_str (JS.positive2string p) = true).
  { intros p. unfold JS.positive2string. cbv zeta.
    destruct (JS.num2Z _) as [v|]; [|reflexivity].
    destruct (JS.shortest _ _ _ _ _) as [[[s k] n]|];
      [|apply decimal_truthy].
    destruct (n <=? 21); [apply truthy_app, decimal_truthy|].
    unfold JS.exponential. pose proof (decimal_truthy s) as Hs.
    destruct (JS.decimal s) as [|c [|c' r]]; [discriminate | reflexivity ..]. }
  unfold JS.Z2string.
  destruct (Z.abs z <? 2 ^ 53); [apply decimal_truthy|].
  destruct (z <? 0); [reflexivity | apply Hpos].
Qed.

(** The numeric parsers on the inputs the screens meet. *)
Example Number_samples :
  JS.Number_ "10" = 10%float /\ JS.Number_ " 2 " = 2%float /\
  JS.Number_ "" = 0%float /\ JS.Number_ "-1.5e3" = (-1500)%float /\
  JS.Number_ "0x1F" = 31%float /\ JS.Number_ ".5" = 0.5%float /\
  JS.isNaN (JS.Number_ "abc") = true /\ JS.isNaN (JS.Number_ "12px") = true /\
  JS.isNaN (JS.Number_ "1e") = true /\ JS.Number_ "1e400" = JS.Infinity.
Proof. repeat split. Qed.

Example parseInt_samples :
  JS.parseInt "42" 10 = 42%float /\ JS.parseInt "  -7px" 10 = (-7)%float /\
  JS.parseInt "0x1f" 0 = 31%float /\ JS.parseInt "0x1f" 10 = 0%float /\
  JS.isNaN (JS.parseInt "" 10) = true /\ JS.isNaN (JS.parseInt "abc" 0) = true.
Proof. repeat split. Qed.

Example string_samples :
  JS.toLowerCase " Beta " = " beta " /\ JS.trim " beta " = "beta" /\
  JS.trim "   " = "" /\ JS.trim " a b  " = "a b" /\
  JS.String_ None = "undefined" /\ JS.Z2string 42 = "42" /\
  JS.Z2string (-7) = "-7".
Proof. repeat split. Qed.

(** The text of a number past the integers it holds exactly: the shortest
    digits that read back as the same number, then zeros, and exponent
    notation from 10^21 on. *)
Example number_text_samples :
  JS.Z2string (2 ^ 53 - 1) = "9007199254740991" /\
  JS.Z2string (2 ^ 53 + 1) = "9007199254740992" /\
  JS.Z2string (2 ^ 60) = "1152921504606847000" /\
  JS.Z2string (2 ^ 64) = "18446744073709552000" /\
  JS.Z2string (10 ^ 21 - 65537) = "999999999999999900000" /\
  JS.Z2string (10 ^ 21) = "1e+21" /\
  JS.Z2string (- 10 ^ 21) = "-1e+21" /\
  JS.Z2string (2 ^ 70) = "1.1805916207174113e+21" /\
  JS.Z2string (10 ^ 23) = "1e+23" /\
  JS.Z2string (10 ^ 400) = "Infinity" /\
  JS.parseInt (JS.Z2string (10 ^ 21)) 10 = 1%float.
Proof. vm_compute. repeat split. Qed.

(* ===================================================================== *)
(** * The sort toggle                                                     *)
(* ===================================================================== *)

Lemma SortField_eqb_eq (a b : SortField) : SortField_eqb a b = true <-> a = b.
Proof. destruct a, b; simpl; split; congruence. Qed.

Lemma same_field_eq (f : SortField) (cur : option SortField) :
  same_field f cur = true <-> cur = Some f.
Proof.
  destruct cur as [g|]; simpl.
  - rewrite SortField_eqb_eq. split; congruence.
  - split; congruence.
Qed.

Lemma RuleSortField_eqb_eq (a b : RuleApply.RuleSortField) :
  RuleApply.RuleSortField_eqb a b = true <-> a = b.
Proof. destruct a, b; simpl; split; congruence. Qed.

(** C9. On each of the three screens the sort toggle, called with the field
    that is the current sort field, keeps the field and flips the order
    (ascending to descending, descending to ascending); called with any
    other field it makes that field the sort field and sets the order to
    ascending. It never throws and reaches neither the network nor the
    user. *)
Theorem sort_toggle_flips_or_resets :
  (forall (st : ColumnManagement.State) (f : SortField),
      let '(r, st', log) := run (ColumnManagement.handleSort f) st in
      r = Returned tt /\ log = [] /\
      (ColumnManagement.sortField st = Some f ->
       ColumnManagement.sortField st' = Some f /\
       ColumnManagement.sortOrder st'
       = match ColumnManagement.sortOrder st with asc => desc | desc => asc end) /\
      (ColumnManagement.sortField st <> Some f ->
       ColumnManagement.sortField st' = Some f /\
       ColumnManagement.sortOrder st' = asc))
  /\
  (forall (st : ConditionManagement.State) (f : SortField),
      let '(r, st', log) := run (ConditionManagement.handleSort f) st in
      r = Returned tt /\ log = [] /\
      (ConditionManagement.sortField st = Some f ->
       ConditionManagement.sortField st' = Some f /\
       ConditionManagement.sortOrder st'
       = match ConditionManagement.sortOrder st with asc => desc | desc => asc end) /\
      (ConditionManagement.sortField st <> Some f ->
       ConditionManagement.sortField st' = Some f /\
       ConditionManagement.sortOrder st' = asc))
  /\
  (forall (st : RuleApply.State) (f : RuleApply.RuleSortField),
      let '(r, st', log) := run (RuleApply.toggleSort f) st in
      r = Returned tt /\ log = [] /\
      (RuleApply.sortField st = f ->
       RuleApply.sortField st' = f /\
       RuleApply.sortOrder st'
       = match RuleApply.sortOrder st with asc => desc | desc => asc end) /\
      (RuleApply.sortField st <> f ->
       RuleApply.sortField st' = f /\
       RuleApply.sortOrder st' = asc)).
Proof.
  split; [|split]; intros st f.
  - unfold run, ColumnManagement.handleSort, bind, get.
    destruct (same_field f (ColumnManagement.sortField st)) eqn:E; cbn.
    + apply same_field_eq in E. toggle_goals.
    + toggle_goals. all: toggle_absurd same_field_eq.
  - unfold run, ConditionManagement.handleSort, bind, get.
    destruct (same_field f (ConditionManagement.sortField st)) eqn:E; cbn.
    + apply same_field_eq in E. toggle_goals.
    + toggle_goals. all: toggle_absurd same_field_eq.
  - unfold run, RuleApply.toggleSort, bind, get.
    destruct (RuleApply.RuleSortField_eqb (RuleApply.sortField st) f) eqn:E;
      cbn.
    + apply RuleSortField_eqb_eq in E. toggle_goals.
    + toggle_goals. all: toggle_absurd RuleSortField_eqb_eq.
Qed.

(* ===================================================================== *)
(** * The pagination control                                              *)
(* ===================================================================== *)

Lemma pageNumbers_range (totalPages page : Z) :
  In page (Pagination.pageNumbers totalPages) <-> 1 <= page <= totalPages.
Proof.
  unfold Pagination.pageNumbers. rewrite in_map_iff. split.
  - intros (i & <- & Hi). apply in_seq in Hi. lia.
  - intros H. exists (Z.to_nat (page - 1)). split; [lia|].
    apply in_seq. lia.
Qed.

(** C10. Previous asks for [max(page - 1, 1)], Next for
    [min(page + 1, totalPages)], First for [1] and Last for [totalPages];
    from a page in [1, totalPages] every button the control renders, the
    numbered ones included, leads to a page in [1, totalPages]. *)
Theorem pagination_stays_in_range (p : Pagination.Props) (page : Z) :
  1 <= page <= Pagination.totalPages p ->
  Pagination.onClick p Pagination.First page = 1 /\
  Pagination.onClick p Pagination.Previous page = Z.max (page - 1) 1 /\
  Pagination.onClick p Pagination.Next page
  = Z.min (page + 1) (Pagination.totalPages p) /\
  Pagination.onClick p Pagination.Last page = Pagination.totalPages p /\
  forall b, Pagination.rendered p b ->
            1 <= Pagination.onClick p b page <= Pagination.totalPages p.
Proof.
  intros Hpage. repeat split; try reflexivity.
  all: destruct b; simpl in *; try apply pageNumbers_range in H; lia.
Qed.

Lemma pagination_stays_in_range_witness :
  let p := {| Pagination.currentPage := 2; Pagination.totalPages := 3;
              Pagination.totalItems := 25; Pagination.itemsPerPage := 10 |} in
  1 <= 2 <= Pagination.totalPages p /\
  Pagination.onClick p Pagination.Next 3 = 3 /\
  Pagination.onClick p Pagination.Previous 1 = 1 /\
  1 <= Pagination.onClick p Pagination.Previous 2 <= 3.
Proof.
  cbv zeta.
  split; [simpl; lia|].
  split; [reflexivity|]. split; [reflexivity|].
  refine (proj2 (proj2 (proj2 (proj2
    (pagination_stays_in_range
       {| Pagination.currentPage := 2; Pagination.totalPages := 3;
          Pagination.totalItems := 25; Pagination.itemsPerPage := 10 |}
       2 _)))) Pagination.Previous I).
  simpl; lia.
Defined.

(* ===================================================================== *)
(** * The adapter from the server's rule group to the UI's rule           *)
(* ===================================================================== *)

Lemma or_str_spec (x y : string) :
  JS.or_str x y = if String.eqb x "" then y else x.
Proof. destruct x; reflexivity. Qed.

(** C2. The adapter is total, and for every server rule group [g]:
    [ruleName] is the description when there is one and "Rule " followed by
    the id otherwise, the id as the template literal prints the number:
    its decimal digits for an id of magnitude below 2^53, and "1e+21" for
    the id 10^21; [columnName] is the column's name when there is a
    column and empty otherwise; [value] is [result]; [orderNumber] is
    [groupOrder]; [conditions] lists, sub-group after sub-group and inside
    each in the order of its conditions, every condition's description if
    non-empty and else its [condition] field, each with the empty operator;
    a missing [subGroups] gives no conditions. *)
Theorem toUiRule_flattens (g : ApiRuleGroup.t) :
  let r := RuleApply.toUiRule g in
  RuleApply.id r = ApiRuleGroup.id g /\
  RuleApply.ruleName r
  = match ApiRuleGroup.description g with
    | Some d => d
    | None => ("Rule " ++ JS.Z2string (ApiRuleGroup.id g))%string
    end /\
  (ApiRuleGroup.description g = None ->
   Z.abs (ApiRuleGroup.id g) < 2 ^ 53 ->
   RuleApply.ruleName r
   = ("Rule " ++ NilZero.string_of_int (Z.to_int (ApiRuleGroup.id g)))%string) /\
  (ApiRuleGroup.description g = None ->
   ApiRuleGroup.id g = 10 ^ 21 ->
   RuleApply.ruleName r = "Rule 1e+21") /\
  RuleApply.columnName r
  = match ApiRuleGroup.column_ g with
    | Some c => ApiRuleGroup.columnName c
    | None => ""
    end /\
  RuleApply.value r = ApiRuleGroup.result g /\
  RuleApply.orderNumber r = ApiRuleGroup.groupOrder g /\
  List.map RuleApply.conditionName (RuleApply.conditions r)
  = List.concat
      (List.map (fun sg => List.map shownName (ApiRuleGroup.conditions sg))
         (subGroupsOf g)) /\
  Forall (fun c => RuleApply.operator c = "") (RuleApply.conditions r) /\
  List.length (RuleApply.conditions r)
  = list_sum (List.map (fun sg => List.length (ApiRuleGroup.conditions sg))
                (subGroupsOf g)) /\
  (ApiRuleGroup.subGroups g = None -> RuleApply.conditions r = []).
Proof.
  destruct g as [i col d res ord sgs];
    cbn -[JS.Z2string Z.pow Z.abs Z.lt NilZero.string_of_int Z.to_int].
  repeat match goal with |- _ /\ _ => split end; try reflexivity.
  - intros -> Hsafe. cbn [JS.nullish]. now rewrite (Z2string_safe i Hsafe).
  - intros -> ->. vm_compute. reflexivity.
  - destruct col; reflexivity.
  - unfold subGroupsOf; cbn. destruct sgs as [l|]; cbn; [|reflexivity].
    unfold JS.flatMap. rewrite concat_map, map_map. f_equal.
    apply map_ext; intros sg. rewrite map_map. apply map_ext; intros c.
    unfold RuleApply.toRuleCondition, shownName; cbn. apply or_str_spec.
  - destruct sgs as [l|]; cbn; [|constructor].
    unfold JS.flatMap. apply Forall_concat, Forall_map, Forall_forall.
    intros sg _. apply Forall_map, Forall_forall. now intros c _.
  - unfold subGroupsOf; cbn. destruct sgs as [l|]; cbn; [|reflexivity].
    unfold JS.flatMap. induction l as [|sg l IH]; [reflexivity|].
    cbn. now rewrite length_app, length_map, IH.
  - intros ->. reflexivity.
Qed.

Lemma toUiRule_flattens_witness :
  RuleApply.ruleName (RuleApply.toUiRule group_adults) = "adults" /\
  RuleApply.ruleName
    (RuleApply.toUiRule
       {| ApiRuleGroup.id := 42; ApiRuleGroup.column_ := None;
          ApiRuleGroup.description := None; ApiRuleGroup.result := "ok";
          ApiRuleGroup.groupOrder := 3; ApiRuleGroup.subGroups := None |})
  = "Rule 42" /\
  List.map RuleApply.conditionName
    (RuleApply.conditions (RuleApply.toUiRule group_adults)) = ["age > 18"].
Proof.
  destruct (toUiRule_flattens group_adults) as (_ & Hname & _ & _ & _ & _ & _
                                                 & Hconds & _).
  destruct (toUiRule_flattens
              {| ApiRuleGroup.id := 42; ApiRuleGroup.column_ := None;
                 ApiRuleGroup.description := None; ApiRuleGroup.result := "ok";
                 ApiRuleGroup.groupOrder := 3; ApiRuleGroup.subGroups := None |})
    as (_ & _ & Hdigits & _).
  split; [exact Hname|]. split; [|rewrite Hconds; reflexivity].
  rewrite (Hdigits eq_refl eq_refl). reflexivity.
Defined.

(** The adapter on a rule group with a description, a column and two
    sub-groups of one condition each, the first without description. *)
Example toUiRule_two_subgroups :
  let c1 := {| ApiRuleGroup.c_id := 1; ApiRuleGroup.conditionId := 7;
               ApiRuleGroup.subGroupId := 1;
               ApiRuleGroup.c_description := "";
               ApiRuleGroup.c_condition := "age > 18" |} in
  let c2 := {| ApiRuleGroup.c_id := 2; ApiRuleGroup.conditionId := 8;
               ApiRuleGroup.subGroupId := 2;
               ApiRuleGroup.c_description := "is adult";
               ApiRuleGroup.c_condition := "age >= 18" |} in
  let g := {| ApiRuleGroup.id := 42; ApiRuleGroup.column_ := None;
              ApiRuleGroup.description := None;
              ApiRuleGroup.result := "ok"; ApiRuleGroup.groupOrder := 3;
              ApiRuleGroup.subGroups :=
                Some [ {| ApiRuleGroup.sg_id := 1;
                          ApiRuleGroup.parentGroupId := 42;
                          ApiRuleGroup.conditions := [c1] |};
                       {| ApiRuleGroup.sg_id := 2;
                          ApiRuleGroup.parentGroupId := 42;
                          ApiRuleGroup.conditions := [c2] |} ] |} in
  RuleApply.toUiRule g
  = {| RuleApply.id := 42; RuleApply.ruleName := "Rule 42";
       RuleApply.description := None;
       RuleApply.conditions :=
         [ {| RuleApply.conditionName := "age > 18"; RuleApply.operator := "" |};
           {| RuleApply.conditionName := "is adult"; RuleApply.operator := "" |} ];
       RuleApply.orderNumber := 3; RuleApply.value := "ok";
       RuleApply.columnName := "" |}.
Proof. reflexivity. Qed.

(* ===================================================================== *)
(** * The comparators                                                     *)
(* ===================================================================== *)

(** The guard [if (!v) v = ''] changes no string. *)
Lemma empty_guard (s : string) :
  (if negb (JS.truthy_str s) then "" else s) = s.
Proof. destruct s; reflexivity. Qed.

Lemma localeCompare_same `{JS.Collator} (s : string) :
  JS.localeCompare s s = 0%float.
Proof. unfold JS.localeCompare. now rewrite JS.collate_refl. Qed.

Section RulesTextSort.

Context `{JS.Collator}.

(** The string branch of the Rule screen's comparator compares the
    lower-cased, trimmed name of the sort field with itself. *)
Lemma rules_compareText_key (f : RuleApply.RuleSortField) (o : SortOrder)
  (a b : RuleApply.Rule) :
  let k := JS.trim (JS.toLowerCase (RuleApply.sortFieldMap f)) in
  RuleApply.compareText f o a b
  = by_order o (JS.localeCompare k k) (- JS.localeCompare k k)%float.
Proof.
  unfold RuleApply.compareText. cbv zeta. rewrite !empty_guard. reflexivity.
Qed.

Lemma rules_compareText_zero (f : RuleApply.RuleSortField) (o : SortOrder)
  (a b : RuleApply.Rule) :
  RuleApply.compareText f o a b = by_order o 0%float (-0)%float.
Proof.
  rewrite rules_compareText_key. cbv zeta. rewrite localeCompare_same.
  destruct o; reflexivity.
Qed.

(** C1. On the Rule screen, for every sort field other than [id],
    [orderNumber] and [value], the comparator is its string branch, which
    stringifies the entry of the field-name mapping and never reads a row:
    for every two rows it returns zero ([0] ascending, its negation [-0]
    descending), whatever the rows hold, and the sort pass returns the
    adapted rows in the order it received them. *)
Theorem rules_text_sort_ignores_rows (f : RuleApply.RuleSortField)
  (o : SortOrder) :
  f <> RuleApply.R_id -> f <> RuleApply.R_orderNumber ->
  f <> RuleApply.R_value ->
  let k := JS.trim (JS.toLowerCase (JS.String_ (Some (RuleApply.sortFieldMap f)))) in
  (forall a b,
      RuleApply.compareRules f o a b
      = by_order o (JS.localeCompare k k) (- JS.localeCompare k k)%float) /\
  (forall a b, RuleApply.compareRules f o a b = by_order o 0%float (-0)%float) /\
  (forall a b, (RuleApply.compareRules f o a b =? 0)%float = true) /\
  (forall a b a' b',
      RuleApply.compareRules f o a b = RuleApply.compareRules f o a' b') /\
  (forall adapted, RuleApply.sortRules f o adapted = adapted).
Proof.
  intros Hid Hord Hval k.
  assert (Hbranch : forall a b,
             RuleApply.compareRules f o a b = RuleApply.compareText f o a b).
  { intros a b. destruct f; try contradiction; reflexivity. }
  assert (Hzero : forall a b,
             RuleApply.compareRules f o a b = by_order o 0%float (-0)%float).
  { intros a b. rewrite Hbranch. apply rules_compareText_zero. }
  repeat split; intros.
  - rewrite Hbranch. apply rules_compareText_key.
  - apply Hzero.
  - rewrite Hzero. destruct o; reflexivity.
  - now rewrite !Hzero.
  - unfold RuleApply.sortRules.
    replace (JS.truthy_str (RuleApply.sortFieldMap f)) with true
      by (destruct f; reflexivity).
    apply sort_fixed. intros x y. rewrite Hzero. destruct o; reflexivity.
Qed.

End RulesTextSort.

Lemma rules_text_sort_ignores_rows_witness :
  RuleApply.compareRules RuleApply.R_ruleName asc rule_zeta rule_alpha = 0%float /\
  RuleApply.sortRules RuleApply.R_ruleName asc [rule_zeta; rule_alpha]
  = [rule_zeta; rule_alpha].
Proof.
  pose proof (rules_text_sort_ignores_rows RuleApply.R_ruleName asc
                ltac:(discriminate) ltac:(discriminate) ltac:(discriminate))
    as (_ & Hzero & _ & _ & Hsort).
  split; [apply Hzero | apply Hsort].
Defined.

(* ===================================================================== *)
(** * Sorting by [value]                                                  *)
(* ===================================================================== *)

Section ValueSort.

Context `{JS.Collator}.


End ValueSort.


(** The same two values as names: the string comparison orders "10" before
    "2" (here under code-unit order), the numeric one does not. *)
Example text_order_of_digits :
  JS.localeCompare "10" "2" = (-1)%float /\
  (JS.Number_ "10" - JS.Number_ "2")%float = 8%float.
Proof. split; reflexivity. Qed.

(* ===================================================================== *)
(** * Sorting by a string field                                           *)
(* ===================================================================== *)

Section TextSort.

Context `{JS.Collator}.

Lemma conditions_compareText_textOrder (f : SortField) (o : SortOrder)
  (a b : ConditionManagement.Condition) :
  ConditionManagement.compareText f o a b
  = textOrder o (ConditionManagement.prop a f) (ConditionManagement.prop b f).
Proof.
  unfold ConditionManagement.compareText. cbv zeta. rewrite !empty_guard.
  replace (if SortField_eqb f F_name then F_name else f) with f
    by (destruct f; reflexivity).
  destruct f, o; reflexivity.
Qed.

Lemma columns_compareText_textOrder (f : SortField) (o : SortOrder)
  (a b : ColumnManagement.ColumnData) :
  f <> F_id ->
  ColumnManagement.compareColumns f o a b
  = textOrder o (ColumnManagement.prop a f) (ColumnManagement.prop b f).
Proof.
  intros Hf. unfold ColumnManagement.compareColumns.
  replace (SortField_eqb f F_id) with false
    by (destruct f; try reflexivity; contradiction).
  cbv zeta. rewrite !empty_guard.
  destruct f, o; try contradiction; cbn [ColumnManagement.prop JS.String_];
    unfold textOrder, sortKey, by_order;
    rewrite ?localeCompare_same; reflexivity.
Qed.

(** C8. The string fields of a row are [columnName] on the Column screen
    and [name], [description], [operators] and [columnName] on the
    Condition screen. For each of them the comparator is the locale-aware
    comparison of the two rows' own values, lower-cased and trimmed;
    descending order negates the ascending result; " Beta " and "beta"
    compare as equal in either direction. Absent values: an optional field
    the server left out ([columnName] of a condition) reaches the row as
    the empty string and is compared as the empty string against every
    other row; a key no row of the screen has ([name] on the Column
    screen) is read as [undefined] on both sides and compares as two empty
    strings do, the guard [if (!v) v = ''] changing nothing. *)
Theorem text_sort_is_case_and_space_blind :
  (forall o a b,
      ColumnManagement.compareColumns F_columnName o a b
      = textOrder o (Some (ColumnManagement.columnName a))
                    (Some (ColumnManagement.columnName b))) /\
  (forall o a b,
      ConditionManagement.compareConditions F_name o a b
      = textOrder o (Some (ConditionManagement.name a))
                    (Some (ConditionManagement.name b)) /\
      ConditionManagement.compareConditions F_description o a b
      = textOrder o (Some (ConditionManagement.description a))
                    (Some (ConditionManagement.description b)) /\
      ConditionManagement.compareConditions F_operators o a b
      = textOrder o (Some (ConditionManagement.operators a))
                    (Some (ConditionManagement.operators b)) /\
      ConditionManagement.compareConditions F_columnName o a b
      = textOrder o (Some (ConditionManagement.columnName a))
                    (Some (ConditionManagement.columnName b))) /\
  (forall o c1 c2,
      ConditionManagement.compareConditions F_columnName o
        (ConditionManagement.toCondition c1)
        (ConditionManagement.toCondition c2)
      = textOrder o (Api.Condition.columnName c1)
                    (Api.Condition.columnName c2)) /\
  (forall f o a b,
      f <> F_id -> f <> F_columnName ->
      ColumnManagement.compareColumns f o a b = textOrder o None None) /\
  (forall f o a b,
      f <> F_id ->
      ColumnManagement.compareColumns f o a b
      = textOrder o (ColumnManagement.prop a f) (ColumnManagement.prop b f)) /\
  (forall f o a b,
      f <> F_id -> f <> F_value ->
      ConditionManagement.compareConditions f o a b
      = textOrder o (ConditionManagement.prop a f)
          (ConditionManagement.prop b f)) /\
  (forall c,
      Api.Condition.columnName c = None ->
      ConditionManagement.prop (ConditionManagement.toCondition c) F_columnName
      = Some "") /\
  (forall x y, textOrder desc x y = (- textOrder asc x y)%float) /\
  (sortKey (Some " Beta ") = "beta" /\ sortKey (Some "beta") = "beta") /\
  (forall o a b,
      ColumnManagement.columnName a = " Beta " ->
      ColumnManagement.columnName b = "beta" ->
      (ColumnManagement.compareColumns F_columnName o a b =? 0)%float = true /\
      (ColumnManagement.compareColumns F_columnName o b a =? 0)%float = true) /\
  (forall o a b,
      ConditionManagement.name a = " Beta " ->
      ConditionManagement.name b = "beta" ->
      (ConditionManagement.compareConditions F_name o a b =? 0)%float = true /\
      (ConditionManagement.compareConditions F_name o b a =? 0)%float = true).
Proof.
  assert (Hcond : forall f o a b,
             f <> F_id -> f <> F_value ->
             ConditionManagement.compareConditions f o a b
             = textOrder o (ConditionManagement.prop a f)
                 (ConditionManagement.prop b f)).
  { intros f o a b Hid Hval.
    rewrite <- conditions_compareText_textOrder.
    unfold ConditionManagement.compareConditions.
    destruct f; try contradiction; reflexivity. }
  repeat match goal with |- _ /\ _ => split end.
  - intros o a b. now rewrite columns_compareText_textOrder by discriminate.
  - intros o a b. rewrite !Hcond by discriminate. repeat split.
  - intros o c1 c2. rewrite Hcond by discriminate.
    cbn [ConditionManagement.prop ConditionManagement.toCondition
         ConditionManagement.columnName].
    unfold textOrder, sortKey.
    destruct (Api.Condition.columnName c1) as [[|x s1]|],
             (Api.Condition.columnName c2) as [[|y s2]|]; reflexivity.
  - intros f o a b Hid Hname.
    rewrite columns_compareText_textOrder by exact Hid.
    destruct f; try contradiction; reflexivity.
  - intros f o a b Hf. now apply columns_compareText_textOrder.
  - exact Hcond.
  - intros c Hc. cbn. now rewrite Hc.
  - reflexivity.
  - reflexivity.
  - reflexivity.
  - intros o a b Ha Hb.
    rewrite !columns_compareText_textOrder by discriminate.
    cbn [ColumnManagement.prop]. rewrite Ha, Hb.
    unfold textOrder. change (sortKey (Some " Beta ")) with "beta".
    change (sortKey (Some "beta")) with "beta".
    rewrite localeCompare_same. destruct o; split; reflexivity.
  - intros o a b Ha Hb.
    assert (Hbranch : forall x y,
               ConditionManagement.compareConditions F_name o x y
               = ConditionManagement.compareText F_name o x y)
      by reflexivity.
    rewrite !Hbranch, !conditions_compareText_textOrder.
    cbn [ConditionManagement.prop]. rewrite Ha, Hb.
    unfold textOrder. change (sortKey (Some " Beta ")) with "beta".
    change (sortKey (Some "beta")) with "beta".
    rewrite localeCompare_same. destruct o; split; reflexivity.
Qed.

End TextSort.

Lemma text_sort_is_case_and_space_blind_witness :
  let a := {| ColumnManagement.id := "1"; ColumnManagement.columnName := " Beta " |} in
  let b := {| ColumnManagement.id := "2"; ColumnManagement.columnName := "beta" |} in
  let c := {| ColumnManagement.id := "3"; ColumnManagement.columnName := "Alpha" |} in
  (ColumnManagement.compareColumns F_columnName asc a b =? 0)%float = true /\
  ColumnManagement.compareColumns F_columnName asc a c = 1%float /\
  ColumnManagement.compareColumns F_columnName desc a c = (-1)%float /\
  ConditionManagement.compareConditions F_columnName asc
    (ConditionManagement.toCondition (api_condition 1 "x"))
    (ConditionManagement.toCondition
       {| Api.Condition.id := Some 2; Api.Condition.condition := "";
          Api.Condition.description := ""; Api.Condition.operator := "";
          Api.Condition.value := Str "y";
          Api.Condition.columnName := Some "age";
          Api.Condition.columnId := None;
          Api.Condition.operatorId := None |}) = (-1)%float.
Proof.
  cbv zeta.
  pose proof (@text_sort_is_case_and_space_blind codeunit_order)
    as (Hcol & _ & Habsent & _ & _ & _ & _ & _ & _ & Hbeta & _).
  split; [|split; [|split]].
  - apply (Hbeta asc
             {| ColumnManagement.id := "1";
                ColumnManagement.columnName := " Beta " |}
             {| ColumnManagement.id := "2";
                ColumnManagement.columnName := "beta" |}); reflexivity.
  - rewrite Hcol. reflexivity.
  - rewrite Hcol. reflexivity.
  - rewrite Habsent. reflexivity.
Defined.

(* ===================================================================== *)
(** * The paginate pass                                                   *)
(* ===================================================================== *)

Lemma insert_length {A : Type} (cmp : A -> A -> JS.number) (x : A) (l : list A) :
  List.length (JS.insert cmp x l) = S (List.length l).
Proof.
  induction l as [|y l IH]; [reflexivity|].
  simpl. destruct (0 <? cmp x y)%float; simpl; now rewrite ?IH.
Qed.

Lemma sort_length {A : Type} (cmp : A -> A -> JS.number) (l : list A) :
  List.length (JS.sort cmp l) = List.length l.
Proof.
  induction l as [|x l IH]; [reflexivity|].
  unfold JS.sort in *. simpl. now rewrite insert_length, IH.
Qed.

(** The window of a 1-based page: the rows at the positions
    [(page-1)*10 <= i < page*10] that exist. *)
Lemma page_window {A : Type} (sorted : list A) (page : Z) :
  1 <= page ->
  let startIndex := (page - 1) * itemsPerPage in
  let endIndex := startIndex + itemsPerPage in
  endIndex = page * itemsPerPage /\
  JS.slice sorted startIndex endIndex
  = firstn 10 (skipn (Z.to_nat ((page - 1) * 10)) sorted).
Proof.
  intros Hpage startIndex endIndex. subst startIndex endIndex.
  unfold itemsPerPage. split; [lia|].
  rewrite slice_window by lia.
  replace ((page - 1) * 10 + 10 - (page - 1) * 10) with 10 by lia.
  reflexivity.
Qed.

(** A page past the last one is empty, and so is page [0]. *)
Lemma page_out_of_range {A : Type} (sorted : list A) (page : Z) :
  page = 0 \/ JS.ceil_div (Z.of_nat (List.length sorted)) itemsPerPage < page ->
  JS.slice sorted ((page - 1) * itemsPerPage)
    ((page - 1) * itemsPerPage + itemsPerPage) = [].
Proof.
  unfold itemsPerPage, JS.ceil_div. intros [-> | Hpast].
  - unfold JS.slice, JS.relative_index. simpl.
    set (len := Z.of_nat (List.length sorted)).
    replace (Z.to_nat (Z.min 0 len - Z.max (len + -10) 0)) with 0%nat by lia.
    reflexivity.
  - set (len := Z.of_nat (List.length sorted)) in *.
    assert (0 <= len) by (subst len; lia).
    assert (len <= (page - 1) * 10).
    { assert ((len + 10 - 1) / 10 <= page - 1) by lia.
      pose proof (Z.mul_div_le (len + 10 - 1) 10 ltac:(lia)).
      pose proof (Z.mod_pos_bound (len + 10 - 1) 10 ltac:(lia)).
      pose proof (Z.div_mod (len + 10 - 1) 10 ltac:(lia)). lia. }
    rewrite slice_window by lia.
    rewrite skipn_all2 by (subst len; lia). apply firstn_nil.
Qed.

Section TotalCount.

Context `{JS.Collator}.

(** On the Column screen a fetch that is answered with an array stores
    the total count the service wrapper reports, the literal [10]. *)
Lemma fetchColumns_total (srv : Backend) (st : ColumnManagement.State)
  (rows : list Column.t) :
  (forall q, answered (columns srv q) = Some (Items rows)) ->
  ColumnManagement.totalCount
    (state_after (ColumnManagement.fetchColumns srv) st) = 10%float.
Proof.
  intros Hsrv.
  unfold state_after, run, ColumnManagement.fetchColumns, getColumns, axios.
  unfold try_finally, try_catch, bind, get, modify, emit, ret.
  match goal with
  | |- context [columns srv ?q] =>
      specialize (Hsrv q); destruct (columns srv q) as [|[] d]
  end; try discriminate.
  injection Hsrv as ->. reflexivity.
Qed.

End TotalCount.

(** C5, on the Column screen. The server lists three columns; the first
    render (page 1, by name, ascending) shows the three rows sorted, and
    stores 10 as the total count, not the 3 rows of the sorted array. *)
Theorem columns_total_is_ten_not_length :
  let srv := serving (Items three_columns) NotAnArray NotAnArray in
  let st' := state_after (ColumnManagement.fetchColumns srv)
               ColumnManagement.initialState in
  List.map ColumnManagement.columnName (ColumnManagement.columns st')
  = ["a"; "b"; "c"] /\
  ColumnManagement.totalCount st' = 10%float /\
  length_num (ColumnManagement.columns st') = 3%float /\
  (ColumnManagement.totalCount st' =? length_num three_columns)%float = false.
Proof. vm_compute. repeat split. Qed.

(* ===================================================================== *)
(** * A fetch that fails                                                  *)
(* ===================================================================== *)

Section FetchFailure.

Context `{JS.Collator}.

(** The Condition screen empties the table and zeroes the count, on a
    network error and on a body that is no array alike. *)
Lemma fetchConditions_failure_resets (srv : Backend)
  (st : ConditionManagement.State) :
  (forall q, unusable (option_map fst (answered (conditions srv q)))) ->
  let '(r, st', log) := run (ConditionManagement.fetchConditions srv) st in
  r = Returned tt /\
  ConditionManagement.conditions st' = [] /\
  ConditionManagement.totalCount st' = 0%float /\
  ConditionManagement.error st' = Some "Failed to fetch conditions" /\
  ConditionManagement.loading st' = false /\
  In (ToastError "Failed to fetch conditions. Please try again.") log.
Proof.
  intros Hsrv.
  unfold run, ConditionManagement.fetchConditions, getConditions, axios.
  unfold try_finally, try_catch, bind, get, modify, emit, ret, throw.
  match goal with
  | |- context [conditions srv ?q] =>
      specialize (Hsrv q); destruct (conditions srv q) as [|[] [[l|] h]]
  end; cbn in *; try contradiction; intuition.
Qed.

(** The Rule screen does both when the call throws (no response, or a
    response outside the 2xx class). *)
Lemma fetchRules_failure_resets (srv : Backend) (st : RuleApply.State) :
  (forall q, answered (ruleGroups srv q) = None) ->
  let '(r, st', log) := run (RuleApply.fetchRules srv) st in
  r = Returned tt /\
  RuleApply.rules st' = [] /\
  RuleApply.totalCount st' = 0%float /\
  RuleApply.error st' = Some "Failed to fetch rules" /\
  RuleApply.loading st' = false /\
  In (ToastError "Failed to fetch rules. Please try again.") log.
Proof.
  intros Hsrv.
  unfold run, RuleApply.fetchRules, getRuleGroups, fetch_json.
  unfold try_finally, try_catch, bind, get, modify, emit, ret, throw.
  match goal with
  | |- context [ruleGroups srv ?q] =>
      specialize (Hsrv q); destruct (ruleGroups srv q) as [|[] d]
  end; cbn in *; try discriminate; intuition.
Qed.

(** On a 2xx body that is no array the Rule screen empties the table and
    keeps the count it had. *)
Lemma fetchRules_bad_shape_keeps_total (srv : Backend) (st : RuleApply.State) :
  (forall q, answered (ruleGroups srv q) = Some NotAnArray) ->
  let '(r, st', log) := run (RuleApply.fetchRules srv) st in
  r = Returned tt /\
  RuleApply.rules st' = [] /\
  RuleApply.totalCount st' = RuleApply.totalCount st /\
  RuleApply.error st' = Some "Failed to fetch rules" /\
  In (ToastError "Failed to fetch rules. Please try again.") log.
Proof.
  intros Hsrv.
  unfold run, RuleApply.fetchRules, getRuleGroups, fetch_json.
  unfold try_finally, try_catch, bind, get, modify, emit, ret, throw.
  match goal with
  | |- context [ruleGroups srv ?q] =>
      specialize (Hsrv q); destruct (ruleGroups srv q) as [|[] [l|]]
  end; cbn in *; try discriminate; intuition.
Qed.

(** The Column screen catches the error, sets the banner and shows the
    toast, and leaves the rows and the count as they were. *)
Lemma fetchColumns_failure_keeps (srv : Backend)
  (st : ColumnManagement.State) :
  (forall q, unusable (answered (columns srv q))) ->
  let '(r, st', log) := run (ColumnManagement.fetchColumns srv) st in
  r = Returned tt /\
  ColumnManagement.columns st' = ColumnManagement.columns st /\
  ColumnManagement.totalCount st' = ColumnManagement.totalCount st /\
  ColumnManagement.error st' = Some "Failed to fetch columns" /\
  ColumnManagement.loading st' = false /\
  In (ToastError "Failed to fetch columns. Please try again.") log.
Proof.
  intros Hsrv.
  unfold run, ColumnManagement.fetchColumns, getColumns, axios.
  unfold try_finally, try_catch, bind, get, modify, emit, ret, throw.
  match goal with
  | |- context [columns srv ?q] =>
      specialize (Hsrv q); destruct (columns srv q) as [|[] [l|]]
  end; cbn in *; try contradiction; intuition.
Qed.

End FetchFailure.

(** C3, on the Column screen. The screen shows the three columns of a
    first fetch; the next fetch fails, once for want of a response and once
    on a body that is no array. Either time the error is caught (the
    callback returns, the banner and the toast are set), and the table
    still holds the three rows and the count is still 10: nothing is reset.
    On the Rule screen a body that is no array empties the table and leaves
    the count at 2. *)
Theorem columns_fetch_failure_keeps_rows :
  let shown := state_after
                 (ColumnManagement.fetchColumns
                    (serving (Items three_columns) NotAnArray NotAnArray))
                 ColumnManagement.initialState in
  Forall
    (fun srv =>
       let '(r, st', log) := run (ColumnManagement.fetchColumns srv) shown in
       r = Returned tt /\
       ColumnManagement.error st' = Some "Failed to fetch columns" /\
       In (ToastError "Failed to fetch columns. Please try again.") log /\
       List.map ColumnManagement.columnName (ColumnManagement.columns st')
       = ["a"; "b"; "c"] /\
       ColumnManagement.totalCount st' = 10%float)
    [offline; misshapen] /\
  (let st' := state_after (RuleApply.fetchRules misshapen) showing_two_rules in
   RuleApply.rules st' = [] /\ RuleApply.totalCount st' = 2%float).
Proof.
  split.
  - apply Forall_cons; [|apply Forall_cons; [|apply Forall_nil]];
      vm_compute; repeat split; auto 10.
  - vm_compute. split; reflexivity.
Qed.

(* ===================================================================== *)
(** * Form validation                                                     *)
(* ===================================================================== *)

Lemma trimStart_blank (s : string) : blank s -> JS.trimStart s = "".
Proof.
  unfold blank. induction s as [|c s IH]; [reflexivity|].
  simpl. intros Hs. inversion Hs as [|? ? Hc Hrest]; subst.
  rewrite Hc. now apply IH.
Qed.

Lemma trim_blank (s : string) : blank s -> JS.trim s = "".
Proof. intros Hs. unfold JS.trim. now rewrite trimStart_blank. Qed.

(** C6. Submitting the add-column form with a name that is empty or all
    white space stops at the check: the callback returns, the form's name
    error is "Column name cannot be empty.", nothing else in the state
    changes, and the log is empty, so no request was sent (and no toast
    shown). *)
Theorem add_column_rejects_blank_name `{JS.Collator} (srv : Backend)
  (st : ColumnManagement.State) :
  blank (ColumnManagement.FormState.columnName (ColumnManagement.formState st)) ->
  run (ColumnManagement.handleAddColumn srv) st
  = (Returned tt,
     ColumnManagement.setFormState
       (ColumnManagement.FormState.with_nameError
          "Column name cannot be empty.") st,
     []) /\
  ColumnManagement.FormState.nameError
    (ColumnManagement.formState
       (state_after (ColumnManagement.handleAddColumn srv) st))
  = "Column name cannot be empty.".
Proof.
  intros Hblank. apply trim_blank in Hblank.
  unfold state_after, run, ColumnManagement.handleAddColumn.
  unfold bind, get, modify, ret. rewrite Hblank. cbn. split; reflexivity.
Qed.

Lemma add_column_rejects_blank_name_witness :
  blank "   " /\
  log_of (ColumnManagement.handleAddColumn
            (serving (Items three_columns) NotAnArray NotAnArray))
    spaces_typed = [] /\
  ColumnManagement.FormState.nameError
    (ColumnManagement.formState
       (state_after
          (ColumnManagement.handleAddColumn
             (serving (Items three_columns) NotAnArray NotAnArray))
          spaces_typed))
  = "Column name cannot be empty.".
Proof.
  assert (Hb : blank "   ") by (repeat constructor).
  split; [exact Hb|].
  destruct (add_column_rejects_blank_name
              (serving (Items three_columns) NotAnArray NotAnArray)
              spaces_typed Hb) as [Hrun Herr].
  split; [unfold log_of; now rewrite Hrun | exact Herr].
Defined.

(* ===================================================================== *)
(** * A mutation that fails                                               *)
(* ===================================================================== *)

Section MutationFailure.

Context `{JS.Collator}.
Variable srv : Backend.

Lemma delete_column_failure (st : ColumnManagement.State) (id : string) :
  let r := DELETE_columns (JS.parseInt id 0) in
  answered (mutation srv r) = None ->
  Kept ColumnManagement.columns ColumnManagement.totalCount
    ColumnManagement.error st
    (run (ColumnManagement.handleDeleteColumn srv id) st) r
    "Failed to delete column" "Failed to delete column. Please try again.".
Proof.
  intros r Hfail. unfold ColumnManagement.handleDeleteColumn. unfold_callback.
  fold r. failed_answer srv r Hfail; close_kept.
Qed.

Lemma add_column_failure (st : ColumnManagement.State) :
  let name := ColumnManagement.FormState.columnName
                (ColumnManagement.formState st) in
  JS.truthy_str (JS.trim name) = true ->
  answered (mutation srv (POST_columns name)) = None ->
  Kept ColumnManagement.columns ColumnManagement.totalCount
    ColumnManagement.error st
    (run (ColumnManagement.handleAddColumn srv) st) (POST_columns name)
    "Failed to create column" "Failed to add column. Please try again.".
Proof.
  intros name Hname Hfail. unfold ColumnManagement.handleAddColumn.
  unfold_callback. fold name. rewrite Hname. cbn [negb].
  failed_answer srv (POST_columns name) Hfail; close_kept.
Qed.

Lemma edit_column_failure (st : ColumnManagement.State) (editMode : string) :
  let name := ColumnManagement.EditState.editColumnName
                (ColumnManagement.editState st) in
  let r := PUT_columns (JS.parseInt editMode 0) name in
  JS.truthy_str (JS.trim name) = true ->
  ColumnManagement.EditState.editMode (ColumnManagement.editState st)
  = Some editMode ->
  JS.truthy_str editMode = true ->
  answered (mutation srv r) = None ->
  Kept ColumnManagement.columns ColumnManagement.totalCount
    ColumnManagement.error st
    (run (ColumnManagement.handleEditColumn srv) st) r
    "Failed to update column" "Failed to update column. Please try again.".
Proof.
  intros name r Hname Hmode Htruthy Hfail.
  unfold ColumnManagement.handleEditColumn. unfold_callback.
  fold name. rewrite Hname, Hmode, Htruthy. cbn [negb]. fold r.
  failed_answer srv r Hfail; close_kept.
Qed.

Lemma delete_condition_failure (st : ConditionManagement.State) (id : string) :
  let r := DELETE_conditions (JS.parseInt id 0) in
  answered (mutation srv r) = None ->
  Kept ConditionManagement.conditions ConditionManagement.totalCount
    ConditionManagement.error st
    (run (ConditionManagement.handleDeleteCondition srv id) st) r
    "Failed to delete condition"
    "Failed to delete condition. Please try again.".
Proof.
  intros r Hfail. unfold ConditionManagement.handleDeleteCondition.
  unfold_callback. fold r. failed_answer srv r Hfail; close_kept.
Qed.

Lemma add_condition_failure (st : ConditionManagement.State)
  (column : ConditionManagement.SelectOption) :
  let f := ConditionManagement.formState st in
  let r := POST_conditions (ConditionManagement.newCondition f) in
  JS.truthy_str (JS.trim (ConditionManagement.FormState.conditionName f)) = true ->
  String.eqb (ConditionManagement.FormState.operators f) "Select Operators"
  = false ->
  ConditionManagement.FormState.columnName f = Some column ->
  answered (mutation srv r) = None ->
  Kept ConditionManagement.conditions ConditionManagement.totalCount
    ConditionManagement.error st
    (run (ConditionManagement.handleAddCondition srv) st) r
    "Failed to create condition" "Failed to add condition. Please try again.".
Proof.
  intros f r Hname Hop Hcol Hfail.
  unfold ConditionManagement.handleAddCondition. unfold_callback.
  cbv zeta. change (POST_conditions _) with r. fold f.
  rewrite Hname, Hop, Hcol. cbn [negb orb].
  failed_answer srv r Hfail; close_kept.
Qed.

Lemma edit_condition_failure (st : ConditionManagement.State)
  (column : ConditionManagement.SelectOption) (editMode : string) :
  let e := ConditionManagement.editState st in
  let r := PUT_conditions (JS.parseInt editMode 0) (ConditionManagement.updatedCondition e) in
  JS.truthy_str (JS.trim (ConditionManagement.EditState.editConditionName e))
  = true ->
  String.eqb (ConditionManagement.EditState.editOperators e) "Select operators"
  = false ->
  ConditionManagement.EditState.editColumnName e = Some column ->
  ConditionManagement.EditState.editMode e = Some editMode ->
  JS.truthy_str editMode = true ->
  answered (mutation srv r) = None ->
  Kept ConditionManagement.conditions ConditionManagement.totalCount
    ConditionManagement.error st
    (run (ConditionManagement.handleEditCondition srv) st) r
    "Failed to update condition"
    "Failed to update condition. Please try again.".
Proof.
  intros e r Hname Hop Hcol Hmode Htruthy Hfail.
  unfold ConditionManagement.handleEditCondition. unfold_callback.
  cbv zeta. fold e. rewrite Hmode, Htruthy.
  change (PUT_conditions _ _) with r.
  rewrite Hname, Hop, Hcol. cbn [negb orb].
  failed_answer srv r Hfail; close_kept.
Qed.

Lemma delete_rule_failure (st : RuleApply.State) (id : string) :
  RuleApply.selected (RuleApply.modalState st) = Some id ->
  answered (mutation srv (DELETE_ruleGroups id)) = None ->
  Kept RuleApply.rules RuleApply.totalCount RuleApply.error st
    (run (RuleApply.handleDeleteRule srv) st) (DELETE_ruleGroups id)
    "Failed to delete rule" "Failed to delete rule. Please try again.".
Proof.
  intros Hsel Hfail. unfold RuleApply.handleDeleteRule. unfold_callback.
  rewrite Hsel. failed_answer srv (DELETE_ruleGroups id) Hfail; close_kept.
Qed.

Lemma add_rule_failure (st : RuleApply.State) :
  let r := POST_ruleGroups (RuleApply.toRuleGroup (RuleApply.formState st)) in
  RuleApply.hasError (RuleApply.validate (RuleApply.formState st)) = false ->
  answered (mutation srv r) = None ->
  Kept RuleApply.rules RuleApply.totalCount RuleApply.error st
    (run (RuleApply.handleAddRule srv) st) r
    "Failed to create rule" "Failed to add rule. Please try again.".
Proof.
  intros r Hvalid Hfail. unfold RuleApply.handleAddRule. unfold_callback.
  rewrite Hvalid. fold r. failed_answer srv r Hfail; close_kept.
Qed.

Lemma edit_rule_failure (st : RuleApply.State) (id : string) :
  let r := PUT_ruleGroups id (RuleApply.toRuleGroup (RuleApply.formState st)) in
  RuleApply.selected (RuleApply.modalState st) = Some id ->
  RuleApply.hasError (RuleApply.validate (RuleApply.formState st)) = false ->
  answered (mutation srv r) = None ->
  Kept RuleApply.rules RuleApply.totalCount RuleApply.error st
    (run (RuleApply.handleEditRule srv) st) r
    "Failed to update rule" "Failed to update rule. Please try again.".
Proof.
  intros r Hsel Hvalid Hfail. unfold RuleApply.handleEditRule. unfold_callback.
  rewrite Hsel, Hvalid. fold r. failed_answer srv r Hfail; close_kept.
Qed.

End MutationFailure.

(** C7. On every screen, when the call of a create, an update or a delete
    fails (no response, or a response outside the 2xx class) after the
    form's checks have passed: the rows and the count stay as they were, so
    a row whose delete failed is still shown; the error banner and an error
    toast are set; and the log holds that one request, so there was neither
    a retry nor a refetch. *)
Theorem failed_mutation_keeps_list `{JS.Collator} (srv : Backend) :
  (forall (st : ColumnManagement.State) (id : string),
      let r := DELETE_columns (JS.parseInt id 0) in
      answered (mutation srv r) = None ->
      Kept ColumnManagement.columns ColumnManagement.totalCount
        ColumnManagement.error st
        (run (ColumnManagement.handleDeleteColumn srv id) st) r
        "Failed to delete column"
        "Failed to delete column. Please try again.") /\
  (forall st : ColumnManagement.State,
      let name := ColumnManagement.FormState.columnName
                    (ColumnManagement.formState st) in
      JS.truthy_str (JS.trim name) = true ->
      answered (mutation srv (POST_columns name)) = None ->
      Kept ColumnManagement.columns ColumnManagement.totalCount
        ColumnManagement.error st
        (run (ColumnManagement.handleAddColumn srv) st) (POST_columns name)
        "Failed to create column" "Failed to add column. Please try again.") /\
  (forall (st : ColumnManagement.State) (editMode : string),
      let name := ColumnManagement.EditState.editColumnName
                    (ColumnManagement.editState st) in
      let r := PUT_columns (JS.parseInt editMode 0) name in
      JS.truthy_str (JS.trim name) = true ->
      ColumnManagement.EditState.editMode (ColumnManagement.editState st)
      = Some editMode ->
      JS.truthy_str editMode = true ->
      answered (mutation srv r) = None ->
      Kept ColumnManagement.columns ColumnManagement.totalCount
        ColumnManagement.error st
        (run (ColumnManagement.handleEditColumn srv) st) r
        "Failed to update column"
        "Failed to update column. Please try again.") /\
  (forall (st : ConditionManagement.State) (id : string),
      let r := DELETE_conditions (JS.parseInt id 0) in
      answered (mutation srv r) = None ->
      Kept ConditionManagement.conditions ConditionManagement.totalCount
        ConditionManagement.error st
        (run (ConditionManagement.handleDeleteCondition srv id) st) r
        "Failed to delete condition"
        "Failed to delete condition. Please try again.") /\
  (forall (st : ConditionManagement.State)
          (column : ConditionManagement.SelectOption),
      let f := ConditionManagement.formState st in
      let r := POST_conditions (ConditionManagement.newCondition f) in
      JS.truthy_str (JS.trim (ConditionManagement.FormState.conditionName f))
      = true ->
      String.eqb (ConditionManagement.FormState.operators f) "Select Operators"
      = false ->
      ConditionManagement.FormState.columnName f = Some column ->
      answered (mutation srv r) = None ->
      Kept ConditionManagement.conditions ConditionManagement.totalCount
        ConditionManagement.error st
        (run (ConditionManagement.handleAddCondition srv) st) r
        "Failed to create condition"
        "Failed to add condition. Please try again.") /\
  (forall (st : ConditionManagement.State)
          (column : ConditionManagement.SelectOption) (editMode : string),
      let e := ConditionManagement.editState st in
      let r := PUT_conditions (JS.parseInt editMode 0)
                 (ConditionManagement.updatedCondition e) in
      JS.truthy_str
        (JS.trim (ConditionManagement.EditState.editConditionName e)) = true ->
      String.eqb (ConditionManagement.EditState.editOperators e)
        "Select operators" = false ->
      ConditionManagement.EditState.editColumnName e = Some column ->
      ConditionManagement.EditState.editMode e = Some editMode ->
      JS.truthy_str editMode = true ->
      answered (mutation srv r) = None ->
      Kept ConditionManagement.conditions ConditionManagement.totalCount
        ConditionManagement.error st
        (run (ConditionManagement.handleEditCondition srv) st) r
        "Failed to update condition"
        "Failed to update condition. Please try again.") /\
  (forall (st : RuleApply.State) (id : string),
      RuleApply.selected (RuleApply.modalState st) = Some id ->
      answered (mutation srv (DELETE_ruleGroups id)) = None ->
      Kept RuleApply.rules RuleApply.totalCount RuleApply.error st
        (run (RuleApply.handleDeleteRule srv) st) (DELETE_ruleGroups id)
        "Failed to delete rule" "Failed to delete rule. Please try again.") /\
  (forall st : RuleApply.State,
      let r := POST_ruleGroups
                 (RuleApply.toRuleGroup (RuleApply.formState st)) in
      RuleApply.hasError (RuleApply.validate (RuleApply.formState st)) = false ->
      answered (mutation srv r) = None ->
      Kept RuleApply.rules RuleApply.totalCount RuleApply.error st
        (run (RuleApply.handleAddRule srv) st) r
        "Failed to create rule" "Failed to add rule. Please try again.") /\
  (forall (st : RuleApply.State) (id : string),
      let r := PUT_ruleGroups id
                 (RuleApply.toRuleGroup (RuleApply.formState st)) in
      RuleApply.selected (RuleApply.modalState st) = Some id ->
      RuleApply.hasError (RuleApply.validate (RuleApply.formState st)) = false ->
      answered (mutation srv r) = None ->
      Kept RuleApply.rules RuleApply.totalCount RuleApply.error st
        (run (RuleApply.handleEditRule srv) st) r
        "Failed to update rule" "Failed to update rule. Please try again.").
Proof.
  repeat match goal with |- _ /\ _ => split end.
  - apply delete_column_failure.
  - apply add_column_failure.
  - apply edit_column_failure.
  - apply delete_condition_failure.
  - apply add_condition_failure.
  - apply edit_condition_failure.
  - apply delete_rule_failure.
  - apply add_rule_failure.
  - apply edit_rule_failure.
Qed.

Lemma failed_mutation_keeps_list_witness :
  let out := run (ColumnManagement.handleDeleteColumn read_only "2")
               showing_three_columns in
  answered (mutation read_only (DELETE_columns (JS.parseInt "2" 0))) = None /\
  List.map ColumnManagement.id (ColumnManagement.columns (snd (fst out)))
  = ["2"; "1"; "3"] /\
  requests (snd out) = [DELETE_columns 2%float].
Proof.
  cbv zeta. split; [reflexivity|].
  destruct (proj1 (failed_mutation_keeps_list read_only)
              showing_three_columns "2" eq_refl)
    as [_ Hrows _ _ _ _ Hsent].
  split.
  - rewrite Hrows. reflexivity.
  - rewrite Hsent. reflexivity.
Defined.

(* ===================================================================== *)
(** * The pages of a list                                                 *)
(* ===================================================================== *)

Lemma firstn_add {A : Type} (a b : nat) (l : list A) :
  firstn (a + b) l = firstn a l ++ firstn b (skipn a l).
Proof.
  revert l. induction a as [|a IH]; intros l; [reflexivity|].
  destruct l as [|x l]; simpl.
  - now rewrite firstn_nil.
  - now rewrite IH.
Qed.

Lemma chunks_prefix {A : Type} (l : list A) (n : nat) :
  List.concat
    (List.map (fun i => firstn 10 (skipn (10 * i) l)) (seq 0 n))
  = firstn (10 * n) l.
Proof.
  induction n as [|n IH]; [reflexivity|].
  rewrite seq_S, map_app, concat_app, IH. simpl List.concat.
  rewrite app_nil_r. replace (10 * S n)%nat with (10 * n + 10)%nat by lia.
  now rewrite firstn_add.
Qed.

(** X1. For a 1-based page the paginate pass returns the rows at the
    positions from [(page-1)*10] up to, not including, [page*10], as far as
    they exist: at most ten rows, none past the last page. *)
Theorem paginate_window {A : Type} (sorted : list A) (page : Z) :
  1 <= page ->
  pageOf sorted page = firstn 10 (skipn (Z.to_nat ((page - 1) * 10)) sorted) /\
  (List.length (pageOf sorted page) <= 10)%nat /\
  (JS.ceil_div (Z.of_nat (List.length sorted)) itemsPerPage < page ->
   pageOf sorted page = []).
Proof.
  intros Hpage. unfold pageOf.
  destruct (page_window sorted page Hpage) as [_ Hwin]. cbv zeta in Hwin.
  rewrite Hwin. repeat split.
  - apply firstn_le_length.
  - intros Hpast. rewrite <- Hwin. apply page_out_of_range. now right.
Qed.

Lemma paginate_window_witness :
  pageOf [1; 2; 3; 4; 5; 6; 7; 8; 9; 10; 11; 12] 2 = [11; 12] /\
  pageOf [1; 2; 3; 4; 5; 6; 7; 8; 9; 10; 11; 12] 3 = [].
Proof.
  split.
  - rewrite (proj1 (paginate_window
                      [1; 2; 3; 4; 5; 6; 7; 8; 9; 10; 11; 12] 2 ltac:(lia))).
    reflexivity.
  - apply (proj2 (proj2 (paginate_window
                           [1; 2; 3; 4; 5; 6; 7; 8; 9; 10; 11; 12] 3
                           ltac:(lia)))).
    vm_compute. reflexivity.
Defined.

(** X2. The pages 1 to [ceil(length / 10)], one after the other, are the
    sorted list: every row is on exactly one page, in order. *)
Theorem pages_cover_the_list {A : Type} (sorted : list A) :
  List.concat
    (List.map (pageOf sorted)
       (Pagination.pageNumbers
          (JS.ceil_div (Z.of_nat (List.length sorted)) itemsPerPage)))
  = sorted.
Proof.
  unfold Pagination.pageNumbers. rewrite map_map.
  set (n := Z.to_nat (JS.ceil_div (Z.of_nat (List.length sorted)) itemsPerPage)).
  rewrite (map_ext_in _ (fun i => firstn 10 (skipn (10 * i) sorted))).
  - rewrite chunks_prefix. apply firstn_all2.
    subst n. unfold JS.ceil_div, itemsPerPage.
    set (len := Z.of_nat (List.length sorted)).
    assert (0 <= len) by (subst len; lia).
    pose proof (Z.div_mod (len + 10 - 1) 10 ltac:(lia)).
    pose proof (Z.mod_pos_bound (len + 10 - 1) 10 ltac:(lia)).
    assert (0 <= (len + 10 - 1) / 10) by (apply Z.div_pos; lia).
    lia.
  - intros i _. unfold pageOf.
    destruct (page_window sorted (Z.of_nat i + 1) ltac:(lia)) as [_ Hwin].
    cbv zeta in Hwin. rewrite Hwin. do 2 f_equal. lia.
Qed.

(* ===================================================================== *)
(** * What a fetch stores on the Condition and the Rule screen            *)
(* ===================================================================== *)

(** X3. On the Condition and the Rule screen a fetch that is answered with
    an array stores the current page of the adapted, sorted rows, and as
    total count the length of the whole sorted array; it clears the error
    banner and ends the loading state. *)
Theorem answered_fetch_stores_page_and_length `{JS.Collator} (srv : Backend) :
  (forall (st : ConditionManagement.State) rows h,
      (forall q, answered (conditions srv q) = Some (Items rows, h)) ->
      let st' := state_after (ConditionManagement.fetchConditions srv) st in
      let sorted :=
        ConditionManagement.sortConditions (ConditionManagement.sortField st)
          (ConditionManagement.sortOrder st)
          (List.map ConditionManagement.toCondition rows) in
      ConditionManagement.conditions st'
      = pageOf sorted (ConditionManagement.currentPage st) /\
      ConditionManagement.totalCount st' = length_num sorted /\
      List.length sorted = List.length rows /\
      ConditionManagement.error st' = None /\
      ConditionManagement.loading st' = false) /\
  (forall (st : RuleApply.State) groups,
      (forall q, answered (ruleGroups srv q) = Some (Items groups)) ->
      let st' := state_after (RuleApply.fetchRules srv) st in
      let sorted :=
        RuleApply.sortRules (RuleApply.sortField st) (RuleApply.sortOrder st)
          (List.map RuleApply.toUiRule groups) in
      RuleApply.rules st' = pageOf sorted (RuleApply.currentPage st) /\
      RuleApply.totalCount st' = length_num sorted /\
      List.length sorted = List.length groups /\
      RuleApply.error st' = None /\
      RuleApply.loading st' = false).
Proof.
  split.
  - intros st rows h Hsrv st' sorted. subst st'.
    unfold state_after, run, ConditionManagement.fetchConditions,
      getConditions, axios.
    unfold try_finally, try_catch, bind, get, modify, emit, ret.
    match goal with
    | |- context [conditions srv ?q] =>
        specialize (Hsrv q); destruct (conditions srv q) as [|[] d]
    end; try discriminate.
    injection Hsrv as ->. cbn. repeat split.
    subst sorted. unfold ConditionManagement.sortConditions.
    destruct (ConditionManagement.sortField st);
      now rewrite ?sort_length, length_map.
  - intros st groups Hsrv st' sorted. subst st'.
    unfold state_after, run, RuleApply.fetchRules, getRuleGroups, fetch_json.
    unfold try_finally, try_catch, bind, get, modify, emit, ret.
    match goal with
    | |- context [ruleGroups srv ?q] =>
        specialize (Hsrv q); destruct (ruleGroups srv q) as [|[] d]
    end; try discriminate.
    injection Hsrv as ->. cbn. repeat split.
    subst sorted. unfold RuleApply.sortRules.
    destruct (JS.truthy_str _); now rewrite ?sort_length, length_map.
Qed.

Lemma answered_fetch_stores_page_and_length_witness :
  let srv := serving NotAnArray (Items twelve_conditions) NotAnArray in
  let st' := state_after (ConditionManagement.fetchConditions srv)
               by_value_page_two in
  List.map ConditionManagement.value (ConditionManagement.conditions st')
  = ["11"; "12"] /\
  ConditionManagement.totalCount st' = 12%float.
Proof.
  cbv zeta.
  destruct (proj1 (answered_fetch_stores_page_and_length
                     (serving NotAnArray (Items twelve_conditions) NotAnArray))
              by_value_page_two twelve_conditions None
              (fun _ => eq_refl))
    as (Hpage & Htotal & _).
  split.
  - rewrite Hpage. vm_compute. reflexivity.
  - rewrite Htotal. vm_compute. reflexivity.
Defined.

(** X4. On the Condition screen a fetch that gets no usable body (no 2xx
    response, or a body that is no array), and on the Rule screen a fetch
    whose call throws, is caught: the callback returns, the table is
    emptied, the total count is zero, the error banner and an error toast
    are set and the loading state ends. *)
Theorem failed_fetch_resets_conditions_and_rules `{JS.Collator}
  (srv : Backend) :
  (forall st : ConditionManagement.State,
      (forall q, unusable (option_map fst (answered (conditions srv q)))) ->
      let '(r, st', log) := run (ConditionManagement.fetchConditions srv) st in
      r = Returned tt /\
      ConditionManagement.conditions st' = [] /\
      ConditionManagement.totalCount st' = 0%float /\
      ConditionManagement.error st' = Some "Failed to fetch conditions" /\
      ConditionManagement.loading st' = false /\
      In (ToastError "Failed to fetch conditions. Please try again.") log) /\
  (forall st : RuleApply.State,
      (forall q, answered (ruleGroups srv q) = None) ->
      let '(r, st', log) := run (RuleApply.fetchRules srv) st in
      r = Returned tt /\
      RuleApply.rules st' = [] /\
      RuleApply.totalCount st' = 0%float /\
      RuleApply.error st' = Some "Failed to fetch rules" /\
      RuleApply.loading st' = false /\
      In (ToastError "Failed to fetch rules. Please try again.") log).
Proof.
  split; intros st Hsrv.
  - now apply fetchConditions_failure_resets.
  - now apply fetchRules_failure_resets.
Qed.

Lemma failed_fetch_resets_conditions_and_rules_witness :
  RuleApply.rules (state_after (RuleApply.fetchRules offline) showing_two_rules)
  = [] /\
  RuleApply.totalCount
    (state_after (RuleApply.fetchRules offline) showing_two_rules) = 0%float.
Proof.
  pose proof (proj2 (failed_fetch_resets_conditions_and_rules offline)
                showing_two_rules (fun _ => eq_refl)) as Hreset.
  unfold state_after.
  destruct (run (RuleApply.fetchRules offline) showing_two_rules)
    as [[r st'] log].
  destruct Hreset as (_ & Hrules & Htotal & _).
  split; assumption.
Defined.

(* ===================================================================== *)
(** * The hooks                                                           *)
(* ===================================================================== *)

Lemma useColumns_delete_absent (i : Z) (cols : list UseColumns.Column) :
  ~ In i (List.map UseColumns.id cols) -> UseColumns.deleteColumn i cols = cols.
Proof.
  induction cols as [|c cols IH]; [reflexivity|]. simpl. intros Hi.
  destruct (UseColumns.id c =? i) eqn:E.
  - apply Z.eqb_eq in E. tauto.
  - simpl. f_equal. apply IH. tauto.
Qed.

Lemma useColumns_delete_app (i : Z) (l1 l2 : list UseColumns.Column) :
  UseColumns.deleteColumn i (l1 ++ l2)
  = UseColumns.deleteColumn i l1 ++ UseColumns.deleteColumn i l2.
Proof. apply filter_app. Qed.

(** X5. The list of [useColumns]: editing keeps the ids, the order and the
    length and renames exactly the columns with the given id; deleting
    removes every column with the given id and keeps the others in order;
    with an id no column has, both leave the list as it is; adding with a
    fresh id and deleting that id gives the list back. Ids come from the
    clock and are not made unique: of two columns added at the same
    instant neither can be edited or deleted without the other. *)
Theorem useColumns_laws (cols : list UseColumns.Column) (i : Z) (n : string) :
  List.map UseColumns.id (UseColumns.editColumn i n cols)
  = List.map UseColumns.id cols /\
  List.map UseColumns.name (UseColumns.editColumn i n cols)
  = List.map (fun c => if UseColumns.id c =? i then n else UseColumns.name c)
      cols /\
  (forall c, In c (UseColumns.deleteColumn i cols)
             <-> In c cols /\ UseColumns.id c <> i) /\
  (forall more,
      UseColumns.deleteColumn i (cols ++ more)
      = UseColumns.deleteColumn i cols ++ UseColumns.deleteColumn i more) /\
  UseColumns.editColumn i n (UseColumns.deleteColumn i cols)
  = UseColumns.deleteColumn i cols /\
  (~ In i (List.map UseColumns.id cols) ->
   UseColumns.editColumn i n cols = cols /\
   UseColumns.deleteColumn i cols = cols /\
   UseColumns.deleteColumn i (UseColumns.addColumn i n cols) = cols) /\
  (forall n1 n2,
      UseColumns.deleteColumn i
        (UseColumns.addColumn i n2 (UseColumns.addColumn i n1 cols))
      = UseColumns.deleteColumn i cols /\
      UseColumns.editColumn i n
        (UseColumns.addColumn i n2 (UseColumns.addColumn i n1 cols))
      = UseColumns.editColumn i n cols
        ++ [ {| UseColumns.id := i; UseColumns.name := n |};
             {| UseColumns.id := i; UseColumns.name := n |} ]).
Proof.
  repeat match goal with |- _ /\ _ => split end.
  - unfold UseColumns.editColumn. rewrite map_map. apply map_ext.
    intros c. now destruct (UseColumns.id c =? i).
  - unfold UseColumns.editColumn. rewrite map_map. apply map_ext.
    intros c. now destruct (UseColumns.id c =? i).
  - intros c. unfold UseColumns.deleteColumn. rewrite filter_In.
    rewrite negb_true_iff, Z.eqb_neq. tauto.
  - intros more. apply useColumns_delete_app.
  - unfold UseColumns.editColumn, UseColumns.deleteColumn.
    induction cols as [|c cols IH]; [reflexivity|]. simpl.
    destruct (UseColumns.id c =? i) eqn:E; simpl; [exact IH|].
    now rewrite E, IH.
  - intros Hi. split; [|split].
    + unfold UseColumns.editColumn.
      induction cols as [|c cols IH]; [reflexivity|]. simpl in *.
      destruct (UseColumns.id c =? i) eqn:E.
      * apply Z.eqb_eq in E. tauto.
      * f_equal. apply IH. tauto.
    + now apply useColumns_delete_absent.
    + unfold UseColumns.addColumn. rewrite useColumns_delete_app.
      rewrite useColumns_delete_absent by assumption.
      simpl. rewrite Z.eqb_refl. simpl. apply app_nil_r.
  - intros n1 n2. split.
    + unfold UseColumns.addColumn. rewrite !useColumns_delete_app.
      simpl. rewrite Z.eqb_refl. simpl. now rewrite !app_nil_r.
    + unfold UseColumns.addColumn, UseColumns.editColumn.
      rewrite !map_app. simpl. rewrite Z.eqb_refl.
      now rewrite <- app_assoc.
Qed.

(** X6. The list of [useRules]: deleting removes every rule with the given
    id and keeps the others in order, does nothing for an id no rule has,
    and undoes an add made with a fresh id. *)
Theorem useRules_laws (rules : list UseRules.Rule) (i : Z)
  (cs : list string) (n : string) :
  (forall r, In r (UseRules.deleteRule i rules)
             <-> In r rules /\ UseRules.id r <> i) /\
  UseRules.deleteRule i (UseRules.deleteRule i rules)
  = UseRules.deleteRule i rules /\
  (forall more,
      UseRules.deleteRule i (rules ++ more)
      = UseRules.deleteRule i rules ++ UseRules.deleteRule i more) /\
  (~ In i (List.map UseRules.id rules) ->
   UseRules.deleteRule i rules = rules /\
   UseRules.deleteRule i (UseRules.addRule i cs n rules) = rules).
Proof.
  assert (Habsent : forall l, ~ In i (List.map UseRules.id l) ->
                              UseRules.deleteRule i l = l).
  { induction l as [|r l IH]; [reflexivity|]. simpl. intros Hi.
    destruct (UseRules.id r =? i) eqn:E.
    - apply Z.eqb_eq in E. tauto.
    - simpl. f_equal. apply IH. tauto. }
  repeat match goal with |- _ /\ _ => split end.
  - intros r. unfold UseRules.deleteRule. rewrite filter_In.
    rewrite negb_true_iff, Z.eqb_neq. tauto.
  - unfold UseRules.deleteRule.
    induction rules as [|r rules IH]; [reflexivity|]. simpl.
    destruct (UseRules.id r =? i) eqn:E; simpl; [exact IH|].
    now rewrite E, IH.
  - intros more. apply filter_app.
  - intros Hi. split; [now apply Habsent|].
    unfold UseRules.addRule, UseRules.deleteRule. rewrite filter_app.
    fold (UseRules.deleteRule i rules). rewrite Habsent by assumption.
    simpl. rewrite Z.eqb_refl. simpl. apply app_nil_r.
Qed.

(* ===================================================================== *)
(** * The pagination control and the page it shows                        *)
(* ===================================================================== *)

Lemma page_length {A : Type} (sorted : list A) (page : Z) :
  1 <= page ->
  Z.of_nat (List.length (pageOf sorted page))
  = Z.max 0 (Z.min 10 (Z.of_nat (List.length sorted) - (page - 1) * 10)).
Proof.
  intros Hpage. unfold pageOf.
  destruct (page_window sorted page Hpage) as [_ Hwin]. cbv zeta in Hwin.
  rewrite Hwin, length_firstn, length_skipn. lia.
Qed.

(** X7. The "Showing a to b of n" line agrees with the page shown: when
    the control is given the length of the sorted list as [totalItems], a
    page size of ten and a current page between 1 and the last page, then
    [1 <= startItem <= endItem <= totalItems] and the page the fetch
    displays has exactly [endItem - startItem + 1] rows. *)
Theorem pagination_labels_match_page {A : Type} (sorted : list A)
  (p : Pagination.Props) :
  Pagination.totalItems p = Z.of_nat (List.length sorted) ->
  Pagination.itemsPerPage p = itemsPerPage ->
  1 <= Pagination.currentPage p
  <= JS.ceil_div (Pagination.totalItems p) itemsPerPage ->
  1 <= Pagination.startItem p <= Pagination.endItem p /\
  Pagination.endItem p <= Pagination.totalItems p /\
  Pagination.endItem p - Pagination.startItem p + 1
  = Z.of_nat (List.length (pageOf sorted (Pagination.currentPage p))).
Proof.
  intros Hitems Hsize [Hlo Hhi].
  rewrite page_length by assumption.
  unfold Pagination.startItem, Pagination.endItem.
  rewrite Hsize, Hitems in *. unfold itemsPerPage, JS.ceil_div in *.
  set (len := Z.of_nat (List.length sorted)) in *.
  set (page := Pagination.currentPage p) in *.
  assert (0 <= len) by (subst len; lia).
  assert ((page - 1) * 10 < len).
  { pose proof (Z.div_mod (len + 10 - 1) 10 ltac:(lia)).
    pose proof (Z.mod_pos_bound (len + 10 - 1) 10 ltac:(lia)). lia. }
  lia.
Qed.

Lemma pagination_labels_match_page_witness :
  let p := {| Pagination.currentPage := 2; Pagination.totalPages := 2;
              Pagination.totalItems := 12; Pagination.itemsPerPage := 10 |} in
  Pagination.startItem p = 11 /\ Pagination.endItem p = 12 /\
  Pagination.endItem p - Pagination.startItem p + 1
  = Z.of_nat (List.length (pageOf [1; 2; 3; 4; 5; 6; 7; 8; 9; 10; 11; 12] 2)).
Proof.
  cbv zeta. split; [reflexivity|]. split; [reflexivity|].
  apply (pagination_labels_match_page
           [1; 2; 3; 4; 5; 6; 7; 8; 9; 10; 11; 12]
           {| Pagination.currentPage := 2; Pagination.totalPages := 2;
              Pagination.totalItems := 12; Pagination.itemsPerPage := 10 |}
           eq_refl eq_refl).
  vm_compute. split; discriminate.
Defined.

Lemma next_iterated (p : Pagination.Props) (n : nat) (page : Z) :
  page + Z.of_nat n <= Pagination.totalPages p ->
  Nat.iter n (Pagination.onClick p Pagination.Next) page = page + Z.of_nat n.
Proof.
  induction n as [|n IH]; intros Hn; simpl Nat.iter; [lia|].
  rewrite IH by lia. simpl. lia.
Qed.

(** X8. Navigation with at least one page: Next and Previous undo each
    other away from the two ends and stay put at them; from First, [k-1]
    clicks on Next reach page [k], for every page [k]; and on a page in
    range a navigation button is disabled exactly when clicking it would
    not change the page. *)
Theorem pagination_navigation (p : Pagination.Props) :
  1 <= Pagination.totalPages p ->
  (forall page, 1 <= page < Pagination.totalPages p ->
     Pagination.onClick p Pagination.Previous
       (Pagination.onClick p Pagination.Next page) = page) /\
  (forall page, 1 < page <= Pagination.totalPages p ->
     Pagination.onClick p Pagination.Next
       (Pagination.onClick p Pagination.Previous page) = page) /\
  Pagination.onClick p Pagination.Previous 1 = 1 /\
  Pagination.onClick p Pagination.Next (Pagination.totalPages p)
  = Pagination.totalPages p /\
  (forall k from, 1 <= k <= Pagination.totalPages p ->
     Nat.iter (Z.to_nat (k - 1)) (Pagination.onClick p Pagination.Next)
       (Pagination.onClick p Pagination.First from) = k) /\
  (1 <= Pagination.currentPage p <= Pagination.totalPages p ->
   forall b, b <> Pagination.Page (Pagination.currentPage p) ->
     (Pagination.disabled p b = true
      <-> Pagination.onClick p b (Pagination.currentPage p)
          = Pagination.currentPage p)).
Proof.
  intros Htotal. repeat match goal with |- _ /\ _ => split end.
  - intros page Hpage. simpl. lia.
  - intros page Hpage. simpl. lia.
  - reflexivity.
  - simpl. lia.
  - intros k from Hk. simpl Pagination.onClick at 2.
    rewrite next_iterated by lia. lia.
  - intros Hpage b Hb. destruct b as [| |page| |]; simpl.
    + rewrite Z.eqb_eq. lia.
    + rewrite Z.eqb_eq. lia.
    + split; [discriminate|]. intros ->. now contradiction Hb.
    + rewrite Z.eqb_eq. lia.
    + rewrite Z.eqb_eq. lia.
Qed.

Lemma pagination_navigation_witness :
  let p := {| Pagination.currentPage := 1; Pagination.totalPages := 3;
              Pagination.totalItems := 25; Pagination.itemsPerPage := 10 |} in
  Pagination.onClick p Pagination.Previous
    (Pagination.onClick p Pagination.Next 2) = 2 /\
  Nat.iter 2 (Pagination.onClick p Pagination.Next)
    (Pagination.onClick p Pagination.First 3) = 3.
Proof.
  cbv zeta.
  pose proof (pagination_navigation
                {| Pagination.currentPage := 1; Pagination.totalPages := 3;
                   Pagination.totalItems := 25; Pagination.itemsPerPage := 10 |}
                ltac:(simpl; lia)) as (Hround & _ & _ & _ & Hreach & _).
  split.
  - apply Hround. simpl. lia.
  - apply (Hreach 3 3). simpl. lia.
Defined.

(** X9. With no page at all ([totalPages = 0], the empty list) the control
    leaves the range of the pages: on page 1 the buttons Next and Last are
    enabled, both lead to page 0, and from page 0 Previous leads back to
    page 1; the line reads "1 to 0 of 0"; and the paginate pass returns no
    row for page 0, whatever the list. *)
Theorem pagination_without_pages {A : Type} (sorted : list A)
  (p : Pagination.Props) :
  Pagination.totalPages p = 0 ->
  Pagination.currentPage p = 1 ->
  Pagination.disabled p Pagination.Next = false /\
  Pagination.disabled p Pagination.Last = false /\
  Pagination.onClick p Pagination.Next 1 = 0 /\
  Pagination.onClick p Pagination.Last 1 = 0 /\
  Pagination.onClick p Pagination.Previous 0 = 1 /\
  Pagination.pageNumbers (Pagination.totalPages p) = [] /\
  (Pagination.totalItems p = 0 -> Pagination.itemsPerPage p = itemsPerPage ->
   Pagination.startItem p = 1 /\ Pagination.endItem p = 0) /\
  pageOf sorted 0 = [].
Proof.
  intros Htotal Hpage.
  unfold Pagination.disabled, Pagination.onClick, Pagination.startItem,
    Pagination.endItem.
  rewrite Htotal, Hpage.
  repeat match goal with |- _ /\ _ => split end; try reflexivity.
  - intros Hitems Hsize. rewrite Hitems, Hsize. split; reflexivity.
  - unfold pageOf. apply page_out_of_range. now left.
Qed.

Lemma pagination_without_pages_witness :
  let p := {| Pagination.currentPage := 1; Pagination.totalPages := 0;
              Pagination.totalItems := 0; Pagination.itemsPerPage := 10 |} in
  Pagination.onClick p Pagination.Next (Pagination.currentPage p) = 0 /\
  pageOf [rule_zeta; rule_alpha] 0 = [].
Proof.
  cbv zeta.
  pose proof (pagination_without_pages [rule_zeta; rule_alpha]
                {| Pagination.currentPage := 1; Pagination.totalPages := 0;
                   Pagination.totalItems := 0; Pagination.itemsPerPage := 10 |}
                eq_refl eq_refl) as (_ & _ & Hnext & _ & _ & _ & _ & Hpage).
  split; [exact Hnext | exact Hpage].
Defined.

(* ===================================================================== *)
(** * The Rule form                                                       *)
(* ===================================================================== *)

Lemma remove_at_length {A : Type} (index : nat) (l : list A) :
  List.length (remove_at index l)
  = if (index <? List.length l)%nat then pred (List.length l)
    else List.length l.
Proof.
  revert index. induction l as [|x l IH]; intros [|i]; simpl; try reflexivity.
  rewrite IH. change (S i <? S (List.length l))%nat with (i <? List.length l)%nat.
  destruct (i <? List.length l)%nat eqn:E; [|reflexivity].
  apply Nat.ltb_lt in E. destruct l; simpl in *; [lia | reflexivity].
Qed.

Lemma remove_at_last {A : Type} (l : list A) (x : A) :
  remove_at (List.length l) (l ++ [x]) = l.
Proof. induction l as [|y l IH]; simpl; [reflexivity | now rewrite IH]. Qed.

Lemma remove_at_past {A : Type} (index : nat) (l : list A) :
  (List.length l <= index)%nat -> remove_at index l = l.
Proof.
  revert index. induction l as [|x l IH]; intros index Hindex.
  - now destruct index.
  - destruct index as [|k]; simpl in *; [lia|]. f_equal. apply IH. lia.
Qed.

Lemma remove_at_nth {A : Type} (index i : nat) (l : list A) (d : A) :
  nth i (remove_at index l) d
  = if (i <? index)%nat then nth i l d else nth (S i) l d.
Proof.
  revert index i. induction l as [|x l IH]; intros index i.
  - destruct index, i; simpl; try reflexivity.
    destruct (S i <? S index)%nat; reflexivity.
  - destruct index as [|k], i as [|i]; simpl; try reflexivity.
    rewrite IH. change (S i <? S k)%nat with (i <? k)%nat.
    destruct (i <? k)%nat; reflexivity.
Qed.

(** X10. The condition rows of the Rule form. The plus button appends one
    blank row and one empty error entry; the cross button of row [index]
    removes that row and the error entry at that index and shifts the later
    rows and entries up by one, and does nothing to a list the index is
    past the end of; removing the row just added restores the rows and the
    entries; the two lists change length together, so
    rows and error entries that were aligned stay aligned; and since the
    cross button is rendered only while there is more than one row, the
    form never loses its last row. *)
Theorem rule_form_rows (st : RuleApply.State) (index : nat) :
  let rows := RuleApply.FormState.conditions (RuleApply.formState st) in
  let errs := RuleApply.e_conditions
                (RuleApply.FormState.errors (RuleApply.formState st)) in
  rowsAfter RuleCallbacks.handleAddCondition st
  = rows ++ [{| RuleApply.conditionName := ""; RuleApply.operator := "" |}] /\
  rowErrorsAfter RuleCallbacks.handleAddCondition st
  = errs ++ [{| RuleApply.ce_conditionName := None;
                RuleApply.ce_operator := None |}] /\
  List.length (rowErrorsAfter RuleCallbacks.handleAddCondition st)
  = S (List.length errs) /\
  (forall i d,
      nth i (rowsAfter (RuleCallbacks.handleRemoveCondition index) st) d
      = if (i <? index)%nat then nth i rows d else nth (S i) rows d) /\
  (forall i d,
      nth i (rowErrorsAfter (RuleCallbacks.handleRemoveCondition index) st) d
      = if (i <? index)%nat then nth i errs d else nth (S i) errs d) /\
  ((List.length rows <= index)%nat ->
   rowsAfter (RuleCallbacks.handleRemoveCondition index) st = rows) /\
  ((List.length errs <= index)%nat ->
   rowErrorsAfter (RuleCallbacks.handleRemoveCondition index) st = errs) /\
  rowErrorsAfter (RuleCallbacks.handleRemoveCondition (List.length errs))
    (state_after RuleCallbacks.handleAddCondition st) = errs /\
  rowsAfter (RuleCallbacks.handleRemoveCondition (List.length rows))
    (state_after RuleCallbacks.handleAddCondition st) = rows /\
  (List.length errs = List.length rows ->
   List.length (rowErrorsAfter RuleCallbacks.handleAddCondition st)
   = List.length (rowsAfter RuleCallbacks.handleAddCondition st) /\
   List.length (rowErrorsAfter (RuleCallbacks.handleRemoveCondition index) st)
   = List.length (rowsAfter (RuleCallbacks.handleRemoveCondition index) st)) /\
  ((1 < List.length rows)%nat ->
   (1 <= List.length
           (rowsAfter (RuleCallbacks.handleRemoveCondition index) st))%nat).
Proof.
  intros rows errs.
  unfold rowsAfter, rowErrorsAfter, state_after, run,
    RuleCallbacks.handleAddCondition, RuleCallbacks.handleRemoveCondition,
    modify. cbn. fold rows errs.
  repeat match goal with |- _ /\ _ => split end.
  - reflexivity.
  - reflexivity.
  - rewrite length_app. simpl. lia.
  - intros i d. apply remove_at_nth.
  - intros i d. apply remove_at_nth.
  - apply remove_at_past.
  - apply remove_at_past.
  - apply remove_at_last.
  - apply remove_at_last.
  - intros Haligned. rewrite !remove_at_length, !length_app, Haligned.
    split; reflexivity.
  - intros Hrows. rewrite remove_at_length.
    destruct (index <? List.length rows)%nat; lia.
Qed.

Lemma truthy_str_false (s : string) : JS.truthy_str s = false <-> s = "".
Proof. destruct s; simpl; split; congruence. Qed.

Lemma is_set_check (msg : string) (missing : bool) :
  RuleApply.is_set (RuleApply.check msg missing) = missing.
Proof. now destruct missing. Qed.

Lemma no_row_error (rows : list RuleApply.RuleCondition) :
  existsb
    (fun c => RuleApply.is_set (RuleApply.ce_conditionName c)
              || RuleApply.is_set (RuleApply.ce_operator c))
    (List.map RuleApply.conditionErrors rows) = false
  <-> Forall (fun c => RuleApply.conditionName c <> ""
                       /\ RuleApply.operator c <> "") rows.
Proof.
  induction rows as [|c rows IH]; simpl.
  - split; [constructor | reflexivity].
  - rewrite !is_set_check, !orb_false_iff, !negb_false_iff, IH. split.
    + intros [[Hn Ho] Hrest]. constructor; [|assumption].
      split; intros E; rewrite E in *; discriminate.
    + intros Hall. inversion Hall as [|? ? [Hn Ho] Hrest]; subst.
      repeat split; try assumption.
      * destruct (RuleApply.conditionName c); [contradiction | reflexivity].
      * destruct (RuleApply.operator c); [contradiction | reflexivity].
Qed.

(** A failed check stops a save of a selected rule: the errors are stored
    and nothing is sent. *)
Lemma rule_form_checks_gen `{JS.Collator} (srv : Backend) (st : RuleApply.State) :
  (RuleApply.hasError (RuleApply.validate (RuleApply.formState st)) = true ->
   run (RuleApply.handleAddRule srv) st
   = (Returned tt,
      RuleApply.setFormState
        (RuleApply.FormState.with_errors
           (RuleApply.validate (RuleApply.formState st))) st, [])) /\
  (RuleApply.hasError (RuleApply.validate (RuleApply.formState st)) = true ->
   forall id, RuleApply.selected (RuleApply.modalState st) = Some id ->
     run (RuleApply.handleEditRule srv) st
     = (Returned tt,
        RuleApply.setFormState
          (RuleApply.FormState.with_errors
             (RuleApply.validate (RuleApply.formState st))) st, [])).
Proof.
  split; intros Hbad.
  - unfold run, RuleApply.handleAddRule, bind, get, modify. now rewrite Hbad.
  - intros id Hsel.
    unfold run, RuleApply.handleEditRule, bind, get, modify, ret.
    now rewrite Hsel, Hbad.
Qed.

(** X11. The checks of the Rule form. They pass exactly when the rule name
    is not blank, a column is chosen, the value is not empty and every
    condition row has a condition and an operator (so a form without rows
    passes); they produce one error entry per row, the entry at a row's
    index being that row's; and when they fail, add and edit alike store
    the errors in the form and return with nothing sent and nothing else
    changed. *)
Theorem rule_form_checks `{JS.Collator} (srv : Backend) (st : RuleApply.State) :
  let f := RuleApply.formState st in
  let errors := RuleApply.validate f in
  (RuleApply.hasError errors = false <->
   JS.trim (RuleApply.FormState.ruleName f) <> "" /\
   RuleApply.FormState.columnName f <> "" /\
   RuleApply.FormState.value f <> "" /\
   Forall (fun c => RuleApply.conditionName c <> ""
                    /\ RuleApply.operator c <> "")
     (RuleApply.FormState.conditions f)) /\
  (forall i c,
      nth_error (RuleApply.FormState.conditions f) i = Some c ->
      nth_error (RuleApply.e_conditions errors) i
      = Some (RuleApply.conditionErrors c)) /\
  List.length (RuleApply.e_conditions errors)
  = List.length (RuleApply.FormState.conditions f) /\
  (RuleApply.hasError errors = true ->
   run (RuleApply.handleAddRule srv) st
   = (Returned tt,
      RuleApply.setFormState (RuleApply.FormState.with_errors errors) st, []) /\
   forall id, RuleApply.selected (RuleApply.modalState st) = Some id ->
     run (RuleApply.handleEditRule srv) st
     = (Returned tt,
        RuleApply.setFormState (RuleApply.FormState.with_errors errors) st,
        [])).
Proof.
  intros f errors. repeat match goal with |- _ /\ _ => split end.
  - unfold RuleApply.hasError. subst errors. cbn [RuleApply.validate
      RuleApply.e_ruleName RuleApply.e_columnName RuleApply.e_value
      RuleApply.e_conditions].
    rewrite !is_set_check, !orb_false_iff, !negb_false_iff, no_row_error.
    assert (Ht : forall s, JS.truthy_str s = true <-> s <> "").
    { intros s. destruct s; simpl; split; congruence. }
    rewrite !Ht. tauto.
  - intros i c Hc. subst errors. cbn. now apply map_nth_error.
  - subst errors. cbn. apply length_map.
  - intros Hbad. destruct (rule_form_checks_gen srv st) as [Hadd Hedit].
    split; [now apply Hadd | now apply Hedit].
Qed.

Lemma rule_form_checks_witness :
  log_of (RuleApply.handleAddRule (serving NotAnArray NotAnArray (Items [])))
    operator_missing = [] /\
  RuleApply.e_conditions
    (RuleApply.FormState.errors
       (RuleApply.formState
          (state_after
             (RuleApply.handleAddRule
                (serving NotAnArray NotAnArray (Items [])))
             operator_missing)))
  = [{| RuleApply.ce_conditionName := None;
        RuleApply.ce_operator := Some "Operator cannot be empty." |}].
Proof.
  destruct (rule_form_checks (serving NotAnArray NotAnArray (Items []))
              operator_missing) as (_ & _ & _ & Hreject).
  destruct (Hreject eq_refl) as [Hadd _].
  unfold log_of, state_after. rewrite Hadd. split; reflexivity.
Defined.

(* ===================================================================== *)
(** * Callbacks that have nothing to act on                               *)
(* ===================================================================== *)

(** X12. Without a selected row the row callbacks do nothing: on the Rule
    screen edit and delete return at once, and the delete dialogs of the
    Column and Condition screens do not call the delete handler (a missing
    id and the empty id alike): the state is unchanged and nothing is
    sent or shown. *)
Theorem no_selection_no_action `{JS.Collator} (srv : Backend) (arg : string) :
  (forall st : RuleApply.State,
      RuleApply.ModalState.selectedRuleId (RuleApply.modalState st) = None \/
      RuleApply.ModalState.selectedRuleId (RuleApply.modalState st) = Some "" ->
      run (RuleApply.handleEditRule srv) st = (Returned tt, st, []) /\
      run (RuleApply.handleDeleteRule srv) st = (Returned tt, st, [])) /\
  (forall st : ColumnManagement.State,
      ColumnManagement.ModalState.selectedColumnId
        (ColumnManagement.modalState st) = None \/
      ColumnManagement.ModalState.selectedColumnId
        (ColumnManagement.modalState st) = Some "" ->
      run (ColumnCallbacks.onDelete srv arg) st = (Returned tt, st, [])) /\
  (forall st : ConditionManagement.State,
      ConditionManagement.ModalState.selectedConditionId
        (ConditionManagement.modalState st) = None \/
      ConditionManagement.ModalState.selectedConditionId
        (ConditionManagement.modalState st) = Some "" ->
      run (ConditionCallbacks.onDelete srv arg) st = (Returned tt, st, [])).
Proof.
  repeat match goal with |- _ /\ _ => split end; intros st Hsel.
  - unfold run, RuleApply.handleEditRule, RuleApply.handleDeleteRule,
      bind, get, ret, RuleApply.selected.
    destruct Hsel as [-> | ->]; split; reflexivity.
  - unfold run, ColumnCallbacks.onDelete, bind, get, ret.
    destruct Hsel as [-> | ->]; reflexivity.
  - unfold run, ConditionCallbacks.onDelete, bind, get, ret.
    destruct Hsel as [-> | ->]; reflexivity.
Qed.

(** X13. Saving the edit form of the Column screen while no row is being
    edited ([editMode] is [null] or empty) and the name is not blank: no
    request is sent and no fetch made, and yet the success toast "Column
    updated successfully!" is shown, the edit form is blanked and the
    dialog closed; the table and the count are untouched. *)
Theorem edit_column_without_row `{JS.Collator} (srv : Backend)
  (st : ColumnManagement.State) :
  JS.truthy_str
    (JS.trim (ColumnManagement.EditState.editColumnName
                (ColumnManagement.editState st))) = true ->
  ColumnManagement.EditState.editMode (ColumnManagement.editState st) = None \/
  ColumnManagement.EditState.editMode (ColumnManagement.editState st) = Some "" ->
  run (ColumnManagement.handleEditColumn srv) st
  = (Returned tt, columnEditDone st,
     [ToastSuccess "Column updated successfully!"]) /\
  ColumnManagement.columns (columnEditDone st) = ColumnManagement.columns st /\
  ColumnManagement.totalCount (columnEditDone st)
  = ColumnManagement.totalCount st.
Proof.
  intros Hname Hmode. split; [|split; reflexivity].
  unfold run, ColumnManagement.handleEditColumn.
  unfold try_finally, try_catch, bind, get, modify, emit, ret.
  rewrite Hname. cbn [negb].
  destruct Hmode as [-> | ->]; cbn; reflexivity.
Qed.

Lemma edit_column_without_row_witness :
  log_of (ColumnManagement.handleEditColumn offline) name_typed_no_row
  = [ToastSuccess "Column updated successfully!"].
Proof.
  unfold log_of.
  now rewrite (proj1 (edit_column_without_row offline name_typed_no_row
                        eq_refl (or_introl eq_refl))).
Defined.

(* ===================================================================== *)
(** * Editing a rule the server sent                                      *)
(* ===================================================================== *)

(** X14. Editing a rule as the server sent it. The pencil button selects
    the rule by the text [toString] gives for its id, the decimal digits
    for an id of magnitude below 2^53, and fills the form so that the
    body a save would send carries the server's [result] as value, its
    [groupOrder] as order number, its column name and its description (or
    the empty string). As the adapter gives every condition an empty
    operator, a rule that has a condition cannot be saved as loaded: the
    save stops at the checks with "Operator cannot be empty." on every
    row, and nothing is sent. *)
Theorem edit_of_fetched_rule `{JS.Collator} (srv : Backend)
  (g : ApiRuleGroup.t) (st : RuleApply.State) :
  let st1 := editing g st in
  let body := RuleApply.toRuleGroup (RuleApply.formState st1) in
  RuleApply.selected (RuleApply.modalState st1)
  = Some (JS.Z2string (ApiRuleGroup.id g)) /\
  (Z.abs (ApiRuleGroup.id g) < 2 ^ 53 ->
   RuleApply.selected (RuleApply.modalState st1)
   = Some (NilZero.string_of_int (Z.to_int (ApiRuleGroup.id g)))) /\
  RuleGroup.value body = ApiRuleGroup.result g /\
  RuleGroup.orderNumber body = ApiRuleGroup.groupOrder g /\
  RuleGroup.columnName body
  = match ApiRuleGroup.column_ g with
    | Some c => ApiRuleGroup.columnName c
    | None => ""
    end /\
  RuleGroup.description body
  = match ApiRuleGroup.description g with Some d => d | None => "" end /\
  Forall (fun c => snd c = "") (RuleGroup.conditions body) /\
  (RuleApply.conditions (RuleApply.toUiRule g) <> [] ->
   log_of (RuleApply.handleEditRule srv) st1 = [] /\
   Forall (fun e => RuleApply.ce_operator e = Some "Operator cannot be empty.")
     (RuleApply.e_conditions
        (RuleApply.FormState.errors
           (RuleApply.formState
              (state_after (RuleApply.handleEditRule srv) st1)))) /\
   List.length
     (RuleApply.e_conditions
        (RuleApply.FormState.errors
           (RuleApply.formState
              (state_after (RuleApply.handleEditRule srv) st1))))
   = List.length (RuleApply.conditions (RuleApply.toUiRule g))).
Proof.
  intros st1 body.
  assert (Hsel : RuleApply.selected (RuleApply.modalState st1)
                 = Some (JS.Z2string (ApiRuleGroup.id g))).
  { subst st1. unfold editing, state_after, run, RuleCallbacks.startEdit,
      bind, modify, RuleApply.selected. cbn.
    now rewrite Z2string_truthy. }
  assert (Hops : Forall (fun c => RuleApply.operator c = "")
                   (RuleApply.conditions (RuleApply.toUiRule g))).
  { destruct g as [i col d res ord [l|]]; cbn; [|constructor].
    unfold JS.flatMap. apply Forall_concat, Forall_map, Forall_forall.
    intros sg _. apply Forall_map, Forall_forall. now intros c _. }
  repeat match goal with |- _ /\ _ => split end.
  - exact Hsel.
  - intros Hsafe. rewrite Hsel. now rewrite (Z2string_safe _ Hsafe).
  - reflexivity.
  - reflexivity.
  - subst body st1. cbn. now destruct (ApiRuleGroup.column_ g).
  - subst body st1. cbn. destruct (ApiRuleGroup.description g) as [d|]; cbn;
      [|reflexivity].
    unfold JS.or_str. now destruct d.
  - subst body st1. cbn. apply Forall_map.
    revert Hops. apply Forall_impl. now intros c.
  - intros Hrows.
    set (errors := RuleApply.validate (RuleApply.formState st1)).
    assert (Hbad : RuleApply.hasError errors = true).
    { subst errors. unfold RuleApply.hasError, RuleApply.validate.
      change (RuleApply.FormState.conditions (RuleApply.formState st1))
        with (RuleApply.conditions (RuleApply.toUiRule g)).
      destruct (RuleApply.conditions (RuleApply.toUiRule g)) as [|c rows];
        [contradiction|].
      inversion Hops as [|? ? Hc _]; subst.
      cbn [RuleApply.e_conditions List.map existsb RuleApply.conditionErrors
           RuleApply.ce_operator RuleApply.ce_conditionName].
      rewrite Hc. cbn. now rewrite !orb_true_r. }
    destruct (rule_form_checks_gen srv st1) as [_ Hreject].
    specialize (Hreject Hbad (JS.Z2string (ApiRuleGroup.id g)) Hsel).
    unfold log_of, state_after. rewrite Hreject. cbn.
    split; [reflexivity|]. subst st1. cbn. split.
    + apply Forall_map. revert Hops. apply Forall_impl.
      intros c Hc. cbn. now rewrite Hc.
    + apply length_map.
Qed.

Lemma edit_of_fetched_rule_witness :
  let st1 := editing group_adults RuleApply.initialState in
  RuleApply.selected (RuleApply.modalState st1) = Some "42" /\
  log_of (RuleApply.handleEditRule offline) st1 = [] /\
  List.map RuleApply.ce_operator
    (RuleApply.e_conditions
       (RuleApply.FormState.errors
          (RuleApply.formState
             (state_after (RuleApply.handleEditRule offline) st1))))
  = [Some "Operator cannot be empty."].
Proof.
  cbv zeta.
  destruct (edit_of_fetched_rule offline group_adults RuleApply.initialState)
    as (_ & Hsel & _ & _ & _ & _ & _ & Hsave).
  destruct (Hsave ltac:(discriminate)) as (Hlog & _ & _).
  split; [exact (Hsel eq_refl)|]. split; [exact Hlog|]. reflexivity.
Defined.

(* ===================================================================== *)
(** * Ids: from the server's integer to text and back                     *)
(* ===================================================================== *)

Lemma digits_nonneg (d : Decimal.uint) : 0 <= digits d.
Proof. induction d; cbn [digits]; lia. Qed.

Lemma digits_pos (d : Decimal.uint) : d <> Decimal.Nil -> 0 < digits d.
Proof.
  destruct d; cbn [digits]; try congruence; intros _;
    pose proof (digits_nonneg d); lia.
Qed.

(** One digit read. *)
Lemma read_digits_step (c : ascii) (k : Z) (r : string) (n acc : Z) :
  JS.digit_in 10 c = Some k ->
  JS.read_digits 10 (String c r) n acc
  = JS.read_digits 10 r (n + 1) (acc * 10 + k).
Proof. intros E. cbn [JS.read_digits]. now rewrite E. Qed.

Ltac read_digit :=
  cbn [NilEmpty.string_of_uint];
  erewrite read_digits_step by (vm_compute; reflexivity);
  cbn [Pos.of_uint_acc Pos.of_uint digits Z.of_N].

(** Reading a numeral's text in radix 10 after a non-zero prefix. *)
Lemma read_digits_acc (d : Decimal.uint) (n : Z) (acc : positive) :
  JS.read_digits 10 (NilEmpty.string_of_uint d) n (Z.pos acc)
  = (n + digits d, Z.pos (Pos.of_uint_acc d acc), "").
Proof.
  revert n acc. induction d; intros n acc;
    [cbn; f_equal; f_equal; lia | ..];
    read_digit;
    match goal with
    | |- JS.read_digits _ _ _ ?a = (_, Z.pos (Pos.of_uint_acc _ ?b), _) =>
        replace a with (Z.pos b) by lia
    end;
    rewrite IHd; f_equal; f_equal; lia.
Qed.

(** Reading a numeral's text in radix 10 from the start. *)
Lemma read_digits_uint (d : Decimal.uint) (n : Z) :
  JS.read_digits 10 (NilEmpty.string_of_uint d) n 0
  = (n + digits d, Z.of_N (Pos.of_uint d), "").
Proof.
  revert n. induction d; intros n;
    [cbn; f_equal; f_equal; lia | ..];
    read_digit;
    [rewrite IHd; f_equal; f_equal; lia | ..];
    match goal with
    | |- JS.read_digits _ _ _ ?a = (_, Z.pos (Pos.of_uint_acc _ ?b), _) =>
        change a with (Z.pos b)
    end;
    rewrite read_digits_acc; f_equal; f_equal; lia.
Qed.

(** A numeral's text starts with a digit: no white space to trim, no sign
    to read, no hexadecimal prefix. *)
Lemma numeral_text_plain (d : Decimal.uint) :
  let s := NilEmpty.string_of_uint d in
  JS.trimStart s = s /\ JS.read_sign s = (false, s) /\
  JS.strip_hex_prefix s = None.
Proof.
  destruct d as [|d|d|d|d|d|d|d|d|d|d]; cbn; repeat split;
    destruct d; reflexivity.
Qed.

(** [parseInt], with radix 10 or without a radix, reads the decimal digits
    of an integer back as the number nearest to it. *)
Lemma parseInt_decimal (z : Z) :
  JS.parseInt (JS.decimal z) 10 = JS.Z2num z /\
  JS.parseInt (JS.decimal z) 0 = JS.Z2num z.
Proof.
  destruct z as [|p|p]; [split; reflexivity | ..];
    unfold JS.decimal; cbn [Z.to_int NilZero.string_of_int];
    pose proof (DecimalPos.Unsigned.to_uint_nonnil p) as Hnil;
    pose proof (DecimalPos.Unsigned.of_to p) as Hval;
    assert (Htext : NilZero.string_of_uint (Pos.to_uint p)
                    = NilEmpty.string_of_uint (Pos.to_uint p))
      by (destruct (Pos.to_uint p); [contradiction | reflexivity ..]);
    rewrite Htext;
    destruct (numeral_text_plain (Pos.to_uint p)) as (Htrim & Hsign & Hhex);
    pose proof (digits_pos _ Hnil) as Hlen;
    unfold JS.parseInt.
  - rewrite Htrim, Hsign, Hhex. cbn [Z.eqb negb andb orb JS.in_range].
    cbn -[JS.read_digits JS.dec2num].
    rewrite read_digits_uint, Hval.
    replace (0 + digits (Pos.to_uint p) =? 0) with false
      by (symmetry; apply Z.eqb_neq; lia).
    unfold JS.dec2num, JS.Z2num. cbn [Z.of_N Z.leb Z.compare].
    split; now rewrite Z.mul_1_r.
  - assert (Hminus : JS.read_sign
                       (JS.trimStart
                          (String "-"
                             (NilEmpty.string_of_uint (Pos.to_uint p))))
                     = (true, NilEmpty.string_of_uint (Pos.to_uint p)))
      by reflexivity.
    rewrite Hminus, Hhex.
    cbn -[JS.read_digits JS.dec2num].
    rewrite read_digits_uint, Hval.
    replace (0 + digits (Pos.to_uint p) =? 0) with false
      by (symmetry; apply Z.eqb_neq; lia).
    unfold JS.dec2num, JS.Z2num. cbn [Z.of_N Z.leb Z.compare].
    split; now rewrite Z.mul_1_r.
Qed.

(** The text of an id that a number holds exactly reads back as that
    number. *)
Lemma parseInt_Z2string (z : Z) :
  Z.abs z < 2 ^ 53 ->
  JS.parseInt (JS.Z2string z) 10 = JS.Z2num z /\
  JS.parseInt (JS.Z2string z) 0 = JS.Z2num z.
Proof. intros Hz. rewrite Z2string_safe by exact Hz. apply parseInt_decimal. Qed.

(* ===================================================================== *)
(** * Not-a-number in a comparator                                        *)
(* ===================================================================== *)

Lemma isNaN_spec (x : JS.number) :
  JS.isNaN x = true <-> Prim2SF x = S754_nan.
Proof.
  unfold JS.isNaN, PrimFloat.is_nan. rewrite eqb_spec. unfold SFeqb, SFcompare.
  destruct (Prim2SF x) as [s|s| |s m e]; cbn.
  - split; discriminate.
  - destruct s; split; discriminate.
  - split; reflexivity.
  - pose proof (Pos.compare_refl m) as Hm. unfold Pos.compare in Hm.
    rewrite Z.compare_refl, Hm. destruct s; split; discriminate.
Qed.

(** A difference with a [NaN] operand is [NaN]. *)
Lemma NaN_sub (x y : JS.number) :
  JS.isNaN x = true \/ JS.isNaN y = true -> JS.isNaN (x - y)%float = true.
Proof.
  rewrite !isNaN_spec. rewrite sub_spec. unfold SF64sub, SFsub.
  intros [-> | ->]; [reflexivity|].
  destruct (Prim2SF x) as [s|s| |s m e]; reflexivity.
Qed.

(** [NaN] is not above zero: [sort] reads it as "keep the order". *)
Lemma NaN_not_positive (x : JS.number) :
  JS.isNaN x = true -> (0 <? x)%float = false.
Proof. rewrite isNaN_spec, ltb_spec. now intros ->. Qed.

(* ===================================================================== *)
(** * Every fetch settles                                                 *)
(* ===================================================================== *)

Lemma quiet_intro (log : list event) :
  Forall (fun e => match e with
                   | ConsoleError _ | ToastError _ => True
                   | _ => False
                   end) log -> quiet log.
Proof.
  induction 1 as [|e log He _ [IHr IHt]]; [split; [reflexivity | now intros m] |].
  destruct e; try contradiction; (split; [exact IHr |]);
    intros m [E | Hin]; try discriminate; now apply (IHt m).
Qed.

Ltac settle_fetch :=
  cbn; rewrite <- ?app_assoc; cbn [app];
  eexists _, _; split; [reflexivity |];
  split; [apply quiet_intro; repeat constructor |];
  cbn; repeat split.

Section Settles.

Context `{JS.Collator}.

Lemma fetchColumns_settles (srv : Backend) (st : ColumnManagement.State)
  (l : list event) :
  exists st' tail,
    ColumnManagement.fetchColumns srv st l
    = (Returned tt, st', l ++ Request (GET_columns (columnsQuery st)) :: tail) /\
    quiet tail /\
    ColumnManagement.loading st' = false /\
    ColumnManagement.modalState st' = ColumnManagement.modalState st /\
    ColumnManagement.formState st' = ColumnManagement.formState st /\
    ColumnManagement.editState st' = ColumnManagement.editState st /\
    ColumnManagement.sortField st' = ColumnManagement.sortField st /\
    ColumnManagement.sortOrder st' = ColumnManagement.sortOrder st /\
    ColumnManagement.currentPage st' = ColumnManagement.currentPage st.
Proof.
  unfold ColumnManagement.fetchColumns, getColumns, axios, map_data.
  unfold try_finally, try_catch, bind, get, modify, emit, ret, throw.
  fold (columnsQuery st).
  destruct (columns srv (columnsQuery st)) as [|[] [rows|]]; settle_fetch.
Qed.

Lemma fetchConditions_settles (srv : Backend)
  (st : ConditionManagement.State) (l : list event) :
  exists st' tail,
    ConditionManagement.fetchConditions srv st l
    = (Returned tt, st',
       l ++ Request (GET_conditions (conditionsQuery st)) :: tail) /\
    quiet tail /\
    ConditionManagement.loading st' = false /\
    ConditionManagement.modalState st' = ConditionManagement.modalState st /\
    ConditionManagement.formState st' = ConditionManagement.formState st /\
    ConditionManagement.editState st' = ConditionManagement.editState st /\
    ConditionManagement.sortField st' = ConditionManagement.sortField st /\
    ConditionManagement.sortOrder st' = ConditionManagement.sortOrder st /\
    ConditionManagement.currentPage st' = ConditionManagement.currentPage st.
Proof.
  unfold ConditionManagement.fetchConditions, getConditions, axios, map_data.
  unfold try_finally, try_catch, bind, get, modify, emit, ret, throw.
  fold (conditionsQuery st).
  destruct (conditions srv (conditionsQuery st)) as [|[] [[rows|] h]];
    settle_fetch.
Qed.

Lemma fetchRules_settles (srv : Backend) (st : RuleApply.State)
  (l : list event) :
  exists st' tail,
    RuleApply.fetchRules srv st l
    = (Returned tt, st',
       l ++ Request (GET_ruleGroups (rulesQuery st)) :: tail) /\
    quiet tail /\
    RuleApply.loading st' = false /\
    RuleApply.modalState st' = RuleApply.modalState st /\
    RuleApply.formState st' = RuleApply.formState st /\
    RuleApply.sortField st' = RuleApply.sortField st /\
    RuleApply.sortOrder st' = RuleApply.sortOrder st /\
    RuleApply.currentPage st' = RuleApply.currentPage st.
Proof.
  unfold RuleApply.fetchRules, getRuleGroups, fetch_json.
  unfold try_finally, try_catch, bind, get, modify, emit, ret, throw.
  fold (rulesQuery st).
  destruct (ruleGroups srv (rulesQuery st)) as [|[] [rows|]]; settle_fetch.
Qed.

End Settles.

(** X15. Every fetch settles, whatever the server does: the callback
    returns, it has sent exactly one request, the list query of its screen
    for page 1 with limit 1000 (so the page shown is cut on the client), it
    shows no success toast, the loading state has ended, and the dialog,
    the forms, the sort and the current page are untouched. *)
Theorem every_fetch_settles `{JS.Collator} (srv : Backend) :
  (forall st : ColumnManagement.State,
      let out := run (ColumnManagement.fetchColumns srv) st in
      let st' := snd (fst out) in
      fst (fst out) = Returned tt /\
      requests (snd out) = [GET_columns (columnsQuery st)] /\
      (forall m, ~ In (ToastSuccess m) (snd out)) /\
      ColumnManagement.loading st' = false /\
      ColumnManagement.modalState st' = ColumnManagement.modalState st /\
      ColumnManagement.formState st' = ColumnManagement.formState st /\
      ColumnManagement.editState st' = ColumnManagement.editState st /\
      ColumnManagement.sortField st' = ColumnManagement.sortField st /\
      ColumnManagement.sortOrder st' = ColumnManagement.sortOrder st /\
      ColumnManagement.currentPage st' = ColumnManagement.currentPage st) /\
  (forall st : ConditionManagement.State,
      let out := run (ConditionManagement.fetchConditions srv) st in
      let st' := snd (fst out) in
      fst (fst out) = Returned tt /\
      requests (snd out) = [GET_conditions (conditionsQuery st)] /\
      (forall m, ~ In (ToastSuccess m) (snd out)) /\
      ConditionManagement.loading st' = false /\
      ConditionManagement.modalState st' = ConditionManagement.modalState st /\
      ConditionManagement.formState st' = ConditionManagement.formState st /\
      ConditionManagement.editState st' = ConditionManagement.editState st /\
      ConditionManagement.sortField st' = ConditionManagement.sortField st /\
      ConditionManagement.sortOrder st' = ConditionManagement.sortOrder st /\
      ConditionManagement.currentPage st'
      = ConditionManagement.currentPage st) /\
  (forall st : RuleApply.State,
      let out := run (RuleApply.fetchRules srv) st in
      let st' := snd (fst out) in
      fst (fst out) = Returned tt /\
      requests (snd out) = [GET_ruleGroups (rulesQuery st)] /\
      (forall m, ~ In (ToastSuccess m) (snd out)) /\
      RuleApply.loading st' = false /\
      RuleApply.modalState st' = RuleApply.modalState st /\
      RuleApply.formState st' = RuleApply.formState st /\
      RuleApply.sortField st' = RuleApply.sortField st /\
      RuleApply.sortOrder st' = RuleApply.sortOrder st /\
      RuleApply.currentPage st' = RuleApply.currentPage st).
Proof.
  split; [|split]; intros st out st1; subst st1 out; unfold run.
  - destruct (fetchColumns_settles srv st [])
      as (st' & tail & -> & [Hreq Hquiet] & Hframe).
    cbn [fst snd app requests flat_map]. fold (requests tail).
    rewrite Hreq. repeat split; try apply Hframe.
    intros m [E | Hin]; [discriminate | now apply (Hquiet m)].
  - destruct (fetchConditions_settles srv st [])
      as (st' & tail & -> & [Hreq Hquiet] & Hframe).
    cbn [fst snd app requests flat_map]. fold (requests tail).
    rewrite Hreq. repeat split; try apply Hframe.
    intros m [E | Hin]; [discriminate | now apply (Hquiet m)].
  - destruct (fetchRules_settles srv st [])
      as (st' & tail & -> & [Hreq Hquiet] & Hframe).
    cbn [fst snd app requests flat_map]. fold (requests tail).
    rewrite Hreq. repeat split; try apply Hframe.
    intros m [E | Hin]; [discriminate | now apply (Hquiet m)].
Qed.

(* ===================================================================== *)
(** * Accepted mutations                                                  *)
(* ===================================================================== *)

Lemma requests_app (a b : list event) :
  requests (a ++ b) = requests a ++ requests b.
Proof. apply flat_map_app. Qed.

Lemma lastEvent_snoc (log : list event) (e : event) :
  lastEvent (log ++ [e]) = Some e.
Proof. unfold lastEvent. rewrite map_app. apply last_last. Qed.

Ltac meet_fetch lem srv :=
  match goal with
  | |- context [?fetch srv ?s ?l] =>
      destruct (lem srv s l) as (?st' & ?tail & -> & [?Hreq ?Hquiet] & ?Hframe)
  end.

Ltac accepted_goals tail Hreq :=
  cbn [fst snd]; split; [constructor |]; cbn [fst snd];
  [ reflexivity
  | rewrite !requests_app; cbn; fold (requests tail); now rewrite Hreq
  | apply lastEvent_snoc
  | reflexivity
  | reflexivity ].

(** X16. Accepted mutations of the Column screen. When the name typed is
    not blank and the server accepts the call, adding, renaming and
    deleting a column each send the mutation and then one list query
    (the name goes out as typed, untrimmed; the id as [parseInt] reads
    it), end with their success toast, close the dialog and, for the two
    forms, reset the form. Nothing is assumed of the list query: the
    success toast is shown also when the refetch fails. *)
Theorem accepted_column_mutations `{JS.Collator} (srv : Backend)
  (st : ColumnManagement.State) :
  let isOpen s :=
    ColumnManagement.ModalState.isOpen (ColumnManagement.modalState s) in
  let refetch := GET_columns (columnsQuery st) in
  (forall name,
      ColumnManagement.FormState.columnName (ColumnManagement.formState st)
      = name ->
      JS.truthy_str (JS.trim name) = true ->
      answered (mutation srv (POST_columns name)) = Some tt ->
      let out := run (ColumnManagement.handleAddColumn srv) st in
      Accepted isOpen out (POST_columns name) refetch
        "Column added successfully!" /\
      ColumnManagement.formState (snd (fst out))
      = ColumnManagement.formState ColumnManagement.initialState) /\
  (forall id name,
      ColumnManagement.EditState.editMode (ColumnManagement.editState st)
      = Some id ->
      JS.truthy_str id = true ->
      ColumnManagement.EditState.editColumnName
        (ColumnManagement.editState st) = name ->
      JS.truthy_str (JS.trim name) = true ->
      answered (mutation srv (PUT_columns (JS.parseInt id 0) name))
      = Some tt ->
      let out := run (ColumnManagement.handleEditColumn srv) st in
      Accepted isOpen out (PUT_columns (JS.parseInt id 0) name) refetch
        "Column updated successfully!" /\
      ColumnManagement.editState (snd (fst out))
      = ColumnManagement.editState ColumnManagement.initialState) /\
  (forall id,
      answered (mutation srv (DELETE_columns (JS.parseInt id 0))) = Some tt ->
      let out := run (ColumnManagement.handleDeleteColumn srv id) st in
      Accepted isOpen out (DELETE_columns (JS.parseInt id 0)) refetch
        "Column deleted successfully!" /\
      ColumnManagement.formState (snd (fst out))
      = ColumnManagement.formState st /\
      ColumnManagement.editState (snd (fst out))
      = ColumnManagement.editState st).
Proof.
  intros isOpen refetch. subst isOpen refetch. split; [|split].
  - intros name <- Hname Hacc out. subst out.
    unfold run, ColumnManagement.handleAddColumn, createColumn, axios.
    unfold try_finally, try_catch, bind, get, modify, emit, ret, throw.
    rewrite Hname. cbn [negb].
    destruct (mutation srv _) as [|[] []]; try discriminate.
    meet_fetch fetchColumns_settles srv.
    accepted_goals tail Hreq.
  - intros id name Hmode Hid <- Hname Hacc out. subst out.
    unfold run, ColumnManagement.handleEditColumn, updateColumn, axios.
    unfold try_finally, try_catch, bind, get, modify, emit, ret, throw.
    rewrite Hname, Hmode, Hid. cbn [negb].
    destruct (mutation srv _) as [|[] []]; try discriminate.
    meet_fetch fetchColumns_settles srv.
    accepted_goals tail Hreq.
  - intros id Hacc out. subst out.
    unfold run, ColumnManagement.handleDeleteColumn, deleteColumn, axios.
    unfold try_finally, try_catch, bind, get, modify, emit, ret, throw.
    destruct (mutation srv _) as [|[] []]; try discriminate.
    meet_fetch fetchColumns_settles srv.
    cbn [fst snd]; split; [constructor |]; cbn [fst snd].
    + reflexivity.
    + rewrite !requests_app; cbn; fold (requests tail); now rewrite Hreq.
    + apply lastEvent_snoc.
    + reflexivity.
    + cbn. tauto.
Qed.

Lemma accepted_column_mutations_witness :
  let out := run (ColumnManagement.handleAddColumn read_write) age_typed in
  requests (snd out)
  = [POST_columns "age"; GET_columns (columnsQuery age_typed)] /\
  lastEvent (snd out) = Some (ToastSuccess "Column added successfully!") /\
  ColumnManagement.formState (snd (fst out))
  = ColumnManagement.formState ColumnManagement.initialState.
Proof.
  cbv zeta.
  destruct (proj1 (accepted_column_mutations read_write age_typed)
              "age" eq_refl eq_refl eq_refl) as [[_ Hreq Htoast _] Hform].
  split; [exact Hreq|]. split; [exact Htoast | exact Hform].
Defined.

(** X17. Accepted mutations of the Condition screen. The add form passes
    its checks when the name is not blank, the operator text is not
    "Select Operators" and a column is chosen; the edit form when the name
    is not blank, the operator text is not "Select operators" and a column
    is chosen; the value is not checked. When the server then accepts the
    call, each of add, edit and delete sends the mutation and one list
    query, ends with its success toast, closes the dialog and resets its
    form, whatever the list query brings. *)
Theorem accepted_condition_mutations `{JS.Collator} (srv : Backend)
  (st : ConditionManagement.State) :
  let isOpen s :=
    ConditionManagement.ModalState.isOpen
      (ConditionManagement.modalState s) in
  let refetch := GET_conditions (conditionsQuery st) in
  let f := ConditionManagement.formState st in
  let e := ConditionManagement.editState st in
  (JS.truthy_str (JS.trim (ConditionManagement.FormState.conditionName f))
   = true ->
   ConditionManagement.FormState.operators f <> "Select Operators" ->
   ConditionManagement.FormState.columnName f <> None ->
   answered (mutation srv
               (POST_conditions (ConditionManagement.newCondition f)))
   = Some tt ->
   let out := run (ConditionManagement.handleAddCondition srv) st in
   Accepted isOpen out
     (POST_conditions (ConditionManagement.newCondition f)) refetch
     "Condition added successfully!" /\
   ConditionManagement.formState (snd (fst out))
   = ConditionManagement.FormState.initial) /\
  (forall id,
      ConditionManagement.EditState.editMode e = Some id ->
      JS.truthy_str id = true ->
      JS.truthy_str
        (JS.trim (ConditionManagement.EditState.editConditionName e)) = true ->
      ConditionManagement.EditState.editOperators e <> "Select operators" ->
      ConditionManagement.EditState.editColumnName e <> None ->
      answered (mutation srv
                  (PUT_conditions (JS.parseInt id 0)
                     (ConditionManagement.updatedCondition e))) = Some tt ->
      let out := run (ConditionManagement.handleEditCondition srv) st in
      Accepted isOpen out
        (PUT_conditions (JS.parseInt id 0)
           (ConditionManagement.updatedCondition e)) refetch
        "Condition updated successfully!" /\
      ConditionManagement.editState (snd (fst out))
      = ConditionManagement.EditState.initial) /\
  (forall id,
      answered (mutation srv (DELETE_conditions (JS.parseInt id 0)))
      = Some tt ->
      let out := run (ConditionManagement.handleDeleteCondition srv id) st in
      Accepted isOpen out (DELETE_conditions (JS.parseInt id 0)) refetch
        "Condition deleted successfully!" /\
      ConditionManagement.formState (snd (fst out)) = f /\
      ConditionManagement.editState (snd (fst out)) = e).
Proof.
  intros isOpen refetch f e. subst isOpen refetch. split; [|split].
  - intros Hname Hop Hcol Hacc out. subst out.
    unfold run, ConditionManagement.handleAddCondition, createCondition, axios.
    unfold try_finally, try_catch, bind, get, modify, emit, ret, throw.
    cbv zeta. fold f. rewrite Hname.
    apply String.eqb_neq in Hop. rewrite Hop.
    destruct (ConditionManagement.FormState.columnName f) as [c|] eqn:Ecol;
      [clear Hcol | contradiction].
    cbn [negb orb].
    destruct (mutation srv _) as [|[] []]; try discriminate.
    meet_fetch fetchConditions_settles srv.
    accepted_goals tail Hreq.
  - intros id Hmode Hid Hname Hop Hcol Hacc out. subst out.
    unfold run, ConditionManagement.handleEditCondition, updateCondition, axios.
    unfold try_finally, try_catch, bind, get, modify, emit, ret, throw.
    cbv zeta. fold e. rewrite Hname, Hmode, Hid.
    apply String.eqb_neq in Hop. rewrite Hop.
    destruct (ConditionManagement.EditState.editColumnName e) as [c|] eqn:Ecol;
      [clear Hcol | contradiction].
    cbn [negb orb].
    destruct (mutation srv _) as [|[] []]; try discriminate.
    meet_fetch fetchConditions_settles srv.
    accepted_goals tail Hreq.
  - intros id Hacc out. subst out.
    unfold run, ConditionManagement.handleDeleteCondition, deleteCondition,
      axios.
    unfold try_finally, try_catch, bind, get, modify, emit, ret, throw.
    destruct (mutation srv _) as [|[] []]; try discriminate.
    meet_fetch fetchConditions_settles srv.
    cbn [fst snd]; split; [constructor |]; cbn [fst snd].
    + reflexivity.
    + rewrite !requests_app; cbn; fold (requests tail); now rewrite Hreq.
    + apply lastEvent_snoc.
    + reflexivity.
    + cbn. tauto.
Qed.

Lemma accepted_condition_mutations_witness :
  let srv := serving NotAnArray (Items twelve_conditions) NotAnArray in
  let out :=
    run (ConditionManagement.handleAddCondition srv) placeholder_chosen in
  requests (snd out)
  = [POST_conditions
       (ConditionManagement.newCondition
          (ConditionManagement.formState placeholder_chosen));
     GET_conditions (conditionsQuery placeholder_chosen)] /\
  ConditionManagement.formState (snd (fst out))
  = ConditionManagement.FormState.initial.
Proof.
  cbv zeta.
  destruct (proj1 (accepted_condition_mutations
                     (serving NotAnArray (Items twelve_conditions) NotAnArray)
                     placeholder_chosen)
              eq_refl ltac:(discriminate) ltac:(discriminate) eq_refl)
    as [[_ Hreq _ _] Hform].
  split; [exact Hreq | exact Hform].
Defined.

(** X18. Accepted mutations of the Rule screen. When the checks of the
    form pass and the server accepts the call, adding a rule and saving the
    selected rule each send the mutation, with the body built from the
    form and, for a save, the selected id as text, then one list query;
    deleting the selected rule sends the delete and one list query. Each
    ends with its success toast and closes the dialog; the add leaves a
    blank form without order number, the save a blank form with order
    number 0. *)
Theorem accepted_rule_mutations `{JS.Collator} (srv : Backend)
  (st : RuleApply.State) :
  let isOpen s := RuleApply.ModalState.isOpen (RuleApply.modalState s) in
  let refetch := GET_ruleGroups (rulesQuery st) in
  let body := RuleApply.toRuleGroup (RuleApply.formState st) in
  let checked :=
    RuleApply.hasError (RuleApply.validate (RuleApply.formState st)) in
  (checked = false ->
   answered (mutation srv (POST_ruleGroups body)) = Some tt ->
   let out := run (RuleApply.handleAddRule srv) st in
   Accepted isOpen out (POST_ruleGroups body) refetch
     "Rule added successfully!" /\
   RuleApply.formState (snd (fst out)) = RuleApply.FormState.blank None) /\
  (forall id,
      RuleApply.selected (RuleApply.modalState st) = Some id ->
      checked = false ->
      answered (mutation srv (PUT_ruleGroups id body)) = Some tt ->
      let out := run (RuleApply.handleEditRule srv) st in
      Accepted isOpen out (PUT_ruleGroups id body) refetch
        "Rule updated successfully!" /\
      RuleApply.formState (snd (fst out))
      = RuleApply.FormState.blank (Some 0)) /\
  (forall id,
      RuleApply.selected (RuleApply.modalState st) = Some id ->
      answered (mutation srv (DELETE_ruleGroups id)) = Some tt ->
      let out := run (RuleApply.handleDeleteRule srv) st in
      Accepted isOpen out (DELETE_ruleGroups id) refetch
        "Rule deleted successfully!" /\
      RuleApply.formState (snd (fst out)) = RuleApply.formState st).
Proof.
  intros isOpen refetch body checked. subst isOpen refetch body checked.
  split; [|split].
  - intros Hok Hacc out. subst out.
    unfold run, RuleApply.handleAddRule, createRuleGroup, fetch_json.
    unfold try_finally, try_catch, bind, get, modify, emit, ret, throw.
    cbv zeta. rewrite Hok.
    destruct (mutation srv _) as [|[] []]; try discriminate.
    meet_fetch fetchRules_settles srv.
    accepted_goals tail Hreq.
  - intros id Hsel Hok Hacc out. subst out.
    unfold run, RuleApply.handleEditRule, updateRuleGroup, fetch_json.
    unfold try_finally, try_catch, bind, get, modify, emit, ret, throw.
    cbv zeta. rewrite Hsel, Hok.
    destruct (mutation srv _) as [|[] []]; try discriminate.
    meet_fetch fetchRules_settles srv.
    accepted_goals tail Hreq.
  - intros id Hsel Hacc out. subst out.
    unfold run, RuleApply.handleDeleteRule, deleteRuleGroup, fetch_json.
    unfold try_finally, try_catch, bind, get, modify, emit, ret, throw.
    rewrite Hsel.
    destruct (mutation srv _) as [|[] []]; try discriminate.
    meet_fetch fetchRules_settles srv.
    cbn [fst snd]; split; [constructor |]; cbn [fst snd].
    + reflexivity.
    + rewrite !requests_app; cbn; fold (requests tail); now rewrite Hreq.
    + apply lastEvent_snoc.
    + reflexivity.
    + cbn. tauto.
Qed.

Lemma accepted_rule_mutations_witness :
  let srv := serving NotAnArray NotAnArray (Items [group_adults]) in
  let out := run (RuleApply.handleDeleteRule srv) deleting_rule_one in
  requests (snd out)
  = [DELETE_ruleGroups "1"; GET_ruleGroups (rulesQuery deleting_rule_one)] /\
  lastEvent (snd out) = Some (ToastSuccess "Rule deleted successfully!") /\
  RuleApply.ModalState.isOpen (RuleApply.modalState (snd (fst out))) = false.
Proof.
  cbv zeta.
  destruct (proj2 (proj2 (accepted_rule_mutations
                            (serving NotAnArray NotAnArray
                               (Items [group_adults]))
                            deleting_rule_one))
              "1" eq_refl eq_refl) as [[_ Hreq Htoast Hclosed] _].
  split; [exact Hreq|]. split; [exact Htoast | exact Hclosed].
Defined.

(* ===================================================================== *)
(** * Rows and their server ids                                           *)
(* ===================================================================== *)

(** X19. The id sort of the Column and the Condition screen. A row's id is
    the text [toString] gives for the server's integer id, and the
    comparator reads it back with [parseInt(_, 10)]. For two rows the
    server sent with ids of magnitude below 2^53 (integers a number holds
    exactly) the text is the decimal digits of the id and the comparator is
    the difference of the two ids as numbers, in the order the sort order
    asks for. From 10^21 on the text is in exponent notation, of which
    [parseInt] reads the digits before the point: the ids 10^21 and 2 are
    compared as 1 and 2. A row the server sent without id has the empty
    text as id, which [parseInt] reads as [NaN]: the comparator is then
    [NaN], never above zero, and [sort] moves neither row past the
    other. *)
Theorem id_sort_compares_server_ids `{JS.Collator} (o : SortOrder) :
  (forall a b i j,
      Column.id a = Some i -> Column.id b = Some j ->
      Z.abs i < 2 ^ 53 -> Z.abs j < 2 ^ 53 ->
      ColumnManagement.id (ColumnManagement.toColumnData a)
      = NilZero.string_of_int (Z.to_int i) /\
      ColumnManagement.compareColumns F_id o
        (ColumnManagement.toColumnData a) (ColumnManagement.toColumnData b)
      = by_order o (JS.Z2num i - JS.Z2num j)%float
                   (JS.Z2num j - JS.Z2num i)%float) /\
  (forall a b i j,
      Api.Condition.id a = Some i -> Api.Condition.id b = Some j ->
      Z.abs i < 2 ^ 53 -> Z.abs j < 2 ^ 53 ->
      ConditionManagement.id (ConditionManagement.toCondition a)
      = NilZero.string_of_int (Z.to_int i) /\
      ConditionManagement.compareConditions F_id o
        (ConditionManagement.toCondition a) (ConditionManagement.toCondition b)
      = by_order o (JS.Z2num i - JS.Z2num j)%float
                   (JS.Z2num j - JS.Z2num i)%float) /\
  (forall a b,
      Column.id a = Some (10 ^ 21) -> Column.id b = Some 2 ->
      ColumnManagement.id (ColumnManagement.toColumnData a) = "1e+21" /\
      ColumnManagement.compareColumns F_id o
        (ColumnManagement.toColumnData a) (ColumnManagement.toColumnData b)
      = by_order o (-1)%float 1%float) /\
  (forall a b,
      Column.id a = None \/ Column.id b = None ->
      (0 <? ColumnManagement.compareColumns F_id o
              (ColumnManagement.toColumnData a)
              (ColumnManagement.toColumnData b))%float = false) /\
  (forall a b,
      Api.Condition.id a = None \/ Api.Condition.id b = None ->
      (0 <? ConditionManagement.compareConditions F_id o
              (ConditionManagement.toCondition a)
              (ConditionManagement.toCondition b))%float = false).
Proof.
  assert (Htext : forall i, Z.abs i < 2 ^ 53 ->
                            JS.or_str (JS.Z2string i) "" = JS.decimal i).
  { intros i Hi. unfold JS.or_str. rewrite Z2string_truthy.
    now apply Z2string_safe. }
  assert (Hid : forall i, Z.abs i < 2 ^ 53 ->
                          JS.parseInt (JS.or_str (JS.Z2string i) "") 10
                          = JS.Z2num i).
  { intros i Hi. rewrite Htext by exact Hi. apply parseInt_decimal. }
  repeat match goal with |- _ /\ _ => split end.
  - intros a b i j Ha Hb Hi Hj.
    unfold ColumnManagement.compareColumns, ColumnManagement.toColumnData.
    cbn [SortField_eqb ColumnManagement.id]. rewrite Ha, Hb.
    split; [now apply Htext | now rewrite !Hid].
  - intros a b i j Ha Hb Hi Hj.
    unfold ConditionManagement.compareConditions,
      ConditionManagement.toCondition.
    cbn [SortField_eqb ConditionManagement.id]. rewrite Ha, Hb.
    split; [now apply Htext | now rewrite !Hid].
  - intros a b Ha Hb.
    unfold ColumnManagement.compareColumns, ColumnManagement.toColumnData.
    cbn [SortField_eqb ColumnManagement.id]. rewrite Ha, Hb.
    split; [vm_compute; reflexivity | destruct o; vm_compute; reflexivity].
  - intros a b Hnone. apply NaN_not_positive.
    unfold ColumnManagement.compareColumns, ColumnManagement.toColumnData.
    cbn [SortField_eqb ColumnManagement.id].
    destruct o; cbn [by_order]; apply NaN_sub;
      destruct Hnone as [-> | ->]; auto.
  - intros a b Hnone. apply NaN_not_positive.
    unfold ConditionManagement.compareConditions,
      ConditionManagement.toCondition.
    cbn [SortField_eqb ConditionManagement.id].
    destruct o; cbn [by_order]; apply NaN_sub;
      destruct Hnone as [-> | ->]; auto.
Qed.

Lemma id_sort_compares_server_ids_witness :
  ColumnManagement.id (ColumnManagement.toColumnData (api_column 10 "a"))
  = "10" /\
  ColumnManagement.compareColumns F_id asc
    (ColumnManagement.toColumnData (api_column 10 "a"))
    (ColumnManagement.toColumnData (api_column 9 "b")) = 1%float /\
  ColumnManagement.compareColumns F_id asc
    (ColumnManagement.toColumnData (api_column (10 ^ 21) "a"))
    (ColumnManagement.toColumnData (api_column 2 "b")) = (-1)%float.
Proof.
  destruct (proj1 (id_sort_compares_server_ids asc)
              (api_column 10 "a") (api_column 9 "b") 10 9 eq_refl eq_refl
              eq_refl eq_refl) as [Htext Hcmp].
  split; [rewrite Htext; reflexivity|].
  split; [rewrite Hcmp; reflexivity|].
  exact (proj2 (proj1 (proj2 (proj2 (id_sort_compares_server_ids asc)))
                  (api_column (10 ^ 21) "a") (api_column 2 "b")
                  eq_refl eq_refl)).
Defined.

Ltac first_request lem srv :=
  destruct (mutation srv _) as [|[] []];
  [ reflexivity
  | meet_fetch lem srv; cbn [snd]; rewrite !requests_app; reflexivity
  | reflexivity ].

(** X20. The buttons of a row reach the server with the row's server id.
    For a column, a condition or a rule the server sent with an integer id
    [i] of magnitude below 2^53 (which a number holds exactly): the trash
    button followed by the dialog's confirmation sends, as its first
    request, the delete of the number [i] (of the decimal digits of [i] on
    the Rule screen), whatever argument the dialog passes; the pencil
    button, a name typed that is not blank, and the submit button send the
    update of column number [i] with the name as typed; the pencil button
    of a condition whose name is not blank and whose operator text is not
    "Select operators" followed by a save sends the update of condition
    number [i], with the row's column name even when that is empty: the
    column check cannot fail after the pencil button. From 10^21 on the id
    text is in exponent notation: for the id 10^21 the Column screen sends
    the delete of number 1 and the Rule screen the delete of "1e+21". *)
Theorem row_actions_send_server_id `{JS.Collator} (srv : Backend) (i : Z) :
  Z.abs i < 2 ^ 53 ->
  (forall (c : Column.t) (st : ColumnManagement.State) arg,
      Column.id c = Some i ->
      let row := ColumnManagement.toColumnData c in
      hd_error
        (requests
           (log_of (ColumnCallbacks.onDelete srv arg)
              (state_after (ColumnCallbacks.askDelete row) st)))
      = Some (DELETE_columns (JS.Z2num i)) /\
      forall name,
        JS.truthy_str (JS.trim name) = true ->
        hd_error
          (requests
             (log_of (ColumnCallbacks.submit srv)
                (state_after (ColumnCallbacks.startEdit row ;;
                              ColumnCallbacks.onChangeName name) st)))
        = Some (PUT_columns (JS.Z2num i) name)) /\
  (forall (c : Api.Condition.t) (st : ConditionManagement.State) arg,
      Api.Condition.id c = Some i ->
      let row := ConditionManagement.toCondition c in
      let st1 := state_after (ConditionCallbacks.startEdit row) st in
      hd_error
        (requests
           (log_of (ConditionCallbacks.onDelete srv arg)
              (state_after (ConditionCallbacks.askDelete row) st)))
      = Some (DELETE_conditions (JS.Z2num i)) /\
      (JS.truthy_str (JS.trim (Api.Condition.condition c)) = true ->
       Api.Condition.operator c <> "Select operators" ->
       hd_error
         (requests (log_of (ConditionManagement.handleEditCondition srv) st1))
       = Some (PUT_conditions (JS.Z2num i)
                 (ConditionManagement.updatedCondition
                    (ConditionManagement.editState st1))) /\
       Api.Condition.columnName
         (ConditionManagement.updatedCondition
            (ConditionManagement.editState st1))
       = Some (ConditionManagement.columnName row))) /\
  (forall (g : ApiRuleGroup.t) (st : RuleApply.State),
      ApiRuleGroup.id g = i ->
      hd_error
        (requests
           (log_of (RuleApply.handleDeleteRule srv)
              (state_after
                 (RuleCallbacks.confirmDeleteRule
                    (JS.Z2string (RuleApply.id (RuleApply.toUiRule g)))) st)))
      = Some (DELETE_ruleGroups (NilZero.string_of_int (Z.to_int i)))) /\
  (forall (c : Column.t) (st : ColumnManagement.State) arg,
      Column.id c = Some (10 ^ 21) ->
      hd_error
        (requests
           (log_of (ColumnCallbacks.onDelete srv arg)
              (state_after
                 (ColumnCallbacks.askDelete (ColumnManagement.toColumnData c))
                 st)))
      = Some (DELETE_columns 1%float)) /\
  (forall (g : ApiRuleGroup.t) (st : RuleApply.State),
      ApiRuleGroup.id g = 10 ^ 21 ->
      hd_error
        (requests
           (log_of (RuleApply.handleDeleteRule srv)
              (state_after
                 (RuleCallbacks.confirmDeleteRule
                    (JS.Z2string (RuleApply.id (RuleApply.toUiRule g)))) st)))
      = Some (DELETE_ruleGroups "1e+21")).
Proof.
  intros Hsafe.
  assert (Hor : forall z, JS.or_str (JS.Z2string z) "" = JS.Z2string z).
  { intros z. unfold JS.or_str. now rewrite Z2string_truthy. }
  destruct (parseInt_Z2string i Hsafe) as [_ Hnum].
  assert (Hdelete :
            forall z v (c : Column.t) (st : ColumnManagement.State) arg,
              Column.id c = Some z -> JS.parseInt (JS.Z2string z) 0 = v ->
              hd_error
                (requests
                   (log_of (ColumnCallbacks.onDelete srv arg)
                      (state_after
                         (ColumnCallbacks.askDelete
                            (ColumnManagement.toColumnData c)) st)))
              = Some (DELETE_columns v)).
  { intros z v c st arg Hc Hv.
    unfold log_of, state_after, run, ColumnCallbacks.onDelete,
      ColumnCallbacks.askDelete, ColumnManagement.handleDeleteColumn,
      deleteColumn, axios.
    unfold try_finally, try_catch, bind, get, modify, emit, ret, throw.
    cbn [fst snd ColumnManagement.modalState ColumnManagement.setModalState
         ColumnManagement.ModalState.selectedColumnId ColumnManagement.id
         ColumnManagement.toColumnData].
    rewrite Hc, Hor, Z2string_truthy, Hv.
    first_request fetchColumns_settles srv. }
  assert (Hrule :
            forall z (g : ApiRuleGroup.t) (st : RuleApply.State),
              ApiRuleGroup.id g = z ->
              hd_error
                (requests
                   (log_of (RuleApply.handleDeleteRule srv)
                      (state_after
                         (RuleCallbacks.confirmDeleteRule
                            (JS.Z2string
                               (RuleApply.id (RuleApply.toUiRule g)))) st)))
              = Some (DELETE_ruleGroups (JS.Z2string z))).
  { intros z g st <-.
    unfold log_of, state_after, run, RuleCallbacks.confirmDeleteRule,
      RuleApply.handleDeleteRule, RuleApply.selected, deleteRuleGroup,
      fetch_json.
    unfold try_finally, try_catch, bind, get, modify, emit, ret, throw.
    cbn [fst snd RuleApply.modalState RuleApply.setModalState
         RuleApply.ModalState.selectedRuleId RuleApply.id RuleApply.toUiRule].
    rewrite Z2string_truthy.
    first_request fetchRules_settles srv. }
  repeat match goal with |- _ /\ _ => split end.
  - intros c st arg Hc row. subst row. split; [|intros name Hname].
    + now apply (Hdelete i).
    + unfold log_of, state_after, run, ColumnCallbacks.submit,
        ColumnCallbacks.startEdit, ColumnCallbacks.onChangeName,
        ColumnManagement.handleEditColumn, updateColumn, axios.
      unfold try_finally, try_catch, bind, get, modify, emit, ret, throw.
      cbn [fst snd ColumnManagement.modalState ColumnManagement.setModalState
           ColumnManagement.editState ColumnManagement.setEditState
           ColumnManagement.ModalState.action
           ColumnManagement.EditState.editMode
           ColumnManagement.EditState.editColumnName ColumnManagement.id
           ColumnManagement.toColumnData].
      rewrite Hc, Hname, Hor, Z2string_truthy, Hnum. cbn [negb].
      first_request fetchColumns_settles srv.
  - intros c st arg Hc row st1. subst row st1. split; [|intros Hname Hop].
    + unfold log_of, state_after, run, ConditionCallbacks.onDelete,
        ConditionCallbacks.askDelete,
        ConditionManagement.handleDeleteCondition, deleteCondition, axios.
      unfold try_finally, try_catch, bind, get, modify, emit, ret, throw.
      cbn [fst snd ConditionManagement.modalState
           ConditionManagement.setModalState
           ConditionManagement.ModalState.selectedConditionId
           ConditionManagement.id ConditionManagement.toCondition].
      rewrite Hc, Hor, Z2string_truthy, Hnum.
      first_request fetchConditions_settles srv.
    + split; [|reflexivity].
      unfold log_of, state_after, run, ConditionCallbacks.startEdit,
        ConditionManagement.handleEditCondition, updateCondition, axios.
      unfold try_finally, try_catch, bind, get, modify, emit, ret, throw.
      cbn [fst snd ConditionManagement.editState
           ConditionManagement.setEditState ConditionManagement.setModalState
           ConditionManagement.EditState.editMode
           ConditionManagement.EditState.editConditionName
           ConditionManagement.EditState.editOperators
           ConditionManagement.EditState.editColumnName
           ConditionManagement.id ConditionManagement.name
           ConditionManagement.operators ConditionManagement.toCondition].
      apply String.eqb_neq in Hop.
      rewrite Hc, Hname, Hop, Hor, Z2string_truthy, Hnum. cbn [negb orb].
      first_request fetchConditions_settles srv.
  - intros g st Hg. rewrite (Hrule i g st Hg).
    now rewrite (Z2string_safe i Hsafe).
  - intros c st arg Hc. apply (Hdelete (10 ^ 21)); [exact Hc|].
    vm_compute. reflexivity.
  - intros g st Hg. rewrite (Hrule (10 ^ 21) g st Hg).
    vm_compute. reflexivity.
Qed.

Lemma row_actions_send_server_id_witness :
  let row := ColumnManagement.toColumnData (api_column 2 "a") in
  hd_error
    (requests
       (log_of (ColumnCallbacks.onDelete read_only "")
          (state_after (ColumnCallbacks.askDelete row) showing_three_columns)))
  = Some (DELETE_columns 2%float) /\
  hd_error
    (requests
       (log_of (ColumnCallbacks.submit read_write)
          (state_after (ColumnCallbacks.startEdit row ;;
                        ColumnCallbacks.onChangeName "age")
             showing_three_columns)))
  = Some (PUT_columns 2%float "age") /\
  hd_error
    (requests
       (log_of (RuleApply.handleDeleteRule offline)
          (state_after
             (RuleCallbacks.confirmDeleteRule
                (JS.Z2string (RuleApply.id (RuleApply.toUiRule group_adults))))
             showing_two_rules)))
  = Some (DELETE_ruleGroups "42").
Proof.
  cbv zeta. split; [|split].
  - exact (proj1 (proj1 (row_actions_send_server_id read_only 2 eq_refl)
                    (api_column 2 "a") showing_three_columns "" eq_refl)).
  - exact (proj2 (proj1 (row_actions_send_server_id read_write 2 eq_refl)
                    (api_column 2 "a") showing_three_columns "" eq_refl)
             "age" eq_refl).
  - exact (proj1 (proj2 (proj2 (row_actions_send_server_id offline 42
                                  eq_refl)))
             group_adults showing_two_rules eq_refl).
Defined.

(* ===================================================================== *)
(** * The comparators as orderings                                        *)
(* ===================================================================== *)

Lemma binary_round_signed (sx : bool) (m : positive) (e : Z) :
  signed sx (binary_round prec emax sx m e).
Proof.
  unfold binary_round, binary_round_aux.
  destruct (shl_align m e _) as [mz ez].
  destruct (shr_fexp _ _ _ _ _) as [mrs' e'].
  destruct (shr_fexp _ _ _ _ _) as [mrs'' e''].
  destruct (shr_m mrs''); cbn; auto.
  destruct (e'' <=? _); reflexivity.
Qed.

Lemma signed_true_not_above (f : spec_float) :
  signed true f -> above_zero f = false.
Proof. destruct f as [s|s| |s m e]; cbn; intros E; try subst; reflexivity. Qed.

Lemma normalize_above (m e : Z) :
  above_zero (binary_normalize prec emax m e false) = true -> 0 < m.
Proof.
  destruct m as [|p|p]; cbn [binary_normalize]; intros Hp; try lia.
  - discriminate.
  - rewrite signed_true_not_above in Hp by apply binary_round_signed.
    discriminate.
Qed.

Lemma normalize_below (m e : Z) :
  m < 0 -> above_zero (binary_normalize prec emax m e false) = false.
Proof.
  destruct m as [|p|p]; try lia. intros _. cbn [binary_normalize].
  apply signed_true_not_above, binary_round_signed.
Qed.

Lemma SFsub_asym (x y : spec_float) :
  above_zero (SFsub prec emax x y) = true ->
  above_zero (SFsub prec emax y x) = false.
Proof.
  destruct x as [sx|sx| |sx mx ex], y as [sy|sy| |sy my ey];
    try solve [ cbn; congruence | destruct sx; cbn; congruence
              | destruct sy; cbn; congruence
              | destruct sx, sy; cbn; congruence ].
  cbn [SFsub]. intros Hp. apply normalize_above in Hp.
  rewrite (Z.min_comm ey ex). apply normalize_below. lia.
Qed.

(** A difference and the difference the other way round are not both
    above zero, also when they are rounded, infinite or no number. *)
Lemma sub_asym (x y : JS.number) :
  (0 <? x - y)%float = true -> (0 <? y - x)%float = false.
Proof. rewrite !ltb_spec, !sub_spec. apply SFsub_asym. Qed.

Lemma by_order_sub_asym (o : SortOrder) (x y : JS.number) :
  (0 <? by_order o (x - y) (y - x))%float = true ->
  (0 <? by_order o (y - x) (x - y))%float = false.
Proof. destruct o; apply sub_asym. Qed.

Lemma by_order_text_asym `{C : JS.Collator} (o : SortOrder) (s t : string) :
  antisymmetric C ->
  (0 <? by_order o (JS.localeCompare s t) (- JS.localeCompare s t))%float
  = true ->
  (0 <? by_order o (JS.localeCompare t s) (- JS.localeCompare t s))%float
  = false.
Proof.
  intros Hanti. unfold JS.localeCompare. rewrite (Hanti s t).
  destruct (JS.collate t s), o; vm_compute; congruence.
Qed.

Section SortFacts.

Context {A : Type} (cmp : A -> A -> JS.number).

Lemma insert_permutation (x : A) (l : list A) :
  Permutation (JS.insert cmp x l) (x :: l).
Proof.
  induction l as [|y l IH]; [reflexivity|].
  cbn [JS.insert]. destruct (0 <? cmp x y)%float; [|reflexivity].
  rewrite IH. apply perm_swap.
Qed.

Lemma sort_permutation (l : list A) : Permutation (JS.sort cmp l) l.
Proof.
  induction l as [|x l IH]; [reflexivity|].
  unfold JS.sort in *. cbn [fold_right].
  rewrite insert_permutation. now constructor.
Qed.

Hypothesis cmp_asym : asymmetric cmp.

Lemma insert_sorted (x : A) (l : list A) :
  Sorted (fun a b => after cmp a b = false) l ->
  Sorted (fun a b => after cmp a b = false) (JS.insert cmp x l).
Proof.
  induction l as [|y l IH]; intros Hl; [repeat constructor|].
  cbn [JS.insert]. destruct (0 <? cmp x y)%float eqn:Exy.
  - inversion Hl as [|? ? Hl' Hhd]; subst. constructor; [now apply IH|].
    destruct l as [|z l]; cbn [JS.insert].
    + constructor. now apply cmp_asym.
    + destruct (0 <? cmp x z)%float.
      * constructor. now inversion Hhd.
      * constructor. now apply cmp_asym.
  - constructor; [assumption | now constructor].
Qed.

Lemma sort_sorted (l : list A) :
  Sorted (fun a b => after cmp a b = false) (JS.sort cmp l).
Proof.
  induction l as [|x l IH]; [constructor|].
  unfold JS.sort in *. cbn [fold_right]. now apply insert_sorted.
Qed.

End SortFacts.

Section Comparators.

Context `{C : JS.Collator}.
Hypothesis collate_antisym : antisymmetric C.

Lemma compareColumns_asym (f : SortField) (o : SortOrder) :
  asymmetric (ColumnManagement.compareColumns f o).
Proof.
  intros a b. unfold after, ColumnManagement.compareColumns.
  destruct (SortField_eqb f F_id); cbv zeta.
  - apply by_order_sub_asym.
  - now apply by_order_text_asym.
Qed.

Lemma compareConditions_asym (f : SortField) (o : SortOrder) :
  asymmetric (ConditionManagement.compareConditions f o).
Proof.
  intros a b. unfold after, ConditionManagement.compareConditions.
  destruct (SortField_eqb f F_id); cbv zeta; [apply by_order_sub_asym|].
  rewrite (andb_comm (negb (JS.isNaN (JS.Number_ (ConditionManagement.value b))))).
  destruct (SortField_eqb f F_value && _); [apply by_order_sub_asym|].
  unfold ConditionManagement.compareText. cbv zeta.
  now apply by_order_text_asym.
Qed.

Lemma compareRules_asym (f : RuleApply.RuleSortField) (o : SortOrder) :
  asymmetric (RuleApply.compareRules f o).
Proof.
  intros a b. unfold after, RuleApply.compareRules.
  destruct (_ || _); cbv zeta; [apply by_order_sub_asym|].
  rewrite (andb_comm (negb (JS.isNaN (JS.Number_ (RuleApply.value b))))).
  destruct (RuleApply.RuleSortField_eqb f RuleApply.R_value && _);
    [apply by_order_sub_asym|].
  rewrite !rules_compareText_zero. now destruct o.
Qed.

End Comparators.

(** X21. The sort pass of the three screens. Under a collation that
    answers the opposite when its arguments are swapped, none of the three
    comparators ever puts each of two rows after the other, for any sort
    field and order (the numeric branches subtract, and a difference and
    its reverse are never both above zero, also when rounded, infinite or
    [NaN]). The sorted array is then a rearrangement of the adapted rows
    in which no row is after its right neighbour by the comparator. *)
Theorem sort_orders_neighbours `{C : JS.Collator} :
  antisymmetric C ->
  (forall f o,
      asymmetric (ColumnManagement.compareColumns f o) /\
      forall rows,
        let sorted := ColumnManagement.sortColumns (Some f) o rows in
        Permutation sorted rows /\
        Sorted (fun a b => after (ColumnManagement.compareColumns f o) a b
                           = false) sorted) /\
  (forall f o,
      asymmetric (ConditionManagement.compareConditions f o) /\
      forall rows,
        let sorted := ConditionManagement.sortConditions (Some f) o rows in
        Permutation sorted rows /\
        Sorted (fun a b => after (ConditionManagement.compareConditions f o)
                             a b = false) sorted) /\
  (forall f o,
      asymmetric (RuleApply.compareRules f o) /\
      forall rows,
        let sorted := RuleApply.sortRules f o rows in
        Permutation sorted rows /\
        Sorted (fun a b => after (RuleApply.compareRules f o) a b = false)
          sorted).
Proof.
  intros Hanti. split; [|split]; intros f o.
  - split; [now apply compareColumns_asym|]. intros rows sorted. subst sorted.
    cbn [ColumnManagement.sortColumns]. split.
    + apply sort_permutation.
    + now apply sort_sorted, compareColumns_asym.
  - split; [now apply compareConditions_asym|]. intros rows sorted.
    subst sorted. cbn [ConditionManagement.sortConditions]. split.
    + apply sort_permutation.
    + now apply sort_sorted, compareConditions_asym.
  - split; [now apply compareRules_asym|]. intros rows sorted. subst sorted.
    assert (Hsort : RuleApply.sortRules f o rows
                    = JS.sort (RuleApply.compareRules f o) rows)
      by now destruct f.
    rewrite Hsort. split.
    + apply sort_permutation.
    + now apply sort_sorted, compareRules_asym.
Qed.

Lemma sort_orders_neighbours_witness :
  antisymmetric codeunit_order /\
  Permutation
    (ColumnManagement.sortColumns (Some F_columnName) asc
       (List.map ColumnManagement.toColumnData three_columns))
    (List.map ColumnManagement.toColumnData three_columns).
Proof.
  split; [exact String.compare_antisym|].
  apply (proj2 (proj1 (@sort_orders_neighbours codeunit_order
                         String.compare_antisym) F_columnName asc)
           (List.map ColumnManagement.toColumnData three_columns)).
Defined.

(** X22. The value sort of the Condition screen is no consistent
    ordering of mixed values. The comparator subtracts when both values
    are numbers and compares the texts otherwise; under code-unit
    collation, for three rows with the values "10", "9" and "1a", in
    ascending order "10" comes after "9" (as numbers), "9" after "1a" and
    "1a" after "10" (as texts): the three rows form a cycle, and the
    reverse cycle in descending order. *)
Theorem value_sort_has_a_cycle (o : SortOrder)
  (a b c : ConditionManagement.Condition) :
  ConditionManagement.value a = "10" ->
  ConditionManagement.value b = "9" ->
  ConditionManagement.value c = "1a" ->
  let cmp := @ConditionManagement.compareConditions codeunit_order F_value o in
  match o with
  | asc => after cmp a b = true /\ after cmp b c = true /\ after cmp c a = true
  | desc => after cmp b a = true /\ after cmp c b = true /\ after cmp a c = true
  end.
Proof.
  intros Ha Hb Hc cmp. subst cmp.
  unfold after, ConditionManagement.compareConditions,
    ConditionManagement.compareText.
  cbn [SortField_eqb ConditionManagement.prop]. cbv zeta.
  rewrite Ha, Hb, Hc. destruct o; vm_compute; auto.
Qed.

Lemma value_sort_has_a_cycle_witness :
  let row v := ConditionManagement.toCondition (api_condition 1 v) in
  let cmp :=
    @ConditionManagement.compareConditions codeunit_order F_value asc in
  after cmp (row "10") (row "9") = true /\
  after cmp (row "9") (row "1a") = true /\
  after cmp (row "1a") (row "10") = true.
Proof.
  cbv zeta.
  exact (value_sort_has_a_cycle asc
           (ConditionManagement.toCondition (api_condition 1 "10"))
           (ConditionManagement.toCondition (api_condition 1 "9"))
           (ConditionManagement.toCondition (api_condition 1 "1a"))
           eq_refl eq_refl eq_refl).
Defined.

(* ===================================================================== *)
(** * The checks of the Condition forms                                   *)
(* ===================================================================== *)

(** X23. The operator check of the Condition forms. The select box offers
    the placeholder option with the value "Select operators"; the add form
    starts with, and rejects, the text "Select Operators". So an add form
    whose select box was never touched is rejected with "Operators must be
    selected." and nothing is sent, while an add form on which the
    placeholder option was chosen passes the operator check: with a name
    that is not blank and a column chosen, the create request goes out
    with the operator "Select operators". The edit form rejects the
    placeholder option. A check of the add form that passes clears its
    message; a check of the edit form that passes leaves the message of
    an earlier attempt in place. *)
Theorem operator_placeholder_check `{JS.Collator} (srv : Backend)
  (st : ConditionManagement.State) (ops : list string) :
  let placeholder := hd "" (ConditionCallbacks.operatorOptions ops) in
  let f := ConditionManagement.formState st in
  let e := ConditionManagement.editState st in
  let added := state_after (ConditionManagement.handleAddCondition srv) st in
  let saved := state_after (ConditionManagement.handleEditCondition srv) st in
  (ConditionManagement.FormState.operators f
   = ConditionManagement.FormState.operators
       ConditionManagement.FormState.initial ->
   log_of (ConditionManagement.handleAddCondition srv) st = [] /\
   ConditionManagement.FormState.operatorsError
     (ConditionManagement.formState added) = "Operators must be selected." /\
   (JS.truthy_str (JS.trim (ConditionManagement.FormState.conditionName f))
    = true ->
    ConditionManagement.FormState.nameError
      (ConditionManagement.formState added) = "")) /\
  (ConditionManagement.FormState.operators f = placeholder ->
   JS.truthy_str (JS.trim (ConditionManagement.FormState.conditionName f))
   = true ->
   ConditionManagement.FormState.columnName f <> None ->
   hd_error (requests (log_of (ConditionManagement.handleAddCondition srv) st))
   = Some (POST_conditions (ConditionManagement.newCondition f)) /\
   Api.Condition.operator (ConditionManagement.newCondition f)
   = "Select operators") /\
  (ConditionManagement.EditState.editOperators e = placeholder ->
   log_of (ConditionManagement.handleEditCondition srv) st = [] /\
   ConditionManagement.EditState.operatorsError
     (ConditionManagement.editState saved) = "Operators must be selected." /\
   (JS.truthy_str
      (JS.trim (ConditionManagement.EditState.editConditionName e)) = true ->
    ConditionManagement.EditState.nameError
      (ConditionManagement.editState saved)
    = ConditionManagement.EditState.nameError e)).
Proof.
  intros placeholder f e added saved.
  subst placeholder added saved. cbn [hd ConditionCallbacks.operatorOptions].
  split; [|split].
  - intros Hop.
    unfold log_of, state_after, run, ConditionManagement.handleAddCondition.
    unfold bind, get, modify, ret. cbv zeta. fold f. rewrite Hop.
    cbn [ConditionManagement.FormState.operators
         ConditionManagement.FormState.initial String.eqb].
    change ("Select Operators" =? "Select Operators")%string with true.
    destruct (JS.truthy_str _) eqn:Hname;
      destruct (ConditionManagement.FormState.columnName f);
      cbn; repeat split; congruence.
  - intros Hop Hname Hcol.
    unfold log_of, state_after, run, ConditionManagement.handleAddCondition,
      createCondition, axios.
    unfold try_finally, try_catch, bind, get, modify, emit, ret, throw.
    cbv zeta. fold f. rewrite Hop, Hname.
    change ("Select operators" =? "Select Operators")%string with false.
    destruct (ConditionManagement.FormState.columnName f) as [c|] eqn:Ecol;
      [clear Hcol | contradiction].
    cbn [negb orb]. split.
    + first_request fetchConditions_settles srv.
    + unfold ConditionManagement.newCondition. cbn. exact Hop.
  - intros Hop.
    unfold log_of, state_after, run, ConditionManagement.handleEditCondition.
    unfold bind, get, modify, ret. cbv zeta. fold e. rewrite Hop.
    change ("Select operators" =? "Select operators")%string with true.
    destruct (JS.truthy_str _) eqn:Hname;
      destruct (ConditionManagement.EditState.editColumnName e);
      cbn; repeat split; congruence.
Qed.

Lemma operator_placeholder_check_witness :
  hd_error
    (requests
       (log_of (ConditionManagement.handleAddCondition offline)
          placeholder_chosen))
  = Some (POST_conditions
            (ConditionManagement.newCondition
               (ConditionManagement.formState placeholder_chosen))) /\
  log_of (ConditionManagement.handleAddCondition offline)
    ConditionManagement.initialState = [].
Proof.
  split.
  - exact (proj1 (proj1 (proj2 (operator_placeholder_check offline
                                  placeholder_chosen []))
                    eq_refl eq_refl ltac:(discriminate))).
  - exact (proj1 (proj1 (operator_placeholder_check offline
                           ConditionManagement.initialState [])
                    eq_refl)).
Defined.

(* ===================================================================== *)
(** * The sort icons of the table headers                                 *)
(* ===================================================================== *)

(** X24. The header icons follow the click. After a click on the header of
    [field], on each of the three screens, that header shows an arrow and
    every other header the neutral icon: the arrow points down when
    [field] was the sort field in ascending order, and up otherwise. *)
Theorem header_icons_follow_the_click :
  (forall (st : ColumnManagement.State) (field g : SortField),
      let st' := state_after (ColumnManagement.handleSort field) st in
      SortIcon.getSortIcon (ColumnManagement.sortField st')
        (ColumnManagement.sortOrder st') g
      = if SortField_eqb g field
        then if same_field field (ColumnManagement.sortField st)
             then SortIcon.arrow (flip (ColumnManagement.sortOrder st))
             else SortIcon.ArrowUpIcon
        else SortIcon.ArrowsUpDownIcon) /\
  (forall (st : ConditionManagement.State) (field g : SortField),
      let st' := state_after (ConditionManagement.handleSort field) st in
      SortIcon.getSortIcon (ConditionManagement.sortField st')
        (ConditionManagement.sortOrder st') g
      = if SortField_eqb g field
        then if same_field field (ConditionManagement.sortField st)
             then SortIcon.arrow (flip (ConditionManagement.sortOrder st))
             else SortIcon.ArrowUpIcon
        else SortIcon.ArrowsUpDownIcon) /\
  (forall (st : RuleApply.State) (field g : RuleApply.RuleSortField),
      let st' := state_after (RuleApply.toggleSort field) st in
      SortIcon.getRuleSortIcon (RuleApply.sortField st')
        (RuleApply.sortOrder st') g
      = if RuleApply.RuleSortField_eqb g field
        then if RuleApply.RuleSortField_eqb (RuleApply.sortField st) field
             then SortIcon.arrow (flip (RuleApply.sortOrder st))
             else SortIcon.ArrowUpIcon
        else SortIcon.ArrowsUpDownIcon).
Proof.
  split; [|split]; intros st field g st'; subst st'.
  - unfold state_after, run, ColumnManagement.handleSort, bind, get, modify.
    destruct (same_field field (ColumnManagement.sortField st)) eqn:E; cbn.
    + apply same_field_eq in E. rewrite E. unfold SortIcon.getSortIcon.
      cbn [same_field]. now destruct (SortField_eqb g field).
    + unfold SortIcon.getSortIcon. cbn [same_field].
      now destruct (SortField_eqb g field).
  - unfold state_after, run, ConditionManagement.handleSort, bind, get, modify.
    destruct (same_field field (ConditionManagement.sortField st)) eqn:E; cbn.
    + apply same_field_eq in E. rewrite E. unfold SortIcon.getSortIcon.
      cbn [same_field]. now destruct (SortField_eqb g field).
    + unfold SortIcon.getSortIcon. cbn [same_field].
      now destruct (SortField_eqb g field).
  - unfold state_after, run, RuleApply.toggleSort, bind, get, modify.
    destruct (RuleApply.RuleSortField_eqb (RuleApply.sortField st) field)
      eqn:E; cbn.
    + apply RuleSortField_eqb_eq in E. rewrite E.
      unfold SortIcon.getRuleSortIcon. now destruct field, g.
    + unfold SortIcon.getRuleSortIcon. now destruct field, g.
Qed.

(* ===================================================================== *)
(** * The total count of the conditions endpoint                          *)
(* ===================================================================== *)

(** X25. [getConditions] on an answered call returns the body as it came
    and reads the total count from the [x-total-count] header with
    [parseInt(_, 10)]: a header that is missing or empty counts as 0, a
    header that holds the decimal text of an integer gives that integer as
    a number. The Condition screen does not read this count: two answers
    with the same body and different headers leave the screen in the same
    state. *)
Theorem conditions_total_from_header `{JS.Collator} (srv : Backend)
  (q : Query) (d : payload Api.Condition.t) (h : option string)
  (st : ConditionManagement.State) :
  conditions srv q = Response true (d, h) ->
  exists response,
    run (getConditions srv q) st
    = (Returned response, st, [Request (GET_conditions q)]) /\
    data response = d /\
    (h = None \/ h = Some "" -> Api.totalCount response = 0%float) /\
    (forall n, h = Some (JS.decimal n) ->
               Api.totalCount response = JS.Z2num n) /\
    (forall srv' h',
        (forall q', conditions srv q' = Response true (d, h)) ->
        (forall q', conditions srv' q' = Response true (d, h')) ->
        state_after (ConditionManagement.fetchConditions srv') st
        = state_after (ConditionManagement.fetchConditions srv) st).
Proof.
  intros Hq. eexists. unfold run, getConditions, axios, bind, emit, ret.
  rewrite Hq. cbn [fst snd app]. split; [reflexivity|].
  cbn [data Api.totalCount]. split; [reflexivity|]. split; [|split].
  - now intros [-> | ->].
  - intros n ->. cbn [JS.nullish]. unfold JS.or_str.
    rewrite decimal_truthy. apply parseInt_decimal.
  - intros srv' h' Hsrv Hsrv'.
    unfold state_after, run, ConditionManagement.fetchConditions,
      getConditions, axios.
    unfold try_finally, try_catch, bind, get, modify, emit, ret, throw.
    now rewrite Hsrv, Hsrv'.
Qed.

Lemma conditions_total_from_header_witness :
  exists response,
    run (getConditions
           (serving NotAnArray (Items twelve_conditions) NotAnArray)
           (conditionsQuery ConditionManagement.initialState))
      ConditionManagement.initialState
    = (Returned response, ConditionManagement.initialState,
       [Request (GET_conditions
                   (conditionsQuery ConditionManagement.initialState))]) /\
    Api.totalCount response = 0%float.
Proof.
  destruct (conditions_total_from_header
              (serving NotAnArray (Items twelve_conditions) NotAnArray)
              (conditionsQuery ConditionManagement.initialState)
              (Items twelve_conditions) None
              ConditionManagement.initialState eq_refl)
    as (response & Hrun & _ & Hzero & _).
  exists response. split; [exact Hrun | apply Hzero; now left].
Defined.

(* ===================================================================== *)
(** * The rows on the screen are rows of the server                      *)
(* ===================================================================== *)

Lemma slice_incl {A : Type} (l : list A) (start end_ : Z) :
  incl (JS.slice l start end_) l.
Proof.
  unfold JS.slice. intros x Hx.
  set (n := Z.to_nat _) in Hx. set (k := Z.to_nat _) in Hx.
  rewrite <- (firstn_skipn k l). apply in_or_app. right.
  rewrite <- (firstn_skipn n (skipn k l)). apply in_or_app. now left.
Qed.

Lemma page_at_most_ten {A : Type} (l : list A) (page : Z) :
  (List.length (pageOf l page) <= 10)%nat.
Proof.
  unfold pageOf, JS.slice, JS.relative_index, itemsPerPage.
  rewrite length_firstn.
  set (len := Z.of_nat (List.length l)).
  destruct ((page - 1) * 10 <? 0) eqn:E1, ((page - 1) * 10 + 10 <? 0) eqn:E2;
    rewrite ?Z.ltb_lt, ?Z.ltb_ge in *; lia.
Qed.

Section Shown.

Context `{JS.Collator}.

Lemma fetchColumns_page (srv : Backend) (st : ColumnManagement.State)
  (rows : list Column.t) :
  (forall q, answered (columns srv q) = Some (Items rows)) ->
  ColumnManagement.columns (state_after (ColumnManagement.fetchColumns srv) st)
  = pageOf (ColumnManagement.sortColumns (ColumnManagement.sortField st)
              (ColumnManagement.sortOrder st)
              (List.map ColumnManagement.toColumnData rows))
      (ColumnManagement.currentPage st).
Proof.
  intros Hsrv.
  unfold state_after, run, ColumnManagement.fetchColumns, getColumns, axios.
  unfold try_finally, try_catch, bind, get, modify, emit, ret.
  match goal with
  | |- context [columns srv ?q] =>
      specialize (Hsrv q); destruct (columns srv q) as [|[] d]
  end; try discriminate.
  injection Hsrv as ->. reflexivity.
Qed.

Lemma fetchConditions_page (srv : Backend) (st : ConditionManagement.State)
  (rows : list Api.Condition.t) (h : option string) :
  (forall q, answered (conditions srv q) = Some (Items rows, h)) ->
  ConditionManagement.conditions
    (state_after (ConditionManagement.fetchConditions srv) st)
  = pageOf (ConditionManagement.sortConditions
              (ConditionManagement.sortField st)
              (ConditionManagement.sortOrder st)
              (List.map ConditionManagement.toCondition rows))
      (ConditionManagement.currentPage st).
Proof.
  intros Hsrv.
  unfold state_after, run, ConditionManagement.fetchConditions,
    getConditions, axios.
  unfold try_finally, try_catch, bind, get, modify, emit, ret.
  match goal with
  | |- context [conditions srv ?q] =>
      specialize (Hsrv q); destruct (conditions srv q) as [|[] d]
  end; try discriminate.
  injection Hsrv as ->. reflexivity.
Qed.

Lemma fetchRules_page (srv : Backend) (st : RuleApply.State)
  (groups : list ApiRuleGroup.t) :
  (forall q, answered (ruleGroups srv q) = Some (Items groups)) ->
  RuleApply.rules (state_after (RuleApply.fetchRules srv) st)
  = pageOf (RuleApply.sortRules (RuleApply.sortField st)
              (RuleApply.sortOrder st) (List.map RuleApply.toUiRule groups))
      (RuleApply.currentPage st).
Proof.
  intros Hsrv.
  unfold state_after, run, RuleApply.fetchRules, getRuleGroups, fetch_json.
  unfold try_finally, try_catch, bind, get, modify, emit, ret.
  match goal with
  | |- context [ruleGroups srv ?q] =>
      specialize (Hsrv q); destruct (ruleGroups srv q) as [|[] d]
  end; try discriminate.
  injection Hsrv as ->. reflexivity.
Qed.

End Shown.

(** X26. After a fetch that is answered with an array, the table holds at
    most ten rows and each of them is the adapted form of a row the server
    sent, on each screen and for every current page, also page 0, a
    negative page and a page past the last one; on the Column screen the
    rows are the current page of the adapted, sorted rows, as on the other
    two screens. *)
Theorem shown_rows_are_server_rows `{JS.Collator} (srv : Backend) :
  (forall (st : ColumnManagement.State) rows,
      (forall q, answered (columns srv q) = Some (Items rows)) ->
      let shown :=
        ColumnManagement.columns
          (state_after (ColumnManagement.fetchColumns srv) st) in
      shown
      = pageOf (ColumnManagement.sortColumns (ColumnManagement.sortField st)
                  (ColumnManagement.sortOrder st)
                  (List.map ColumnManagement.toColumnData rows))
          (ColumnManagement.currentPage st) /\
      incl shown (List.map ColumnManagement.toColumnData rows) /\
      (List.length shown <= 10)%nat) /\
  (forall (st : ConditionManagement.State) rows h,
      (forall q, answered (conditions srv q) = Some (Items rows, h)) ->
      let shown :=
        ConditionManagement.conditions
          (state_after (ConditionManagement.fetchConditions srv) st) in
      incl shown (List.map ConditionManagement.toCondition rows) /\
      (List.length shown <= 10)%nat) /\
  (forall (st : RuleApply.State) groups,
      (forall q, answered (ruleGroups srv q) = Some (Items groups)) ->
      let shown :=
        RuleApply.rules (state_after (RuleApply.fetchRules srv) st) in
      incl shown (List.map RuleApply.toUiRule groups) /\
      (List.length shown <= 10)%nat).
Proof.
  split; [|split].
  - intros st rows Hsrv shown. subst shown.
    rewrite (fetchColumns_page srv st rows Hsrv).
    split; [reflexivity|]. split; [|apply page_at_most_ten].
    intros x Hx. apply slice_incl in Hx.
    destruct (ColumnManagement.sortField st); cbn in Hx; [|exact Hx].
    eapply Permutation_in; [apply sort_permutation | exact Hx].
  - intros st rows h Hsrv shown. subst shown.
    rewrite (fetchConditions_page srv st rows h Hsrv).
    split; [|apply page_at_most_ten].
    intros x Hx. apply slice_incl in Hx.
    destruct (ConditionManagement.sortField st); cbn in Hx; [|exact Hx].
    eapply Permutation_in; [apply sort_permutation | exact Hx].
  - intros st groups Hsrv shown. subst shown.
    rewrite (fetchRules_page srv st groups Hsrv).
    split; [|apply page_at_most_ten].
    intros x Hx. apply slice_incl in Hx.
    unfold RuleApply.sortRules in Hx.
    destruct (JS.truthy_str _); [|exact Hx].
    eapply Permutation_in; [apply sort_permutation | exact Hx].
Qed.

Lemma shown_rows_are_server_rows_witness :
  let shown :=
    ColumnManagement.columns
      (state_after (ColumnManagement.fetchColumns read_write)
         ColumnManagement.initialState) in
  List.map ColumnManagement.columnName shown = ["a"; "b"; "c"] /\
  incl shown (List.map ColumnManagement.toColumnData three_columns).
Proof.
  cbv zeta.
  destruct (proj1 (shown_rows_are_server_rows read_write)
              ColumnManagement.initialState three_columns (fun _ => eq_refl))
    as (Hpage & Hincl & _).
  split; [rewrite Hpage; reflexivity | exact Hincl].
Defined.

(* ===================================================================== *)
(** * No callback throws                                                  *)
(* ===================================================================== *)

Ltac settle_callback lem srv :=
  try (destruct (mutation srv _) as [|[] []]);
  try meet_fetch lem srv;
  (split; cbn [fst snd];
   [ reflexivity
   | unfold requests in *; rewrite ?flat_map_app; cbn [flat_map app List.length];
     repeat match goal with
            | Hq : flat_map _ ?t = [] |- _ => rewrite Hq
            end;
     cbn [flat_map app List.length]; lia ]).

(** X27. No callback of the three screens throws, whatever the form holds
    and whatever the server does: each of the nine mutation callbacks
    returns, having sent at most two requests (the mutation, and the list
    query after it). An error is caught inside the callback, so a click
    never leaves a rejected promise behind. *)
Theorem no_callback_throws `{JS.Collator} (srv : Backend) :
  (forall (st : ColumnManagement.State) id,
      settles (run (ColumnManagement.handleAddColumn srv) st) /\
      settles (run (ColumnManagement.handleEditColumn srv) st) /\
      settles (run (ColumnManagement.handleDeleteColumn srv id) st)) /\
  (forall (st : ConditionManagement.State) id,
      settles (run (ConditionManagement.handleAddCondition srv) st) /\
      settles (run (ConditionManagement.handleEditCondition srv) st) /\
      settles (run (ConditionManagement.handleDeleteCondition srv id) st)) /\
  (forall st : RuleApply.State,
      settles (run (RuleApply.handleAddRule srv) st) /\
      settles (run (RuleApply.handleEditRule srv) st) /\
      settles (run (RuleApply.handleDeleteRule srv) st)).
Proof.
  split; [|split].
  - intros st id. split; [|split].
    + unfold run, ColumnManagement.handleAddColumn, createColumn, axios.
      unfold try_finally, try_catch, bind, get, modify, emit, ret, throw.
      destruct (JS.truthy_str _); cbn [negb];
        settle_callback fetchColumns_settles srv.
    + unfold run, ColumnManagement.handleEditColumn, updateColumn, axios.
      unfold try_finally, try_catch, bind, get, modify, emit, ret, throw.
      destruct (JS.truthy_str (JS.trim _)); cbn [negb];
        [|settle_callback fetchColumns_settles srv].
      destruct (ColumnManagement.EditState.editMode _) as [m|];
        [destruct (JS.truthy_str m)|];
        settle_callback fetchColumns_settles srv.
    + unfold run, ColumnManagement.handleDeleteColumn, deleteColumn, axios.
      unfold try_finally, try_catch, bind, get, modify, emit, ret, throw.
      settle_callback fetchColumns_settles srv.
  - intros st id. split; [|split].
    + unfold run, ConditionManagement.handleAddCondition, createCondition,
        axios.
      unfold try_finally, try_catch, bind, get, modify, emit, ret, throw.
      cbv zeta.
      destruct (JS.truthy_str _), (String.eqb _ _),
        (ConditionManagement.FormState.columnName _); cbn [negb orb];
        settle_callback fetchConditions_settles srv.
    + unfold run, ConditionManagement.handleEditCondition, updateCondition,
        axios.
      unfold try_finally, try_catch, bind, get, modify, emit, ret, throw.
      cbv zeta.
      destruct (JS.truthy_str (JS.trim _)), (String.eqb _ _),
        (ConditionManagement.EditState.editColumnName _); cbn [negb orb];
        try (destruct (ConditionManagement.EditState.editMode _) as [m|];
             [destruct (JS.truthy_str m)|]);
        settle_callback fetchConditions_settles srv.
    + unfold run, ConditionManagement.handleDeleteCondition, deleteCondition,
        axios.
      unfold try_finally, try_catch, bind, get, modify, emit, ret, throw.
      settle_callback fetchConditions_settles srv.
  - intros st. split; [|split].
    + unfold run, RuleApply.handleAddRule, createRuleGroup, fetch_json.
      unfold try_finally, try_catch, bind, get, modify, emit, ret, throw.
      cbv zeta. destruct (RuleApply.hasError _);
        settle_callback fetchRules_settles srv.
    + unfold run, RuleApply.handleEditRule, updateRuleGroup, fetch_json.
      unfold try_finally, try_catch, bind, get, modify, emit, ret, throw.
      cbv zeta. destruct (RuleApply.selected _);
        [destruct (RuleApply.hasError _)|];
        settle_callback fetchRules_settles srv.
    + unfold run, RuleApply.handleDeleteRule, deleteRuleGroup, fetch_json.
      unfold try_finally, try_catch, bind, get, modify, emit, ret, throw.
      destruct (RuleApply.selected _);
        settle_callback fetchRules_settles srv.
Qed.
